(** * datasift-push: the HTTP push endpoint of lib/server.js

    A shallow embedding of [Server], in the revision of lib/server.js that
    assembles meta data and inflates compressed bodies: the constructor
    [initialize], the validators, the body assembler, the payload classifier
    and parser, and the delivery coordinator with its confirmation timer.
    The earlier revision names the validators [authenticate], [validPath]
    and [validSize]; their bodies, and [emitData] but for the meta data, are
    the same.  What it does otherwise ([respond], [handleCheck] and the
    'end' handler) is in the module [Legacy].

    Conventions.
    - A JavaScript string is a [string]: the bytes of its UTF-8 encoding.
      [Buffer.toString()] is therefore the identity on bytes (the
      replacement of ill-formed UTF-8 by U+FFFD is not modelled).
    - A [Buffer] is a [list byte].
    - A JavaScript number that reaches the parser is an exact decimal
      [number] (binary rounding of doubles, NaN and the sign of zero are not
      modelled); sizes, ports and status codes are integers in [Z].
    - The HTTP response, the event emitter, the connection and the timer
      are fields of an explicit per-request [State]; every method of
      [Server] is a state transformer in the monad [M].  Listeners are
      assumed to be registered and not to throw.
    - The response object takes one response: what [writeHead] and [end]
      are given on a finished response never reaches the sender
      ([write_once]).
    - What the runtime provides ([JSON], [String.prototype], base64,
      [url.parse], [http.STATUS_CODES], the header check of [zlib.inflate])
      is modelled after ECMA-262, RFC 4648, RFC 1950 and the Node.js
      documentation.  The HTTP server itself and the 'initialized'
      notification of [initialize] are left out. *)

From stdpp Require Import gmap strings.
From Stdlib Require Import ZArith NArith List String Ascii Bool Lia.
From Stdlib.Strings Require Import Byte.
From Stdlib Require Import DecimalString DecimalN.
Import ListNotations.

Set Warnings "-register-all".

Local Open Scope Z_scope.
Local Open Scope list_scope.

(** ** Characters *)

Module Chars.

Definition code (c : ascii) : N := N_of_ascii c.
Definition chr (n : N) : ascii := ascii_of_N n.

Definition is_digit (c : ascii) : bool :=
  ((48 <=? code c) && (code c <=? 57))%N.

(** The four white space characters of the JSON grammar. *)
Definition is_json_ws (c : ascii) : bool :=
  match code c with
  | 9%N | 10%N | 13%N | 32%N => true
  | _ => false
  end.

Definition hex_digit (n : N) : ascii :=
  if (n <? 10)%N then chr (48 + n) else chr (87 + n).

Definition hex_value (c : ascii) : option N :=
  let n := code c in
  if ((48 <=? n) && (n <=? 57))%N then Some (n - 48)%N
  else if ((97 <=? n) && (n <=? 102))%N then Some (n - 87)%N
  else if ((65 <=? n) && (n <=? 70))%N then Some (n - 55)%N
  else None.

Definition dquote : ascii := chr 34.
Definition bslash : ascii := chr 92.
Definition LF : ascii := chr 10.

Definition lit (s : string) : list ascii := list_ascii_of_string s.

End Chars.
Import Chars.

(** ** Numbers

    A finite number in the form used by Number::toString (ECMA-262,
    6.1.6.1.20): the decimal digits [s] of the significand without leading
    or trailing zero, and [n] with value 0.s * 10^n.  Zero has no digit. *)

Record number := Num { neg : bool; digits : list ascii; point : Z }.

Definition zero : number := Num false [] 0.

Fixpoint strip_zeros (s : list ascii) : list ascii :=
  match s with
  | c :: r => if Ascii.eqb c "0" then strip_zeros r else s
  | [] => []
  end.

(** The number denoted by sign, digits [ds] and 0.ds * 10^pt, in canonical
    form. *)
Definition normalize (sg : bool) (ds : list ascii) (pt : Z) : number :=
  let ds1 := strip_zeros ds in
  match ds1 with
  | [] => zero
  | _ => Num sg (rev (strip_zeros (rev ds1)))
             (pt - (Z.of_nat (List.length ds) - Z.of_nat (List.length ds1)))
  end.

(** The canonical form: zero has no digit, no sign and point 0; otherwise
    the digits are decimal digits with no zero at either end. *)
Definition canonical (x : number) : bool :=
  match digits x with
  | [] => negb (neg x) && (point x =? 0)
  | d :: _ =>
      forallb is_digit (digits x)
      && negb (Ascii.eqb d "0")
      && negb (Ascii.eqb (last (digits x) "0"%char) "0")
  end.

(** Decimal digits of a natural number. *)
Definition dec_digits (n : N) : list ascii :=
  lit (NilZero.string_of_uint (N.to_uint n)).

Definition dec_value (ds : list ascii) : N :=
  match NilZero.uint_of_string (string_of_list_ascii ds) with
  | Some u => N.of_uint u
  | None => 0%N
  end.

Definition number_of_Z (z : Z) : number :=
  normalize (z <? 0) (dec_digits (Z.abs_N z))
            (Z.of_nat (List.length (dec_digits (Z.abs_N z)))).

(** Number::toString, radix 10. *)
Definition Number_toString (x : number) : list ascii :=
  match digits x with
  | [] => ["0"%char]
  | d :: ds =>
      let s := d :: ds in
      let k := Z.of_nat (List.length s) in
      let n := point x in
      (if neg x then ["-"%char] else []) ++
      (if (k <=? n) && (n <=? 21) then s ++ repeat "0"%char (Z.to_nat (n - k))
       else if (0 <? n) && (n <=? 21) then
         firstn (Z.to_nat n) s ++ "."%char :: skipn (Z.to_nat n) s
       else if (-6 <? n) && (n <=? 0) then
         "0"%char :: "."%char :: repeat "0"%char (Z.to_nat (- n)) ++ s
       else
         d :: match ds with [] => [] | _ => "."%char :: ds end
           ++ "e"%char :: (if n - 1 <? 0 then "-"%char else "+"%char)
           :: dec_digits (Z.abs_N (n - 1)))
  end.

(** [eat c s]: the rest of [s] after its first character when that is [c]. *)
Definition eat (c : ascii) (s : list ascii) : option (list ascii) :=
  match s with
  | x :: r => if Ascii.eqb x c then Some r else None
  | [] => None
  end.

Fixpoint span_digits (s : list ascii) : list ascii * list ascii :=
  match s with
  | c :: r =>
      if is_digit c then let (a, b) := span_digits r in (c :: a, b)
      else ([], s)
  | [] => ([], [])
  end.

(** The JSON number grammar: an optional minus sign; an integer part that
    is either the digit 0 or a non-empty run of digits not starting with 0;
    an optional fraction (a dot and at least one digit); an optional
    exponent (e or E, an optional sign, at least one digit). *)
Definition parse_int (s : list ascii) : list ascii * list ascii :=
  match eat "0" s with
  | Some r => (["0"%char], r)
  | None => span_digits s
  end.

Definition parse_frac (s : list ascii) : option (list ascii * list ascii) :=
  match eat "." s with
  | Some r =>
      let (f, s') := span_digits r in
      match f with [] => None | _ => Some (f, s') end
  | None => Some ([], s)
  end.

Definition parse_exp (s : list ascii) : option (Z * list ascii) :=
  match s with
  | e :: r =>
      if Ascii.eqb e "e" || Ascii.eqb e "E" then
        let (esg, r1) := match eat "-" r, eat "+" r with
                         | Some r', _ => (true, r')
                         | None, Some r' => (false, r')
                         | None, None => (false, r)
                         end in
        let (ed, s') := span_digits r1 in
        match ed with
        | [] => None
        | _ => Some ((if esg then - Z.of_N (dec_value ed)
                      else Z.of_N (dec_value ed)), s')
        end
      else Some (0, s)
  | [] => Some (0, s)
  end.

Definition parse_number (s : list ascii) : option (number * list ascii) :=
  let (sg, s1) := match eat "-" s with
                  | Some r => (true, r)
                  | None => (false, s)
                  end in
  let (int, s2) := parse_int s1 in
  match int with
  | [] => None
  | _ =>
      match parse_frac s2 with
      | None => None
      | Some (f, s3) =>
          match parse_exp s3 with
          | None => None
          | Some (e, s4) =>
              Some (normalize sg (int ++ f) (Z.of_nat (List.length int) + e), s4)
          end
      end
  end.

(** ** JavaScript values

    [undefined] and the values of JSON.  An object is the list of its own
    properties in insertion order. *)

Inductive value :=
| VUndefined
| VNull
| VBool (b : bool)
| VNum (n : number)
| VStr (s : string)
| VArr (vs : list value)
| VObj (ps : list (string * value)).

(** ToBoolean *)
Definition truthy (v : value) : bool :=
  match v with
  | VUndefined | VNull => false
  | VBool b => b
  | VNum n => match strip_zeros (digits n) with [] => false | _ => true end
  | VStr s => negb (String.eqb s "")
  | VArr _ | VObj _ => true
  end.

(** [o[k] = v] on the property list of an object. *)
Fixpoint obj_set (k : string) (v : value) (ps : list (string * value))
  : list (string * value) :=
  match ps with
  | [] => [(k, v)]
  | (k', v') :: r =>
      if String.eqb k' k then (k, v) :: r else (k', v') :: obj_set k v r
  end.

Fixpoint obj_get (k : string) (ps : list (string * value)) : option value :=
  match ps with
  | [] => None
  | (k', v) :: r => if String.eqb k' k then Some v else obj_get k r
  end.

(** Property read [v.k] for a name [k] that no prototype defines: it throws
    a TypeError ([None]) on [undefined] and [null], and is [undefined] when
    the value has no such own property. *)
Definition get_prop (v : value) (k : string) : option value :=
  match v with
  | VUndefined | VNull => None
  | VObj ps => Some (default VUndefined (obj_get k ps))
  | _ => Some VUndefined
  end.

(** ** JSON.stringify *)

Definition quote_char (c : ascii) : list ascii :=
  let n := code c in
  if (n =? 34)%N then [bslash; dquote]
  else if (n =? 92)%N then [bslash; bslash]
  else if (n =? 8)%N then [bslash; "b"%char]
  else if (n =? 12)%N then [bslash; "f"%char]
  else if (n =? 10)%N then [bslash; "n"%char]
  else if (n =? 13)%N then [bslash; "r"%char]
  else if (n =? 9)%N then [bslash; "t"%char]
  else if (n <? 32)%N then
    bslash :: lit "u00" ++ [hex_digit (n / 16); hex_digit (n mod 16)]
  else [c].

Definition quote (s : string) : list ascii :=
  dquote :: flat_map quote_char (lit s) ++ [dquote].

Definition is_undefined (v : value) : bool :=
  match v with VUndefined => true | _ => false end.

(** SerializeJSONProperty without indentation; [undefined] is written as
    null inside an array and its property is left out of an object. *)
Fixpoint ser (v : value) : list ascii :=
  match v with
  | VUndefined | VNull => lit "null"
  | VBool true => lit "true"
  | VBool false => lit "false"
  | VNum n => Number_toString n
  | VStr s => quote s
  | VArr vs =>
      "["%char ::
      (fix elems (l : list value) : list ascii :=
         match l with
         | [] => []
         | [x] => ser x
         | x :: r => ser x ++ ","%char :: elems r
         end) vs ++ ["]"%char]
  | VObj ps =>
      "{"%char ::
      (fix members (first : bool) (l : list (string * value)) : list ascii :=
         match l with
         | [] => []
         | (k, x) :: r =>
             if is_undefined x then members first r
             else (if first then [] else [","%char])
                    ++ quote k ++ ":"%char :: ser x ++ members false r
         end) true ps ++ ["}"%char]
  end.

(** [JSON.stringify(v)]: [None] stands for the result [undefined]. *)
Definition JSON_stringify (v : value) : option string :=
  if is_undefined v then None else Some (string_of_list_ascii (ser v)).

(** ** JSON.parse *)

Fixpoint skip_ws (s : list ascii) : list ascii :=
  match s with
  | c :: r => if is_json_ws c then skip_ws r else s
  | [] => []
  end.

Definition hex4 (a b c d : ascii) : option N :=
  match hex_value a, hex_value b, hex_value c, hex_value d with
  | Some x, Some y, Some z, Some w => Some (((x * 16 + y) * 16 + z) * 16 + w)%N
  | _, _, _, _ => None
  end.

Definition is_high_surrogate (u : N) : bool := ((55296 <=? u) && (u <=? 56319))%N.
Definition is_low_surrogate (u : N) : bool := ((56320 <=? u) && (u <=? 57343))%N.

(** UTF-8 encoding of a code point. *)
Definition utf8_encode (cp : N) : list ascii :=
  (if cp <? 128 then [chr cp]
   else if cp <? 2048 then [chr (192 + cp / 64); chr (128 + cp mod 64)]
   else if cp <? 65536 then
     [chr (224 + cp / 4096); chr (128 + (cp / 64) mod 64); chr (128 + cp mod 64)]
   else
     [chr (240 + cp / 262144); chr (128 + (cp / 4096) mod 64);
      chr (128 + (cp / 64) mod 64); chr (128 + cp mod 64)])%N.

(** The text of a code unit written as a u-escape; a unit that is half of a
    surrogate pair without its other half reads as U+FFFD. *)
Definition unit_text (u : N) : list ascii :=
  if is_high_surrogate u || is_low_surrogate u then utf8_encode 65533
  else utf8_encode u.

Definition pair_text (hi lo : N) : list ascii :=
  utf8_encode (65536 + (hi - 55296) * 1024 + (lo - 56320))%N.

Definition simple_escape (e : ascii) : option ascii :=
  match code e with
  | 34%N => Some dquote
  | 92%N => Some bslash
  | 47%N => Some "/"%char
  | 98%N => Some (chr 8)
  | 102%N => Some (chr 12)
  | 110%N => Some (chr 10)
  | 114%N => Some (chr 13)
  | 116%N => Some (chr 9)
  | _ => None
  end.

Definition with_chars (cs : list ascii) (r : option (list ascii * list ascii))
  : option (list ascii * list ascii) :=
  match r with
  | Some (t, rest) => Some (cs ++ t, rest)
  | None => None
  end.

(** The characters of a string literal after its opening quote, and the
    text after its closing quote. *)
Fixpoint parse_chars (s : list ascii) : option (list ascii * list ascii) :=
  match s with
  | [] => None
  | c :: r =>
      if Ascii.eqb c dquote then Some ([], r)
      else if Ascii.eqb c bslash then
        match r with
        | [] => None
        | e :: r1 =>
            match simple_escape e with
            | Some x => with_chars [x] (parse_chars r1)
            | None =>
                if Ascii.eqb e "u" then
                  match r1 with
                  | h1 :: h2 :: h3 :: h4 :: r2 =>
                      match hex4 h1 h2 h3 h4 with
                      | None => None
                      | Some u =>
                          if is_high_surrogate u then
                            match r2 with
                            | b :: x :: l1 :: l2 :: l3 :: l4 :: r3 =>
                                match hex4 l1 l2 l3 l4 with
                                | Some l =>
                                    if Ascii.eqb b bslash && Ascii.eqb x "u"
                                       && is_low_surrogate l
                                    then with_chars (pair_text u l)
                                           (parse_chars r3)
                                    else with_chars (unit_text u)
                                           (parse_chars r2)
                                | None =>
                                    with_chars (unit_text u) (parse_chars r2)
                                end
                            | _ => with_chars (unit_text u) (parse_chars r2)
                            end
                          else with_chars (unit_text u) (parse_chars r2)
                      end
                  | _ => None
                  end
                else None
            end
        end
      else if (code c <? 32)%N then None
      else with_chars [c] (parse_chars r)
  end.

Fixpoint eat_word (w s : list ascii) : option (list ascii) :=
  match w with
  | [] => Some s
  | c :: w' => match eat c s with Some r => eat_word w' r | None => None end
  end.

(** CreateDataProperty for each parsed member in turn: a repeated name keeps
    its first position and its last value. *)
Definition make_object (ms : list (string * value)) : value :=
  VObj (fold_left (fun acc m => obj_set (fst m) (snd m) acc) ms []).

Fixpoint parse_value (fuel : nat) (s : list ascii)
  : option (value * list ascii) :=
  match fuel with
  | O => None
  | S f =>
      match skip_ws s with
      | [] => None
      | c :: r =>
          if Ascii.eqb c "{" then
            match eat "}" (skip_ws r) with
            | Some r' => Some (VObj [], r')
            | None =>
                match parse_members f r with
                | Some (ms, r') => Some (make_object ms, r')
                | None => None
                end
            end
          else if Ascii.eqb c "[" then
            match eat "]" (skip_ws r) with
            | Some r' => Some (VArr [], r')
            | None =>
                match parse_elems f r with
                | Some (vs, r') => Some (VArr vs, r')
                | None => None
                end
            end
          else if Ascii.eqb c dquote then
            match parse_chars r with
            | Some (t, r') => Some (VStr (string_of_list_ascii t), r')
            | None => None
            end
          else if Ascii.eqb c "t" then
            option_map (pair (VBool true)) (eat_word (lit "rue") r)
          else if Ascii.eqb c "f" then
            option_map (pair (VBool false)) (eat_word (lit "alse") r)
          else if Ascii.eqb c "n" then
            option_map (pair VNull) (eat_word (lit "ull") r)
          else
            match parse_number (c :: r) with
            | Some (n, r') => Some (VNum n, r')
            | None => None
            end
      end
  end
with parse_elems (fuel : nat) (s : list ascii)
  : option (list value * list ascii) :=
  match fuel with
  | O => None
  | S f =>
      match parse_value f s with
      | None => None
      | Some (v, r) =>
          match skip_ws r with
          | c :: r' =>
              if Ascii.eqb c "," then
                match parse_elems f r' with
                | Some (vs, r'') => Some (v :: vs, r'')
                | None => None
                end
              else if Ascii.eqb c "]" then Some ([v], r')
              else None
          | [] => None
          end
      end
  end
with parse_members (fuel : nat) (s : list ascii)
  : option (list (string * value) * list ascii) :=
  match fuel with
  | O => None
  | S f =>
      match eat dquote (skip_ws s) with
      | None => None
      | Some r0 =>
          match parse_chars r0 with
          | None => None
          | Some (k, r1) =>
              match eat ":" (skip_ws r1) with
              | None => None
              | Some r2 =>
                  match parse_value f r2 with
                  | None => None
                  | Some (v, r3) =>
                      match skip_ws r3 with
                      | c :: r4 =>
                          if Ascii.eqb c "," then
                            match parse_members f r4 with
                            | Some (ms, r5) =>
                                Some ((string_of_list_ascii k, v) :: ms, r5)
                            | None => None
                            end
                          else if Ascii.eqb c "}" then
                            Some ([(string_of_list_ascii k, v)], r4)
                          else None
                      | [] => None
                      end
                  end
              end
          end
      end
  end.

(** [JSON.parse(text)]: [None] stands for a thrown SyntaxError.  The fuel is
    never the reason for [None] (theorem [JSON_parse_fuel] below). *)
Definition JSON_parse (text : string) : option value :=
  match parse_value (S (2 * String.length text)) (lit text) with
  | Some (v, r) => match skip_ws r with [] => Some v | _ => None end
  | None => None
  end.

(** ** String methods *)

(** [s.split(sep)] for a separator of one character. *)
Fixpoint split (sep : ascii) (s : string) : list string :=
  match s with
  | EmptyString => [EmptyString]
  | String c r =>
      if Ascii.eqb c sep then EmptyString :: split sep r
      else match split sep r with
           | h :: t => String c h :: t
           | [] => [String c EmptyString]
           end
  end.

(** [a.join(sep)] of strings. *)
Fixpoint join (sep : string) (l : list string) : string :=
  match l with
  | [] => EmptyString
  | [x] => x
  | x :: r => x +:+ sep +:+ join sep r
  end.

(** White space and line terminators of ECMA-262 (11.2, 11.3), each as the
    bytes of its UTF-8 encoding: TAB, LF, VT, FF, CR, SP, NBSP, U+1680,
    U+2000..U+200A, U+2028, U+2029, U+202F, U+205F, U+3000, U+FEFF. *)
Definition white_space : list (list ascii) :=
  map (map chr)
    ([[9]; [10]; [11]; [12]; [13]; [32]; [194; 160]; [225; 154; 128]]
     ++ map (fun x => [226; 128; x])
          [128; 129; 130; 131; 132; 133; 134; 135; 136; 137; 138; 168; 169; 175]
     ++ [[226; 129; 159]; [227; 128; 128]; [239; 187; 191]])%N.

Fixpoint strip_prefix (p s : list ascii) : option (list ascii) :=
  match p, s with
  | [], _ => Some s
  | a :: p', b :: s' => if Ascii.eqb a b then strip_prefix p' s' else None
  | _ :: _, [] => None
  end.

Fixpoint strip_any (ws : list (list ascii)) (s : list ascii)
  : option (list ascii) :=
  match ws with
  | [] => None
  | w :: ws' =>
      match strip_prefix w s with
      | Some r => Some r
      | None => strip_any ws' s
      end
  end.

Fixpoint trim_start (fuel : nat) (ws : list (list ascii)) (s : list ascii)
  : list ascii :=
  match fuel with
  | O => s
  | S f =>
      match strip_any ws s with
      | Some r => trim_start f ws r
      | None => s
      end
  end.

(** [s.trim()] *)
Definition trim (s : string) : string :=
  let a := trim_start (String.length s) white_space (lit s) in
  let b := trim_start (List.length a) (map (@rev ascii) white_space) (rev a) in
  string_of_list_ascii (rev b).

(** [path.indexOf(p) === 0] *)
Definition starts_with (p s : string) : bool :=
  match strip_prefix (lit p) (lit s) with Some _ => true | None => false end.

(** *** Base64

    [new Buffer(s, 'base64').toString()]: characters outside the alphabet
    (the URL-safe variants of 62 and 63 are in it) are skipped, decoding
    stops at the first padding character, and a final group of two or
    three characters gives one or two bytes. *)
Definition b64_value (c : ascii) : option N :=
  let n := code c in
  (if (65 <=? n) && (n <=? 90) then Some (n - 65)
   else if (97 <=? n) && (n <=? 122) then Some (n - 71)
   else if (48 <=? n) && (n <=? 57) then Some (n + 4)
   else if (n =? 43) || (n =? 45) then Some 62
   else if (n =? 47) || (n =? 95) then Some 63
   else None)%N.

Fixpoint sextets (s : list ascii) : list N :=
  match s with
  | [] => []
  | c :: r =>
      if Ascii.eqb c "=" then []
      else match b64_value c with
           | Some v => v :: sextets r
           | None => sextets r
           end
  end.

Fixpoint b64_bytes (l : list N) : list ascii :=
  (match l with
   | a :: b :: c :: d :: r =>
       chr (a * 4 + b / 16) :: chr ((b mod 16) * 16 + c / 4)
         :: chr ((c mod 4) * 64 + d) :: b64_bytes r
   | [a; b; c] => [chr (a * 4 + b / 16); chr ((b mod 16) * 16 + c / 4)]
   | [a; b] => [chr (a * 4 + b / 16)]
   | _ => []
   end)%N.

Definition base64_toString (s : string) : string :=
  string_of_list_ascii (b64_bytes (sextets (lit s))).

(** [buffer.toString()] *)
Definition toString (b : list byte) : string := string_of_list_byte b.

(** ** Configuration

    The [options] object with the types of the README.  A field is either
    not an own property of the object, or an own property whose value may
    be [undefined]. *)

Inductive field (A : Type) :=
| Absent
| Own (v : option A).
Arguments Absent {A}.
Arguments Own {A} v.

(** [options.name] *)
Definition get {A} (f : field A) : option A :=
  match f with Absent => None | Own v => v end.

(** [options.hasOwnProperty('name')] *)
Definition hasOwnProperty {A} (f : field A) : bool :=
  match f with Absent => false | Own _ => true end.

Record Options := {
  opt_hostname : field string;
  opt_port : field Z;
  opt_path : field string;
  opt_format : field string;
  opt_confirmData : field bool;
  opt_maxSize : field Z;
  opt_username : field string;
  opt_password : field string
}.

Definition no_options : Options :=
  Build_Options Absent Absent Absent Absent Absent Absent Absent Absent.

(** ToBoolean on a number, a string or a boolean that may be [undefined]. *)
Definition truthy_num (a : option Z) : bool :=
  match a with Some n => negb (n =? 0) | None => false end.
Definition truthy_str (a : option string) : bool :=
  match a with Some s => negb (String.eqb s "") | None => false end.
Definition truthy_bool (a : option bool) : bool :=
  match a with Some b => b | None => false end.

(** [a || d] *)
Definition or_num (a : option Z) (d : Z) : Z :=
  match a with Some n => if truthy_num a then n else d | None => d end.
Definition or_str (a : option string) (d : string) : string :=
  match a with Some s => if truthy_str a then s else d | None => d end.

(** ** Requests, responses and notifications *)

Record Request := {
  url : string;
  headers : gmap string string
}.

(** [http.STATUS_CODES], the entries the server uses. *)
Definition STATUS_CODES (code : Z) : option string :=
  match code with
  | 200 => Some "OK"
  | 400 => Some "Bad Request"
  | 401 => Some "Unauthorized"
  | 404 => Some "Not Found"
  | 413 => Some "Request Entity Too Large"
  | 500 => Some "Internal Server Error"
  | _ => None
  end%string.

(** One [writeHead] followed by one [end] on the response. *)
Record Response := {
  statusCode : Z;
  reasonPhrase : option string;
  contentType : string;
  body : option string
}.

(** [http.ServerResponse]: [response.writeHead(...)] followed by
    [response.end(...)], on the list of what the response object has sent.
    The first pair sends the response and finishes the object.  On a
    finished object nothing is sent again: in the http module of the
    code's time [writeHead] stores a header that is never flushed and
    [end] returns false at once; later versions throw from [writeHead].
    Either way the sender keeps the first response. *)
Definition write_once (sent : list Response) (r : Response) : list Response :=
  match sent with
  | [] => [r]
  | _ :: _ => sent
  end.

(** [url.parse(u, true)] of an origin-form request target: the path up to
    the first question mark or hash sign, the query, the fragment. *)
Record Url := { pathname : string; search : string; fragment : string }.

Fixpoint until (stop : ascii -> bool) (s : string) : string * string :=
  match s with
  | EmptyString => (EmptyString, EmptyString)
  | String c r =>
      if stop c then (EmptyString, s)
      else let (a, b) := until stop r in (String c a, b)
  end.

Definition url_parse (u : string) : Url :=
  let (p, r) := until (fun c => Ascii.eqb c "?" || Ascii.eqb c "#") u in
  let (q, f) := until (fun c => Ascii.eqb c "#") r in
  {| pathname := p; search := q; fragment := f |}.

Record Meta := {
  meta_url : string;
  meta_url_parsed : Url;
  meta_hash : option string;
  meta_hash_type : option string;
  meta_id : option string
}.

(** What [this.emit] has been called with, but for 'initialized'.  The last
    field of [Data] tells whether the [done] callback was passed along. *)
Inductive Notification :=
| Refused (reason : string)
| Error (message : string)
| Check
| Data (data : value) (meta : Meta) (done : bool).

(** ** The state of one request *)

(** [doneTimeout] of [emitData] *)
Inductive Timer := Unset | Pending | Cleared | Fired.

Inductive Phase :=
| NoHandlers                          (* no 'data' or 'end' handler registered *)
| Receiving                           (* handlers registered, body not ended *)
| Inflating (bufferData : list byte)  (* zlib.inflate has not called back *)
| Finished.                           (* the 'end' handler has run *)

Record State := {
  phase : Phase;
  buffer : list (list byte);     (* [buffer] of [handleRequest] *)
  size : Z;                      (* [size] of [handleRequest] *)
  destroyed : bool;              (* [request.connection.destroyed] *)
  responses : list Response;     (* what the response object has sent *)
  emitted : list Notification;   (* calls of [emit], oldest first *)
  doneTimeout : Timer;
  doneHeld : bool;               (* a listener was handed [done] *)
  parsed : list string           (* ghost: the arguments of the calls of [parse] *)
}.

Definition initial : State :=
  {| phase := NoHandlers; buffer := []; size := 0; destroyed := false;
     responses := []; emitted := []; doneTimeout := Unset; doneHeld := false;
     parsed := [] |}.

Definition set_phase (p : Phase) (st : State) : State :=
  {| phase := p; buffer := buffer st; size := size st;
     destroyed := destroyed st; responses := responses st;
     emitted := emitted st; doneTimeout := doneTimeout st;
     doneHeld := doneHeld st; parsed := parsed st |}.
Definition set_buffer (b : list (list byte)) (st : State) : State :=
  {| phase := phase st; buffer := b; size := size st;
     destroyed := destroyed st; responses := responses st;
     emitted := emitted st; doneTimeout := doneTimeout st;
     doneHeld := doneHeld st; parsed := parsed st |}.
Definition set_size (n : Z) (st : State) : State :=
  {| phase := phase st; buffer := buffer st; size := n;
     destroyed := destroyed st; responses := responses st;
     emitted := emitted st; doneTimeout := doneTimeout st;
     doneHeld := doneHeld st; parsed := parsed st |}.
Definition set_destroyed (d : bool) (st : State) : State :=
  {| phase := phase st; buffer := buffer st; size := size st;
     destroyed := d; responses := responses st;
     emitted := emitted st; doneTimeout := doneTimeout st;
     doneHeld := doneHeld st; parsed := parsed st |}.
Definition set_responses (r : list Response) (st : State) : State :=
  {| phase := phase st; buffer := buffer st; size := size st;
     destroyed := destroyed st; responses := r;
     emitted := emitted st; doneTimeout := doneTimeout st;
     doneHeld := doneHeld st; parsed := parsed st |}.
Definition set_emitted (e : list Notification) (st : State) : State :=
  {| phase := phase st; buffer := buffer st; size := size st;
     destroyed := destroyed st; responses := responses st;
     emitted := e; doneTimeout := doneTimeout st;
     doneHeld := doneHeld st; parsed := parsed st |}.
Definition set_doneTimeout (t : Timer) (st : State) : State :=
  {| phase := phase st; buffer := buffer st; size := size st;
     destroyed := destroyed st; responses := responses st;
     emitted := emitted st; doneTimeout := t;
     doneHeld := doneHeld st; parsed := parsed st |}.
Definition set_doneHeld (h : bool) (st : State) : State :=
  {| phase := phase st; buffer := buffer st; size := size st;
     destroyed := destroyed st; responses := responses st;
     emitted := emitted st; doneTimeout := doneTimeout st;
     doneHeld := h; parsed := parsed st |}.
Definition set_parsed (l : list string) (st : State) : State :=
  {| phase := phase st; buffer := buffer st; size := size st;
     destroyed := destroyed st; responses := responses st;
     emitted := emitted st; doneTimeout := doneTimeout st;
     doneHeld := doneHeld st; parsed := l |}.

(** The methods of [Server] run in the state monad over [State]. *)
Definition M (A : Type) : Type := State -> A * State.

#[global] Instance M_ret : MRet M := fun A a st => (a, st).
#[global] Instance M_bind : MBind M :=
  fun A B f m st => let (a, st') := m st in f a st'.

Definition modify (f : State -> State) : M unit := fun st => (tt, f st).
Definition gets {A} (f : State -> A) : M A := fun st => (f st, st).
Definition exec {A} (m : M A) (st : State) : State := snd (m st).

(** ** The server *)

Module Server.

(** Class constants *)
Definition DEFAULT_HOSTNAME : option string := None.
Definition DEFAULT_PORT : Z := 80.
Definition DEFAULT_PATH : string := "/".
Definition DEFAULT_FORMAT : string := "json_meta".
Definition CONFIRM_DATA : option bool := Some false.
Definition MAX_SIZE : Z := 20971520.
Definition RESPOND_TIME : Z := 10000.

Record t := {
  options : Options;
  hostname : option string;
  port : Z;
  path : string;
  format : string;
  confirmData : option bool;
  maxSize : Z
}.

(** Constructor ([new Server(options)]); [None] is a call without options. *)
Definition initialize (o : option Options) : t :=
  let options := match o with Some x => x | None => no_options end in
  {| options := options;
     hostname := if hasOwnProperty (opt_hostname options)
                 then get (opt_hostname options) else DEFAULT_HOSTNAME;
     port := or_num (get (opt_port options)) DEFAULT_PORT;
     path := or_str (get (opt_path options)) DEFAULT_PATH;
     format := or_str (get (opt_format options)) DEFAULT_FORMAT;
     confirmData := if hasOwnProperty (opt_confirmData options)
                    then get (opt_confirmData options) else CONFIRM_DATA;
     maxSize := or_num (get (opt_maxSize options)) MAX_SIZE |}.

(** [this.emit(...)] *)
Definition emit (n : Notification) : M unit :=
  modify (fun st => set_emitted (emitted st ++ [n]) st).

(** Respond to request: [code] and [data] are optional. *)
Definition respond (code : option Z) (data : option string) : M unit :=
  let code := or_num code 200 in
  let r body := {| statusCode := code; reasonPhrase := STATUS_CODES code;
                   contentType := "text/plain"; body := body |} in
  modify (fun st =>
    set_responses
      (write_once (responses st)
         (r (if (code =? 200) && negb (truthy_str data)
             then JSON_stringify (VObj [("success"%string, VBool true)])
             else if truthy_str data then data else STATUS_CODES code)))
      st).

(** Handle HTTP authentication *)
Definition validateAuthentication (this : t) (request : Request) : M bool :=
  if negb (truthy_str (get (opt_username (options this)))
           && truthy_str (get (opt_password (options this))))
  then mret true
  else
    let header := or_str (headers request !! "authorization"%string) "" in
    let encrypted := or_str (last (Some <$> split " " header) None) "" in
    let credentials := split ":" (base64_toString encrypted) in
    if bool_decide (credentials !! 0%nat = get (opt_username (options this)))
       && bool_decide (credentials !! 1%nat = get (opt_password (options this)))
    then mret true
    else
      respond (Some 401) None;;
      emit (Refused "Request did not contain required authentication headers");;
      mret false.

(** Validate requested path *)
Definition validatePath (this : t) (request : Request) : M bool :=
  let path := pathname (url_parse (url request)) in
  if starts_with (Server.path this) path then mret true
  else
    respond (Some 404) None;;
    emit (Refused ("Requested path " +:+ String dquote path +:+ String dquote
                     " does not match " +:+ String dquote (Server.path this)
                     +:+ String dquote ""));;
    mret false.

(** [n + ''] for an integer *)
Definition Z_toString (n : Z) : string :=
  string_of_list_ascii (Number_toString (number_of_Z n)).

(** Validate size of post data *)
Definition validateSize (this : t) (size : Z) : M bool :=
  if size <=? maxSize this then mret true
  else
    respond (Some 413) None;;
    modify (set_destroyed true);;
    emit (Refused ("Post data exceeded limit of " +:+ Z_toString (maxSize this)
                     +:+ " bytes"));;
    mret false.

(** Handle endpoint checks (post body is the text of an empty object) *)
Definition handleCheck (rawData : string) : M bool :=
  if String.eqb rawData "{}" then
    respond (Some 200) None;;
    emit Check;;
    mret true
  else mret false.

Fixpoint map_parse (l : list string) : option (list value) :=
  match l with
  | [] => Some []
  | x :: r =>
      match JSON_parse x, map_parse r with
      | Some v, Some vs => Some (v :: vs)
      | _, _ => None
      end
  end.

(** The body of the try block of [parse]; [None] is a thrown exception. *)
Definition parse_try (this : t) (rawData : string) : option value :=
  if String.eqb (format this) "json_meta" || String.eqb (format this) "json_array"
  then
    match JSON_parse rawData with
    | Some v => get_prop v "interactions"
    | None => None
    end
  else option_map VArr (map_parse (split LF (trim rawData))).

(** Parse post data *)
Definition parse (this : t) (rawData : string) : M value :=
  modify (fun st => set_parsed (parsed st ++ [rawData]) st);;
  match parse_try this rawData with
  | Some v => mret v
  | None =>
      respond (Some 400) None;;
      emit (Refused "Could not parse post data");;
      mret VUndefined
  end.

(** [clearTimeout(doneTimeout)] *)
Definition clearTimeout : M unit :=
  modify (fun st => match doneTimeout st with
                    | Pending => set_doneTimeout Cleared st
                    | _ => st
                    end).

(** The closure [done] of [emitData] *)
Definition done (success : value) : M unit :=
  clearTimeout;;
  respond (Some (match success with VBool false => 500 | _ => 200 end)) None.

(** The function given to [setTimeout] in [emitData] *)
Definition onTimeout : M unit :=
  modify (set_doneTimeout Fired);;
  emit (Error "Callback for data event not called within allowed time");;
  done (VBool false).

(** Emit parsed data *)
Definition emitData (this : t) (request : Request) (data : value) : M unit :=
  modify (set_doneTimeout Pending);;
  let meta := {| meta_url := url request;
                 meta_url_parsed := url_parse (url request);
                 meta_hash := headers request !! "x-datasift-hash"%string;
                 meta_hash_type := headers request !! "x-datasift-hash-type"%string;
                 meta_id := headers request !! "x-datasift-id"%string |} in
  if truthy_bool (confirmData this) then
    emit (Data data meta true);;
    modify (set_doneHeld true)
  else
    emit (Data data meta false);;
    done VUndefined.

(** Validate and handle request body *)
Definition handleRequestData (this : t) (request : Request) (rawData : string)
  : M unit :=
  isCheck ← handleCheck rawData;
  if isCheck : bool then mret tt
  else
    data ← parse this rawData;
    if negb (truthy data) then mret tt
    else emitData this request data.

(** Emit internal errors *)
Definition handleError (e : string) : M unit := emit (Error e).

(** The 'data' handler of [handleRequest] *)
Definition onData (this : t) (chunk : list byte) : M unit :=
  d ← gets destroyed;
  if d : bool then mret tt
  else
    modify (fun st => set_size (size st + Z.of_nat (List.length chunk)) st);;
    sz ← gets size;
    ok ← validateSize this sz;
    if ok : bool then modify (fun st => set_buffer (buffer st ++ [chunk]) st)
    else mret tt.

(** The callback given to [zlib.inflate]; [None] is an error. *)
Definition onInflate (this : t) (request : Request) (r : option (list byte))
  : M unit :=
  modify (set_phase Finished);;
  match r with
  | None =>
      respond (Some 400) None;;
      emit (Refused "Could not inflate compressed data")
  | Some data => handleRequestData this request (toString data)
  end.

(** The 'end' handler of [handleRequest] *)
Definition onEnd (this : t) (request : Request) : M unit :=
  d ← gets destroyed;
  if d : bool then mret tt
  else
    b ← gets buffer;
    let bufferData := List.concat b in
    if bool_decide (headers request !! "content-encoding"%string = Some "gzip"%string)
    then modify (set_phase (Inflating bufferData))
    else
      modify (set_phase Finished);;
      handleRequestData this request (toString bufferData).

(** Handle incoming request: the part that runs when the request arrives. *)
Definition handleRequest (this : t) (request : Request) : M unit :=
  ok ← validateAuthentication this request;
  if negb ok then mret tt
  else
    ok ← validatePath this request;
    if negb ok then mret tt
    else modify (set_phase Receiving).

End Server.

Abbreviation Server := Server.t.

(** ** zlib

    [zlib.inflate] reads the zlib container of RFC 1950: a deflate stream
    behind a header of two bytes CMF and FLG, where the low four bits of CMF
    are 8 (deflate), its high four bits are at most 7, CMF * 256 + FLG is a
    multiple of 31, and bit 5 of FLG (a preset dictionary) is clear.  It
    calls back with an error on any other header.  What it makes of the
    deflate stream itself is left to the environment. *)
Definition zlib_header_ok (b : list byte) : bool :=
  match b with
  | cmf :: flg :: _ =>
      let c := Z.of_N (Byte.to_N cmf) in
      let f := Z.of_N (Byte.to_N flg) in
      (Z.land c 15 =? 8) && (Z.shiftr c 4 <=? 7)
      && ((c * 256 + f) mod 31 =? 0) && negb (Z.testbit f 5)
  | _ => false
  end.

(** A gzip member (RFC 1952) starts with the bytes 31 and 139. *)
Definition gzip_magic (b : list byte) : bool :=
  match b with
  | id1 :: id2 :: _ => ((Byte.to_N id1 =? 31) && (Byte.to_N id2 =? 139))%N
  | _ => false
  end.

(** ** The events of one request

    What the environment does to a request after [handleRequest] returned:
    the transport delivers body chunks, the end of the body or an error,
    zlib calls back, the timer fires, and a listener of 'data' calls the
    [done] it was given. *)
Inductive Input :=
| Chunk (chunk : list byte)
| End
| RequestError (e : string)
| Inflated (r : option (list byte))
| TimerFired
| DoneCalled (success : value).

(** Whether the environment can produce the input in a state: 'data', 'end'
    and 'error' need their handlers and come before the end of the body; a
    timer fires while it is pending; [done] can be called by who holds it;
    zlib calls back once, and never with data for a bad header. *)
Definition enabled (i : Input) (st : State) : bool :=
  match i with
  | Chunk _ | End | RequestError _ =>
      match phase st with Receiving => true | _ => false end
  | Inflated r =>
      match phase st with
      | Inflating b => match r with Some _ => zlib_header_ok b | None => true end
      | _ => false
      end
  | TimerFired => match doneTimeout st with Pending => true | _ => false end
  | DoneCalled _ => doneHeld st
  end.

Definition handler (this : Server) (request : Request) (i : Input) : M unit :=
  match i with
  | Chunk c => Server.onData this c
  | End => Server.onEnd this request
  | RequestError e => Server.handleError e
  | Inflated r => Server.onInflate this request r
  | TimerFired => Server.onTimeout
  | DoneCalled v => Server.done v
  end.

Definition step (this : Server) (request : Request) (i : Input) (st : State)
  : option State :=
  if enabled i st then Some (exec (handler this request i) st) else None.

Fixpoint run (this : Server) (request : Request) (l : list Input) (st : State)
  : option State :=
  match l with
  | [] => Some st
  | i :: r =>
      match step this request i st with
      | Some st' => run this request r st'
      | None => None
      end
  end.

(** The request from its arrival through the inputs [l]. *)
Definition serve (this : Server) (request : Request) (l : list Input)
  : option State :=
  run this request l (exec (Server.handleRequest this request) initial).

(** ** Vocabulary of the statements *)

(** The response that [respond] writes for a status code other than 0 when
    it is given no body. *)
Definition response_of (code : Z) : Response :=
  {| statusCode := code; reasonPhrase := STATUS_CODES code;
     contentType := "text/plain";
     body := if code =? 200
             then JSON_stringify (VObj [("success"%string, VBool true)])
             else STATUS_CODES code |}.

(** The request passed authentication and path validation. *)
Definition accepted (this : Server) (request : Request) : Prop :=
  exec (Server.handleRequest this request) initial = set_phase Receiving initial.

(** The text [s] with each apostrophe replaced by a double quote. *)
Definition json (s : string) : string :=
  string_of_list_ascii
    (map (fun c => if Ascii.eqb c "'" then dquote else c) (lit s)).

Definition bytes (s : string) : list byte := list_byte_of_string s.

(** Calls of [done] and firings of the timer among the inputs. *)
Definition completion (i : Input) : bool :=
  match i with TimerFired | DoneCalled _ => true | _ => false end.
Definition completions (l : list Input) : nat :=
  List.length (filter completion l).

(** The status code that a completion event asks for: 500 when the timer
    fires or [done] is called with false, 200 otherwise. *)
Definition completion_code (i : Input) : Z :=
  match i with
  | TimerFired | DoneCalled (VBool false) => 500
  | _ => 200
  end.

(** Nothing is outstanding: the body ended (or the connection was destroyed,
    or no handler was registered), zlib called back and no timer is
    pending. *)
Definition settled (st : State) : bool :=
  match phase st with
  | NoHandlers | Finished => true
  | Receiving => destroyed st
  | Inflating _ => false
  end
  && match doneTimeout st with Pending => false | _ => true end.

(** [parse] returns a falsy value for the payload without throwing. *)
Definition swallowed (this : Server) (rawData : string) : bool :=
  match Server.parse_try this rawData with
  | Some v => negb (truthy v)
  | None => false
  end.

Definition is_data (n : Notification) : bool :=
  match n with Data _ _ _ => true | _ => false end.
Definition is_check (n : Notification) : bool :=
  match n with Check => true | _ => false end.

Definition total (chunks : list (list byte)) : Z :=
  Z.of_nat (List.length (List.concat chunks)).

(** No timer was started and [done] was handed to nobody. *)
Definition quiet (st : State) : Prop :=
  doneTimeout st = Unset /\ doneHeld st = false.

(** Where a request stands after [n] completion events: turned away by a
    validator, receiving its body (or cut off by the size limit), waiting
    for zlib, or past the end of its body, and then either waiting for the
    application ([done] was handed out) or not. *)
Definition stage (this : Server) (n : nat) (st : State) : Prop :=
  match phase st with
  | NoHandlers =>
      List.length (responses st) = 1%nat /\ quiet st /\ n = 0%nat
  | Receiving =>
      List.length (responses st) = (if destroyed st then 1 else 0)%nat
      /\ quiet st /\ n = 0%nat
  | Inflating _ =>
      responses st = [] /\ destroyed st = false /\ quiet st /\ n = 0%nat
  | Finished =>
      if doneHeld st then
        List.length (responses st) = Nat.min 1 n
        /\ (doneTimeout st = Pending <-> n = 0%nat)
      else
        n = 0%nat /\ doneTimeout st <> Pending
        /\ (List.length (responses st) = 1%nat
            \/ (responses st = []
                /\ Exists (fun text => swallowed this text = true) (parsed st)))
  end.

(** The reason of the size rejection *)
Definition size_message (this : Server) : string :=
  "Post data exceeded limit of " +:+ Server.Z_toString (Server.maxSize this)
    +:+ " bytes".

(** The state of an accepted request that received the chunks [cs], none of
    them beyond the limit. *)
Definition received (cs : list (list byte)) : State :=
  set_buffer cs (set_size (total cs) (set_phase Receiving initial)).

(** What a request error adds to the notifications *)
Definition error_of (i : Input) : list Notification :=
  match i with RequestError e => [Error e] | _ => [] end.

(** The text that [validateAuthentication] compares with the credentials:
    what follows the last space of the Authorization header, decoded. *)
Definition credentials_text (request : Request) : string :=
  base64_toString
    (or_str (last (Some <$> split " " (or_str (headers request !! "authorization"%string) ""))
                  None) "").

(** [user:pass], possibly followed by a colon and more. *)
Definition names (user pass text : string) : Prop :=
  text = user +:+ String ":" pass
  \/ exists more, text = user +:+ String ":" (pass +:+ String ":" more).

(** The values that JSON can write and read back: no [undefined], numbers
    in canonical form, objects whose property names are distinct. *)
Fixpoint distinct (l : list string) : bool :=
  match l with
  | [] => true
  | x :: r => negb (existsb (String.eqb x) r) && distinct r
  end.

Fixpoint serializable (v : value) : bool :=
  match v with
  | VUndefined => false
  | VNull | VBool _ | VStr _ => true
  | VNum n => canonical n
  | VArr vs =>
      (fix all (l : list value) : bool :=
         match l with
         | [] => true
         | x :: r => serializable x && all r
         end) vs
  | VObj ps =>
      distinct (map fst ps)
      && (fix all (l : list (string * value)) : bool :=
            match l with
            | [] => true
            | (_, x) :: r => serializable x && all r
            end) ps
  end.

(** [X.map(JSON.stringify).join(LF)]; [join] writes [undefined] as the
    empty string. *)
Definition stringify_lines (X : list value) : string :=
  join (String LF "") (map (fun v => default ""%string (JSON_stringify v)) X).

(** The [meta] object that [emitData] assembles. *)
Definition meta_of (request : Request) : Meta :=
  {| meta_url := url request;
     meta_url_parsed := url_parse (url request);
     meta_hash := headers request !! "x-datasift-hash"%string;
     meta_hash_type := headers request !! "x-datasift-hash-type"%string;
     meta_id := headers request !! "x-datasift-id"%string |}.

(** *** Vocabulary of the JSON round trip *)

Abbreviation len := (@List.length ascii).

(** No character of a quoted string is a line feed (or any control). *)
Definition printable (c : ascii) : bool := (32 <=? code c)%N.

(** The text cannot continue a run of digits. *)
Definition stops (rest : list ascii) : bool :=
  match rest with
  | [] => true
  | c :: _ => negb (is_digit c)
  end.

(** The text cannot continue a number. *)
Definition ends_number (rest : list ascii) : bool :=
  match rest with
  | [] => true
  | c :: _ =>
      negb (is_digit c) && negb (Ascii.eqb c ".")
      && negb (Ascii.eqb c "e") && negb (Ascii.eqb c "E")
  end.

(** The digits of a canonical number that is not zero. *)
Definition significand (s : list ascii) : Prop :=
  forallb is_digit s = true
  /\ (exists d r, s = d :: r /\ Ascii.eqb d "0" = false)
  /\ Ascii.eqb (last s "0"%char) "0" = false.

(** The elements of an array and the members of an object as [ser] writes
    them. *)
Fixpoint ser_elems (l : list value) : list ascii :=
  match l with
  | [] => []
  | [x] => ser x
  | x :: r => ser x ++ ","%char :: ser_elems r
  end.

Fixpoint ser_members (first : bool) (l : list (string * value)) : list ascii :=
  match l with
  | [] => []
  | (k, x) :: r =>
      if is_undefined x then ser_members first r
      else (if first then [] else [","%char])
             ++ quote k ++ ":"%char :: ser x ++ ser_members false r
  end.

(** The fuel that reading a value back takes. *)
Fixpoint height (v : value) : nat :=
  match v with
  | VArr vs => S (fold_right (fun x h => S (Nat.max (height x) h)) O vs)
  | VObj ps => S (fold_right (fun p h => S (Nat.max (height (snd p)) h)) O ps)
  | _ => 1
  end.

(** A character that a value can start with. *)
Definition starter (c : ascii) : bool :=
  is_digit c || Ascii.eqb c "-" || Ascii.eqb c dquote || Ascii.eqb c "["
  || Ascii.eqb c "{" || Ascii.eqb c "t" || Ascii.eqb c "f" || Ascii.eqb c "n".

(** A character of the text of a number. *)
Definition numeric (c : ascii) : bool :=
  is_digit c || Ascii.eqb c "-" || Ascii.eqb c "+" || Ascii.eqb c "."
  || Ascii.eqb c "e".

(** A character that a value can end with. *)
Definition closer (c : ascii) : bool :=
  is_digit c || Ascii.eqb c dquote || Ascii.eqb c "]" || Ascii.eqb c "}"
  || Ascii.eqb c "e" || Ascii.eqb c "l".

Definition height_elems (vs : list value) : nat :=
  fold_right (fun x h => S (Nat.max (height x) h)) O vs.
Definition height_members (ps : list (string * value)) : nat :=
  fold_right (fun p h => S (Nat.max (height (snd p)) h)) O ps.

Definition reads_back (v : value) : Prop :=
  serializable v = true ->
  forall (fuel : nat) (rest : list ascii),
    (height v <= fuel)%nat -> ends_number rest = true ->
    parse_value fuel (ser v ++ rest) = Some (v, rest).

(** The string has the character in it. *)
Fixpoint contains (sep : ascii) (s : string) : bool :=
  match s with
  | EmptyString => false
  | String c r => Ascii.eqb c sep || contains sep r
  end.

(** A printable character of ASCII other than the space. *)
Definition solid (c : ascii) : bool := ((32 <? code c) && (code c <? 127))%N.

(** The text of a serializable value. *)
Definition text_of (v : value) : string := string_of_list_ascii (ser v).

(** Sample configurations and requests *)
Definition with_confirmData (b : bool) : Options :=
  Build_Options Absent Absent Absent Absent (Own (Some b)) Absent Absent Absent.
Definition with_maxSize (n : Z) : Options :=
  Build_Options Absent Absent Absent Absent Absent (Own (Some n)) Absent Absent.
Definition with_format (f : string) : Options :=
  Build_Options Absent Absent Absent (Own (Some f)) Absent Absent Absent Absent.
Definition with_credentials (u p : string) : Options :=
  Build_Options Absent Absent Absent Absent Absent Absent
    (Own (Some u)) (Own (Some p)).

Definition plain : Request := {| url := "/"; headers := ∅ |}.
Definition gzipped : Request :=
  {| url := "/";
     headers := {[ "content-encoding"%string := "gzip"%string ]} |}.
Definition authorized (h : string) : Request :=
  {| url := "/"; headers := {[ "authorization"%string := h ]} |}.

(** [gzip] of the two characters of an empty object (no name, time 0). *)
Definition gzip_of_check : list byte :=
  [x1f; x8b; x08; x00; x00; x00; x00; x00; x02; x03; xab; xae; x05; x00;
   x43; xbf; xa6; xa3; x02; x00; x00; x00].

(** [zlib] of the two characters of an empty object. *)
Definition zlib_of_check : list byte :=
  [x78; x9c; xab; xae; x05; x00; x01; x75; x00; xf9].

(** A payload of 101 bytes and its zlib stream of 32 bytes. *)
Definition long_record : string :=
  json "{'interactions':['aaaaaaaaaaaaaaaaaaaaaaaaaaaaaaaaaaaaaaaaaaaaaaaaaaaaaaaaaaaaaaaaaaaaaaaaaaaaaaaa']}".
Definition zlib_of_long_record : list byte :=
  [x78; xda; xab; x56; xca; xcc; x2b; x49; x2d; x4a; x4c; x2e; xc9; xcc;
   xcf; x2b; x56; xb2; x8a; x56; x4a; xa4; x32; x50; x8a; xad; x05; x00;
   x89; x78; x25; xd6].

(** The interactions of test/mocks.js *)
Definition mock_interactions : list value :=
  [VObj [("interaction", VStr "foo"); ("twitter", VStr "bar")];
   VObj [("interaction", VStr "lorem"); ("twitter", VStr "ipsum")];
   VObj [("interaction", VStr "dolor"); ("other", VStr "amet")]]%string.

(** The payloads of test/mocks.js *)
Definition mock_jsonMeta : string :=
  json "{'id':123,'interactions':[{'interaction':'foo','twitter':'bar'},{'interaction':'lorem','twitter':'ipsum'},{'interaction':'dolor','other':'amet'}]}".
Definition mock_jsonNewLine : string := stringify_lines mock_interactions.

(** ** Vocabulary of the further properties *)

(** A notification that settles what a request was: refused, check or data. *)
Definition outcome (n : Notification) : bool :=
  match n with Error _ => false | _ => true end.
Definition outcomes (st : State) : nat :=
  List.length (filter outcome (emitted st)).

(** The status codes the server answers with. *)
Definition status_codes : list Z := [200; 400; 401; 404; 413; 500].

(** A response as [respond] writes it for one of these codes and no body. *)
Definition canonical_response (r : Response) : Prop :=
  In (statusCode r) status_codes /\ r = response_of (statusCode r).

(** What holds of a request between two events. *)
Definition sound (this : Server) (st : State) : Prop :=
  Forall canonical_response (responses st)
  /\ (outcomes st <= 1)%nat
  /\ match phase st with
     | NoHandlers =>
         quiet st /\ List.length (responses st) = 1%nat
     | Receiving =>
         quiet st
         /\ if destroyed st then List.length (responses st) = 1%nat
            else responses st = [] /\ outcomes st = 0%nat
     | Inflating _ =>
         quiet st /\ responses st = [] /\ outcomes st = 0%nat
     | Finished => True
     end
  /\ (truthy_bool (Server.confirmData this) = false ->
      doneHeld st = false /\ doneTimeout st <> Pending
      /\ Forall (fun r => statusCode r <> 500) (responses st)
      /\ (List.length (responses st) <= 1)%nat).


(** The state with other values of the body assembler's two variables. *)
Definition reframe (b : list (list byte)) (z : option Z) (st : State) : State :=
  set_buffer b (set_size (default (size st) z) st).

(** The request without its content-encoding header. *)
Definition unencoded (request : Request) : Request :=
  {| url := url request;
     headers := delete "content-encoding"%string (headers request) |}.


(** The state after [parse] has refused the payload [rawData]. *)
Definition refused_payload (rawData : string) (st : State) : State :=
  set_emitted (emitted st ++ [Refused "Could not parse post data"])
    (set_responses (write_once (responses st) (response_of 400))
       (set_parsed (parsed st ++ [rawData]) st)).

(** The text of the records between two runs of JSON white space. *)
Definition padded (p1 : list ascii) (X : list value) (p2 : list ascii) : string :=
  string_of_list_ascii (p1 ++ lit (stringify_lines X) ++ p2).


(** [buffer.toString('base64')] (RFC 4648, section 4, with padding). *)
Definition b64_char (n : N) : ascii :=
  (if n <? 26 then chr (65 + n)
   else if n <? 52 then chr (71 + n)
   else if n <? 62 then chr (n - 4)
   else if n =? 62 then "+"%char else "/"%char)%N.

Fixpoint b64_chars (l : list ascii) : list ascii :=
  (match l with
   | a :: b :: c :: r =>
       b64_char (code a / 4) :: b64_char ((code a mod 4) * 16 + code b / 16)
         :: b64_char ((code b mod 16) * 4 + code c / 64)
         :: b64_char (code c mod 64) :: b64_chars r
   | [a; b] =>
       [b64_char (code a / 4); b64_char ((code a mod 4) * 16 + code b / 16);
        b64_char ((code b mod 16) * 4); "="%char]
   | [a] =>
       [b64_char (code a / 4); b64_char ((code a mod 4) * 16); "="%char;
        "="%char]
   | [] => []
   end)%N.

Definition toString_base64 (s : string) : string :=
  string_of_list_ascii (b64_chars (lit s)).

(** The Authorization header of HTTP basic authentication. *)
Definition basic (user pass : string) : string :=
  "Basic " +:+ toString_base64 (user +:+ String ":" pass).


(** The state of a request that a validator turned away. *)
Definition turned_away (code : Z) (reason : string) : State :=
  set_emitted [Refused reason] (set_responses [response_of code] initial).

(** The reason of the path rejection *)
Definition path_message (this : Server) (request : Request) : string :=
  "Requested path " +:+ String dquote (pathname (url_parse (url request)))
    +:+ String dquote " does not match "
    +:+ String dquote (Server.path this) +:+ String dquote "".

(** Characters that [url.parse] leaves as they are in a request target. *)
Definition url_plain (c : ascii) : bool :=
  let n := code c in
  ((48 <=? n) && (n <=? 57) || (65 <=? n) && (n <=? 90)
   || (97 <=? n) && (n <=? 122))%N
  || existsb (Ascii.eqb c) (lit "/-_.%=&?#").


(** ** The earlier revision

    lib/server.js before meta data and compressed bodies: [respond] has no
    default code and no default body, [handleCheck] passes the body of its
    response itself, the 'end' handler does what [handleRequestData] does
    now, and 'data' is emitted without meta data.  The constructor, the
    validators (there [authenticate], [validPath], [validSize]) and the try
    block of [parse] are as above. *)

Inductive LegacyNotification :=
| LRefused (reason : string)
| LError (message : string)
| LCheck
| LData (data : value) (done : bool).

Record LegacyState := {
  l_responses : list Response;
  l_emitted : list LegacyNotification;
  l_doneTimeout : Timer;
  l_doneHeld : bool
}.

Module Legacy.

Definition emit (n : LegacyNotification) (st : LegacyState) : LegacyState :=
  {| l_responses := l_responses st; l_emitted := l_emitted st ++ [n];
     l_doneTimeout := l_doneTimeout st; l_doneHeld := l_doneHeld st |}.

(** Respond to request *)
Definition respond (code : Z) (data : option string) (st : LegacyState)
  : LegacyState :=
  {| l_responses :=
       write_once (l_responses st)
         {| statusCode := code; reasonPhrase := STATUS_CODES code;
            contentType := "text/plain";
            body := if truthy_str data then data else STATUS_CODES code |};
     l_emitted := l_emitted st;
     l_doneTimeout := l_doneTimeout st; l_doneHeld := l_doneHeld st |}.

(** Handle endpoint checks *)
Definition handleCheck (rawData : string) (st : LegacyState)
  : bool * LegacyState :=
  if String.eqb rawData "{}" then
    (true,
     emit LCheck
       (respond 200 (JSON_stringify (VObj [("success"%string, VBool true)])) st))
  else (false, st).

(** Parse post data *)
Definition parse (this : Server) (rawData : string) (st : LegacyState)
  : value * LegacyState :=
  match Server.parse_try this rawData with
  | Some v => (v, st)
  | None =>
      (VUndefined, emit (LRefused "Could not parse post data") (respond 400 None st))
  end.

Definition set_timer (t : Timer) (st : LegacyState) : LegacyState :=
  {| l_responses := l_responses st; l_emitted := l_emitted st;
     l_doneTimeout := t; l_doneHeld := l_doneHeld st |}.

Definition set_held (h : bool) (st : LegacyState) : LegacyState :=
  {| l_responses := l_responses st; l_emitted := l_emitted st;
     l_doneTimeout := l_doneTimeout st; l_doneHeld := h |}.

Definition clearTimeout (st : LegacyState) : LegacyState :=
  match l_doneTimeout st with
  | Pending => set_timer Cleared st
  | _ => st
  end.

(** The closure [done] of [emitData] *)
Definition done (success : value) (st : LegacyState) : LegacyState :=
  respond (match success with VBool false => 500 | _ => 200 end) None
    (clearTimeout st).

(** The function given to [setTimeout] in [emitData] *)
Definition onTimeout (st : LegacyState) : LegacyState :=
  done (VBool false)
    (emit (LError "Callback for data event not called within allowed time")
       (set_timer Fired st)).

(** Emit parsed data *)
Definition emitData (this : Server) (data : value) (st : LegacyState)
  : LegacyState :=
  let st := set_timer Pending st in
  if truthy_bool (Server.confirmData this) then
    set_held true (emit (LData data true) st)
  else done VUndefined (emit (LData data false) st).

(** The 'end' handler of [handleRequest], past its test of the connection *)
Definition onEnd (this : Server) (rawData : string) (st : LegacyState)
  : LegacyState :=
  let (isCheck, st) := handleCheck rawData st in
  if isCheck then st
  else
    let (data, st) := parse this rawData st in
    if negb (truthy data) then st else emitData this data st.

End Legacy.

(** What the earlier revision shows of a notification and of a state *)
Definition forget (n : Notification) : LegacyNotification :=
  match n with
  | Refused r => LRefused r
  | Error m => LError m
  | Check => LCheck
  | Data d _ k => LData d k
  end.

Definition legacy_view (st : State) : LegacyState :=
  {| l_responses := responses st; l_emitted := map forget (emitted st);
     l_doneTimeout := doneTimeout st; l_doneHeld := doneHeld st |}.

(** The response of the earlier revision to a delivery it takes as done *)
Definition legacy_ok : Response :=
  {| statusCode := 200; reasonPhrase := Some "OK"%string;
     contentType := "text/plain"; body := Some "OK"%string |}.

(** The decimal numeral of a natural number, as the Standard Library
    writes it. *)
Definition decimal (n : N) : string := NilZero.string_of_uint (N.to_uint n).

(** The state after [validateSize] has refused a chunk, with the limit
    written as [limit] in the reason. *)
Definition over_limit (limit : string) (st : State) : State :=
  set_emitted
    (emitted st ++ [Refused ("Post data exceeded limit of " +:+ limit +:+ " bytes")])
    (set_destroyed true
       (set_responses (write_once (responses st) (response_of 413)) st)).


(** * Properties *)

(** ** The assertions of the test suite *)

Example respond_with_default_values :
  responses (exec (Server.respond None None) initial)
  = [{| statusCode := 200; reasonPhrase := Some "OK"%string;
        contentType := "text/plain";
        body := Some (json "{'success':true}") |}].
Proof. reflexivity. Qed.

Example respond_with_custom_code :
  responses (exec (Server.respond (Some 404) None) initial)
  = [{| statusCode := 404; reasonPhrase := Some "Not Found"%string;
        contentType := "text/plain"; body := Some "Not Found"%string |}].
Proof. reflexivity. Qed.

Example respond_with_custom_data :
  map body (responses (exec (Server.respond None (Some "lorem"%string)) initial))
  = [Some "lorem"%string]
  /\ map body
       (responses (exec (Server.respond (Some 404) (Some "lorem"%string)) initial))
     = [Some "lorem"%string].
Proof. split; reflexivity. Qed.

(** The response object takes the first response only. *)
Example respond_twice :
  responses (exec (Server.respond (Some 200) None;; Server.respond (Some 500) None)
               initial)
  = [response_of 200].
Proof. reflexivity. Qed.

Example refused_on_invalid_path :
  Server.validatePath (Server.initialize
                         (Some (Build_Options Absent Absent
                                  (Own (Some "/lorem/ipsum"%string))
                                  Absent Absent Absent Absent Absent)))
    {| url := "/foo/bar"; headers := ∅ |} initial
  = (false,
     set_emitted
       [Refused (json "Requested path '/foo/bar' does not match '/lorem/ipsum'")]
       (set_responses [response_of 404] initial)).
Proof. vm_compute. reflexivity. Qed.

Example parse_json_meta :
  Server.parse_try (Server.initialize (Some (with_format "json_meta")))
    mock_jsonMeta = Some (VArr mock_interactions).
Proof. vm_compute. reflexivity. Qed.

Example parse_json_new_line :
  Server.parse_try (Server.initialize (Some (with_format "json_new_line")))
    mock_jsonNewLine = Some (VArr mock_interactions).
Proof. vm_compute. reflexivity. Qed.

Example parse_mismatching_format :
  Server.parse (Server.initialize None) mock_jsonNewLine initial
  = (VUndefined,
     set_emitted [Refused "Could not parse post data"]
       (set_responses [response_of 400]
          (set_parsed [mock_jsonNewLine] initial))).
Proof. vm_compute. reflexivity. Qed.

Example emitData_without_confirmation :
  exec (Server.emitData (Server.initialize None) plain (VArr [])) initial
  = set_responses [response_of 200]
      (set_doneTimeout Cleared
         (set_emitted [Data (VArr []) (meta_of plain) false] initial)).
Proof. vm_compute. reflexivity. Qed.

Example emitData_with_confirmation :
  exec (Server.emitData (Server.initialize (Some (with_confirmData true)))
          plain (VArr [])) initial
  = set_doneHeld true
      (set_doneTimeout Pending
         (set_emitted [Data (VArr []) (meta_of plain) true] initial)).
Proof. vm_compute. reflexivity. Qed.

Example emitData_times_out :
  option_map (fun st => (map statusCode (responses st), emitted st))
    (run (Server.initialize (Some (with_confirmData true))) plain [TimerFired]
       (exec (Server.emitData (Server.initialize (Some (with_confirmData true)))
                plain (VArr [])) initial))
  = Some ([500],
          [Data (VArr []) (meta_of plain) true;
           Error "Callback for data event not called within allowed time"]).
Proof. vm_compute. reflexivity. Qed.

(** ** Configuration *)

(** C9: options read with [||] fall back to the default on a falsy value
    (maxSize 0 gives 20971520, port 0 gives 80, an empty path gives the
    root path, an empty format gives json_meta); confirmData and hostname
    are read through hasOwnProperty and keep the value given, false and
    undefined included. *)
Theorem initialize_falsy_options :
  (forall h p pa f c u w,
      Server.maxSize (Server.initialize
        (Some (Build_Options h p pa f c (Own (Some 0)) u w))) = 20971520)
  /\ (forall h pa f c m u w,
      Server.port (Server.initialize
        (Some (Build_Options h (Own (Some 0)) pa f c m u w))) = 80)
  /\ (forall h p f c m u w,
      Server.path (Server.initialize
        (Some (Build_Options h p (Own (Some ""%string)) f c m u w))) = "/"%string)
  /\ (forall h p pa c m u w,
      Server.format (Server.initialize
        (Some (Build_Options h p pa (Own (Some ""%string)) c m u w)))
      = "json_meta"%string)
  /\ (forall h p pa f m u w,
      Server.confirmData (Server.initialize
        (Some (Build_Options h p pa f (Own (Some false)) m u w))) = Some false)
  /\ (forall v p pa f c m u w,
      Server.hostname (Server.initialize
        (Some (Build_Options (Own v) p pa f c m u w))) = v).
Proof. repeat split; reflexivity. Qed.

(** ** Responses *)

Ltac monad :=
  unfold exec, mbind, mret, M_bind, M_ret, modify, gets, Server.emit;
  cbn beta iota.

Ltac fields :=
  cbn [phase buffer size destroyed responses emitted doneTimeout doneHeld
       parsed set_phase set_buffer set_size set_destroyed set_responses
       set_emitted set_doneTimeout set_doneHeld set_parsed initial received
       fst snd].

Lemma write_once_finished (sent : list Response) (r : Response) :
  sent <> [] -> write_once sent r = sent.
Proof. destruct sent; [contradiction | reflexivity]. Qed.

Lemma write_once_some (sent : list Response) (r : Response) :
  write_once sent r <> [].
Proof. destruct sent; discriminate. Qed.

Lemma respond_code (code : Z) (st : State) :
  code <> 0 ->
  Server.respond (Some code) None st
  = (tt, set_responses (write_once (responses st) (response_of code)) st).
Proof.
  intros H. unfold Server.respond, modify, or_num, truthy_num, response_of.
  destruct (Z.eqb_spec code 0) as [E | _]; [contradiction |].
  cbn [negb truthy_str]. rewrite andb_true_r. reflexivity.
Qed.

(** C8: a payload that is exactly the text of an empty object is answered
    with 200 and the serialization of an object whose only property is
    success: true, one check notification is emitted and nothing else, and
    [parse] is not called, whatever the format.  (In a state where the
    response object is finished already, what was sent stands.) *)
Theorem check_request (this : Server) (request : Request) (st : State) :
  let st' := exec (Server.handleRequestData this request "{}") st in
  responses st' =
    write_once (responses st)
      {| statusCode := 200; reasonPhrase := Some "OK"%string;
         contentType := "text/plain";
         body := JSON_stringify (VObj [("success"%string, VBool true)]) |}
  /\ JSON_stringify (VObj [("success"%string, VBool true)])
     = Some (json "{'success':true}")
  /\ emitted st' = emitted st ++ [Check]
  /\ parsed st' = parsed st
  /\ doneTimeout st' = doneTimeout st /\ doneHeld st' = doneHeld st.
Proof. repeat split; reflexivity. Qed.

(** ** What a payload leads to *)

Lemma handleRequestData_eq (this : Server) (request : Request)
      (rawData : string) (st : State) :
  exec (Server.handleRequestData this request rawData) st =
  if String.eqb rawData "{}" then
    set_emitted (emitted st ++ [Check])
      (set_responses (write_once (responses st) (response_of 200)) st)
  else
    let st1 := set_parsed (parsed st ++ [rawData]) st in
    match Server.parse_try this rawData with
    | None =>
        set_emitted (emitted st ++ [Refused "Could not parse post data"])
          (set_responses (write_once (responses st) (response_of 400)) st1)
    | Some v =>
        if truthy v then
          exec (Server.emitData this request v) st1
        else st1
    end.
Proof.
  unfold Server.handleRequestData, Server.handleCheck, Server.parse.
  destruct (String.eqb rawData "{}"); [reflexivity |].
  monad.
  destruct (Server.parse_try this rawData) as [v |]; cbn.
  - destruct (truthy v); reflexivity.
  - reflexivity.
Qed.

(** ** The stages of a request *)

Lemma handleRequest_stage this request :
  stage this 0 (exec (Server.handleRequest this request) initial).
Proof.
  unfold Server.handleRequest, Server.validateAuthentication, Server.validatePath.
  unfold Server.respond. monad.
  destruct (negb _); [| destruct (_ && _)];
    try (destruct (starts_with _ _)); cbn; unfold stage, quiet; cbn; auto.
Qed.

Lemma handleRequestData_stage this request rawData st :
  responses st = [] -> quiet st -> phase st = Finished ->
  stage this 0 (exec (Server.handleRequestData this request rawData) st).
Proof.
  intros Hr [Ht Hh] Hp. rewrite handleRequestData_eq.
  destruct st as [ph buf sz d rs em tm held ps]; cbn in *; subst.
  destruct (String.eqb rawData "{}").
  { unfold stage; cbn. repeat split; auto; discriminate. }
  cbn zeta. destruct (Server.parse_try this rawData) as [v|] eqn:E.
  2:{ unfold stage; cbn. repeat split; auto; discriminate. }
  destruct (truthy v) eqn:T.
  - unfold Server.emitData, Server.done, Server.clearTimeout. monad.
    destruct (truthy_bool _); unfold stage; cbn.
    + repeat split; auto.
    + repeat split; auto; discriminate.
  - unfold stage; cbn. repeat split; auto; try discriminate. right. split; auto.
    apply Exists_app. right. constructor. unfold swallowed. rewrite E, T. reflexivity.
Qed.

Lemma length_write_once (sent : list Response) (r : Response) (n : nat) :
  List.length sent = Nat.min 1 n ->
  List.length (write_once sent r) = Nat.min 1 (n + 1).
Proof.
  destruct sent as [| x sent]; cbn [write_once List.length]; intros H.
  - destruct n; reflexivity.
  - destruct n; [discriminate H |]. cbn in *. exact H.
Qed.

Lemma step_stage this request i st st' n :
  stage this n st -> step this request i st = Some st' ->
  stage this (n + (if completion i then 1 else 0)) st'.
Proof.
  unfold step. destruct (enabled i st) eqn:En; [| discriminate].
  intros Hs [= <-]. destruct i; cbn [handler completion]; rewrite ?Nat.add_0_r.
  - (* Chunk *)
    cbn in En. unfold stage in Hs. destruct (phase st) eqn:Hp; try discriminate.
    destruct Hs as (Hr & [Ht Hh] & Hn).
    unfold Server.onData, Server.validateSize. monad.
    destruct (destroyed st) eqn:Hd.
    + cbn. unfold stage. rewrite Hp, Hd. unfold quiet. auto.
    + cbn. destruct (_ <=? _); monad; unfold stage, quiet; cbn; rewrite ?Hp, ?Hd; cbn; auto.
      destruct (responses st); [auto | discriminate Hr].
  - (* End *)
    cbn in En. pose proof Hs as Hs'. unfold stage in Hs. destruct (phase st) eqn:Hp; try discriminate.
    destruct Hs as (Hr & [Ht Hh] & Hn).
    unfold Server.onEnd. monad.
    destruct (destroyed st) eqn:Hd; [cbn; exact Hs'|].
    destruct (bool_decide _).
    + cbn. unfold stage, quiet. cbn. rewrite Hd. subst. destruct (responses st); [auto|discriminate].
    + subst n. apply handleRequestData_stage; cbn; auto.
      * destruct (responses st); [auto|discriminate].
      * split; auto.
  - (* RequestError *)
    cbn in En. unfold stage in *. destruct (phase st) eqn:Hp; try discriminate.
    unfold Server.handleError. monad. cbn. rewrite Hp. exact Hs.
  - (* Inflated *)
    cbn in En. unfold stage in Hs. destruct (phase st) eqn:Hp; try discriminate.
    destruct Hs as (Hr & Hd & [Ht Hh] & Hn). subst n.
    unfold Server.onInflate. monad. destruct r as [data|].
    + apply handleRequestData_stage; cbn; auto. split; auto.
    + rewrite respond_code by discriminate. unfold stage; cbn. rewrite Hh, Ht, Hr. cbn.
      repeat split; auto; discriminate.
  - (* TimerFired *)
    cbn in En. destruct (doneTimeout st) eqn:Ht; try discriminate.
    unfold stage in Hs. destruct (phase st) eqn:Hp.
    1-3: destruct Hs as (? & ?); unfold quiet in *; intuition congruence.
    destruct (doneHeld st) eqn:Hh; [| intuition congruence].
    destruct Hs as (Hr & Hn). assert (Hn0 : n = 0%nat) by (apply Hn; auto). rewrite Hn0 in *. clear Hn0.
    unfold Server.onTimeout, Server.done, Server.clearTimeout. monad.
    unfold stage. cbn. rewrite Hp, Hh.
    destruct (responses st); [| discriminate Hr]. cbn. split; auto.
    split; discriminate.
  - (* DoneCalled *)
    cbn in En. unfold stage in Hs. destruct (phase st) eqn:Hp.
    1-3: destruct Hs as (? & ?); unfold quiet in *; intuition congruence.
    rewrite En in Hs. destruct Hs as (Hr & Hn).
    unfold Server.done, Server.clearTimeout. monad.
    rewrite respond_code by (destruct success as [| | [] | | | |]; discriminate).
    unfold stage. cbn.
    destruct (doneTimeout st) eqn:Ht; cbn; rewrite Hp, En;
      (split; [apply length_write_once, Hr
              | split; intros; [congruence | lia]]).
Qed.

Lemma run_stage this request l : forall st st' n,
  stage this n st -> run this request l st = Some st' ->
  stage this (n + completions l) st'.
Proof.
  induction l as [| i l IH]; intros st st' n Hs Hrun; cbn in Hrun.
  - injection Hrun as <-. unfold completions. cbn. rewrite Nat.add_0_r. exact Hs.
  - destruct (step this request i st) as [st1 |] eqn:E; [| discriminate].
    pose proof (step_stage _ _ _ _ _ _ Hs E) as H1.
    pose proof (IH _ _ _ H1 Hrun) as H2.
    replace (n + completions (i :: l))%nat
      with (n + (if completion i then 1 else 0) + completions l)%nat; [exact H2 |].
    unfold completions. cbn. destruct (completion i); cbn; lia.
Qed.

(** ** One response per request *)

(** C1 (the code at a failing input): under json_meta an accepted request
    whose body is a JSON object without interactions is never answered.
    At the end of its body nothing has been written and nothing emitted,
    no timer runs and nobody holds [done]: no event can follow, and the
    sender is left without a response. *)
Theorem request_left_unanswered :
  exists st,
    accepted (Server.initialize None) plain
    /\ serve (Server.initialize None) plain
         [Chunk (bytes (json "{'a':1}")); End] = Some st
    /\ parsed st = [json "{'a':1}"]
    /\ swallowed (Server.initialize None) (json "{'a':1}") = true
    /\ settled st = true
    /\ responses st = []
    /\ (forall i, enabled i st = false).
Proof.
  eexists. split; [reflexivity |].
  split; [vm_compute; reflexivity |].
  split; [reflexivity |]. split; [vm_compute; reflexivity |].
  split; [reflexivity |]. split; [reflexivity |].
  intros i. destruct i as [c | | e | r | | v]; reflexivity.
Qed.

(** ** The confirmation handshake *)

(** Once the response is finished, no event changes what was sent. *)
Lemma step_keeps_response this request i st st' :
  responses st <> [] -> step this request i st = Some st' ->
  responses st' = responses st.
Proof.
  intros Hr. unfold step. destruct (enabled i st); [| discriminate].
  intros [= <-].
  assert (Hd : forall rawData s,
             responses s = responses st ->
             responses (exec (Server.handleRequestData this request rawData) s)
             = responses st).
  { intros rawData s Hs. rewrite handleRequestData_eq.
    destruct (String.eqb rawData "{}").
    { fields. rewrite Hs. apply write_once_finished, Hr. }
    cbn zeta. destruct (Server.parse_try this rawData) as [v |].
    - destruct (truthy v); [| exact Hs].
      unfold Server.emitData, Server.done, Server.clearTimeout,
        Server.respond. monad.
      destruct (truthy_bool _); [exact Hs |].
      cbn. rewrite Hs. apply write_once_finished, Hr.
    - fields. rewrite Hs. apply write_once_finished, Hr. }
  destruct i; cbn [handler].
  - unfold Server.onData, Server.validateSize. monad.
    destruct (destroyed st); [reflexivity |]. fields.
    destruct (_ <=? _); monad; [reflexivity |].
    rewrite respond_code by discriminate. fields.
    apply write_once_finished, Hr.
  - unfold Server.onEnd. monad.
    destruct (destroyed st); [reflexivity |]. fields.
    destruct (bool_decide _); [reflexivity |].
    apply (Hd _ (set_phase Finished st)). reflexivity.
  - reflexivity.
  - unfold Server.onInflate. monad. destruct r as [data |].
    + apply (Hd _ (set_phase Finished st)). reflexivity.
    + monad. rewrite respond_code by discriminate. fields.
      apply write_once_finished, Hr.
  - unfold Server.onTimeout, Server.done, Server.clearTimeout. monad. monad.
    fields. rewrite respond_code by discriminate. fields.
    apply write_once_finished, Hr.
  - unfold Server.done, Server.clearTimeout. monad.
    rewrite respond_code by (destruct success as [| | [] | | | |]; discriminate).
    fields. destruct (doneTimeout st); apply write_once_finished, Hr.
Qed.

Lemma run_keeps_response this request l : forall st st',
  responses st <> [] -> run this request l st = Some st' ->
  responses st' = responses st.
Proof.
  induction l as [| i l IH]; intros st st' Hr Hrun; cbn [run] in Hrun.
  - injection Hrun as <-. reflexivity.
  - destruct (step this request i st) as [st1 |] eqn:E; [| discriminate].
    pose proof (step_keeps_response _ _ _ _ _ Hr E) as H1.
    rewrite <- H1. apply IH; [rewrite H1; exact Hr | exact Hrun].
Qed.

(** A completion event writes the response of its code. *)
Lemma completion_response this request i st st' :
  completion i = true -> step this request i st = Some st' ->
  responses st' = write_once (responses st) (response_of (completion_code i)).
Proof.
  intros Hc. unfold step. destruct (enabled i st); [| discriminate].
  intros [= <-]. destruct i; try discriminate Hc; cbn [handler completion_code].
  - unfold Server.onTimeout, Server.done, Server.clearTimeout. monad. monad.
    fields. rewrite respond_code by discriminate. reflexivity.
  - unfold Server.done, Server.clearTimeout. monad.
    rewrite respond_code by (destruct success as [| | [] | | | |]; discriminate).
    fields. destruct (doneTimeout st); destruct success as [| | [] | | | |];
      reflexivity.
Qed.

(** C2: the first finalization stands.  When the first completion event of
    a request comes, a call of [done] or the firing of the timer, it sends
    the response of its code (500 for the timer and for [done(false)], 200
    otherwise); whatever follows, a second call of [done] or a call after
    the timer fired, leaves the response that the sender has unchanged. *)
Theorem first_finalization_stands (this : Server) (request : Request)
        (l : list Input) (first : Input) (later : list Input)
        (st st1 st2 : State) :
  serve this request l = Some st ->
  completions l = 0%nat ->
  completion first = true ->
  step this request first st = Some st1 ->
  run this request later st1 = Some st2 ->
  responses st = []
  /\ responses st1 = [response_of (completion_code first)]
  /\ responses st2 = [response_of (completion_code first)].
Proof.
  intros Hrun Hn Hc Hstep Hlater.
  pose proof (run_stage _ _ _ _ _ _ (handleRequest_stage this request) Hrun) as Hs.
  cbn [Nat.add] in Hs. rewrite Hn in Hs.
  assert (Hr : responses st = []).
  { unfold step in Hstep. destruct (enabled first st) eqn:En; [| discriminate].
    unfold stage in Hs.
    destruct first; try discriminate Hc; cbn [enabled] in En;
      destruct (phase st);
      try (destruct Hs as (_ & [Ht Hh] & _); rewrite ?Ht, ?Hh in En;
           discriminate En);
      try (destruct Hs as (_ & _ & [Ht Hh] & _); rewrite ?Ht, ?Hh in En;
           discriminate En).
    - destruct (doneHeld st).
      + destruct Hs as [Hlen _]. destruct (responses st); [reflexivity | discriminate Hlen].
      + destruct Hs as (_ & Ht & _). destruct (doneTimeout st); try discriminate En.
        contradiction.
    - rewrite En in Hs. destruct Hs as [Hlen _].
      destruct (responses st); [reflexivity | discriminate Hlen]. }
  split; [exact Hr |].
  pose proof (completion_response _ _ _ _ _ Hc Hstep) as H1.
  rewrite Hr in H1. cbn [write_once] in H1.
  split; [exact H1 |].
  rewrite <- H1. apply (run_keeps_response this request later st1 st2).
  - rewrite H1. discriminate.
  - exact Hlater.
Qed.

(** Witness of C2: [done] is called, then called again with false; and the
    timer fires, then [done] is called. *)
Lemma first_finalization_stands_witness :
  exists st2 st2',
    serve (Server.initialize (Some (with_confirmData true))) plain
      [Chunk (bytes (json "{'interactions':[1]}")); End;
       DoneCalled (VBool true); DoneCalled (VBool false)] = Some st2
    /\ responses st2 = [response_of 200]
    /\ serve (Server.initialize (Some (with_confirmData true))) plain
         [Chunk (bytes (json "{'interactions':[1]}")); End;
          TimerFired; DoneCalled VUndefined] = Some st2'
    /\ responses st2' = [response_of 500].
Proof.
  do 2 eexists.
  split; [vm_compute; reflexivity |].
  split.
  - refine (proj2 (proj2 (first_finalization_stands
              (Server.initialize (Some (with_confirmData true))) plain
              [Chunk (bytes (json "{'interactions':[1]}")); End]
              (DoneCalled (VBool true)) [DoneCalled (VBool false)]
              _ _ _ _ eq_refl eq_refl _ _)));
      vm_compute; reflexivity.
  - split; [vm_compute; reflexivity |].
    refine (proj2 (proj2 (first_finalization_stands
              (Server.initialize (Some (with_confirmData true))) plain
              [Chunk (bytes (json "{'interactions':[1]}")); End]
              TimerFired [DoneCalled VUndefined]
              _ _ _ _ eq_refl eq_refl _ _)));
      vm_compute; reflexivity.
Defined.

(** ** The size limit *)

Lemma total_app a b : total (a ++ b) = total a + total b.
Proof. unfold total. rewrite concat_app, length_app. lia. Qed.

Lemma total_nonneg a : 0 <= total a.
Proof. unfold total. lia. Qed.

Lemma total_one c : total [c] = Z.of_nat (List.length c).
Proof. unfold total. cbn. rewrite app_nil_r. reflexivity. Qed.

Lemma chunks_within this request (cs : list (list byte)) : forall pre,
  (cs <> [] -> total (pre ++ cs) <= Server.maxSize this) ->
  run this request (map Chunk cs) (received pre) = Some (received (pre ++ cs)).
Proof.
  induction cs as [| c cs IH]; intros pre H.
  - rewrite app_nil_r. reflexivity.
  - cbn [map run]. unfold step. cbn [enabled received phase set_buffer set_size set_phase initial].
    assert (Hc : total (pre ++ [c]) <= Server.maxSize this).
    { specialize (H ltac:(discriminate)).
      replace (pre ++ c :: cs) with ((pre ++ [c]) ++ cs) in H by (rewrite <- app_assoc; reflexivity).
      rewrite total_app in H. pose proof (total_nonneg cs). lia. }
    replace (exec (handler this request (Chunk c)) (received pre)) with (received (pre ++ [c])).
    + replace (pre ++ c :: cs) with ((pre ++ [c]) ++ cs) by (rewrite <- app_assoc; reflexivity).
      apply IH. intros _. rewrite <- app_assoc. apply H. discriminate.
    + cbn [handler]. unfold Server.onData, Server.validateSize. monad. cbn.
      rewrite total_app, total_one in Hc.
      destruct (Z.leb_spec (total pre + Z.of_nat (List.length c)) (Server.maxSize this)); [| lia].
      cbn. unfold received. cbn. rewrite total_app, total_one. reflexivity.
Qed.

(** After the rejection only 'data', 'end' and 'error' can come, and they
    change nothing but the errors emitted. *)
Lemma run_destroyed this request (l : list Input) : forall st st',
  phase st = Receiving -> destroyed st = true ->
  doneTimeout st = Unset -> doneHeld st = false ->
  run this request l st = Some st' ->
  st' = set_emitted (emitted st ++ flat_map error_of l) st.
Proof.
  induction l as [| i l IH]; intros st st' Hp Hd Ht Hh Hrun; cbn in Hrun.
  - injection Hrun as <-. cbn. rewrite app_nil_r. destruct st; reflexivity.
  - unfold step in Hrun. destruct (enabled i st) eqn:En; [| discriminate].
    assert (E : exec (handler this request i) st
                = set_emitted (emitted st ++ error_of i) st).
    { destruct i; cbn in En; rewrite ?Hp, ?Ht, ?Hh in En; try discriminate; cbn.
      - unfold Server.onData. monad. rewrite Hd. cbn. rewrite app_nil_r. destruct st; reflexivity.
      - unfold Server.onEnd. monad. rewrite Hd. cbn. rewrite app_nil_r. destruct st; reflexivity.
      - unfold Server.handleError. monad. reflexivity. }
    rewrite E in Hrun. apply IH in Hrun; cbn; auto.
    subst st'. cbn. rewrite <- app_assoc. reflexivity.
Qed.

Lemma run_app this request l1 l2 s :
  run this request (l1 ++ l2) s =
  match run this request l1 s with
  | Some s' => run this request l2 s'
  | None => None
  end.
Proof.
  revert s. induction l1 as [| i l1 IH]; intros s; cbn; [reflexivity |].
  destruct (step this request i s); auto.
Qed.

(** C7: for an accepted request, the first chunk that takes the cumulative
    byte count over maxSize is answered with 413, the connection is
    destroyed and one refusal with the limit in its reason is emitted;
    whatever arrives afterwards adds no response, no refusal, no data and no
    check notification, and [parse] is never called.  Chunks that add up to
    maxSize exactly are all buffered and nothing is rejected. *)
Theorem size_limit (this : Server) (request : Request) :
  accepted this request ->
  (forall (pre : list (list byte)) (c : list byte) (rest : list Input) st,
      (pre <> [] -> total pre <= Server.maxSize this) ->
      Server.maxSize this < total pre + Z.of_nat (List.length c) ->
      serve this request (map Chunk pre ++ Chunk c :: rest) = Some st ->
      responses st = [response_of 413]
      /\ destroyed st = true
      /\ emitted st = Refused (size_message this) :: flat_map error_of rest
      /\ Forall (fun n => is_data n = false /\ is_check n = false) (emitted st)
      /\ parsed st = [])
  /\ (forall (cs : list (list byte)) st,
        total cs = Server.maxSize this ->
        serve this request (map Chunk cs) = Some st ->
        st = received cs /\ responses st = [] /\ destroyed st = false).
Proof.
  intros Hacc. unfold serve. rewrite Hacc.
  change (set_phase Receiving initial) with (received []).
  split.
  - intros pre c rest st Hpre Hc Hrun.
    revert Hrun.
    assert (Hrun1 := chunks_within this request pre [] Hpre). cbn [app] in Hrun1.
    rewrite run_app, Hrun1. cbn [run]. unfold step. cbn [enabled received phase set_buffer set_size set_phase initial].
    cbn [handler]. unfold Server.onData, Server.validateSize. monad. fields.
    destruct (Z.leb_spec (total pre + Z.of_nat (List.length c)) (Server.maxSize this)); [lia |].
    rewrite respond_code by discriminate. fields.
    intros Hrun. apply run_destroyed in Hrun; cbn; auto.
    subst st. cbn. repeat split; auto.
    constructor; [auto |]. apply Forall_flat_map, Forall_forall.
    intros [] _; cbn; auto.
  - intros cs st Hcs Hrun.
    rewrite (chunks_within this request cs []) in Hrun.
    + injection Hrun as <-. auto.
    + intros _. cbn. lia.
Qed.

(** Witness of C7: a limit of 500 bytes, 501 bytes received, and 500. *)
Lemma size_limit_witness :
  exists st st',
    serve (Server.initialize (Some (with_maxSize 500))) plain
      [Chunk (repeat x61 400); Chunk (repeat x61 101); Chunk [x61]; End] = Some st
    /\ responses st = [response_of 413]
    /\ emitted st = [Refused "Post data exceeded limit of 500 bytes"]
    /\ destroyed st = true
    /\ serve (Server.initialize (Some (with_maxSize 500))) plain
      [Chunk (repeat x61 400); Chunk (repeat x61 100)] = Some st'
    /\ responses st' = [].
Proof.
  destruct (size_limit (Server.initialize (Some (with_maxSize 500))) plain
              eq_refl) as [H1 H2].
  do 2 eexists.
  split; [vm_compute; reflexivity |].
  destruct (H1 [repeat x61 400] (repeat x61 101) [Chunk [x61]; End] _
              ltac:(intros _; vm_compute; discriminate)
              ltac:(vm_compute; reflexivity)
              ltac:(vm_compute; reflexivity)) as (R & D & E & _).
  split; [exact R |]. split; [exact E |]. split; [exact D |].
  split; [vm_compute; reflexivity |].
  destruct (H2 [repeat x61 400; repeat x61 100] _
              ltac:(vm_compute; reflexivity)
              ltac:(vm_compute; reflexivity)) as (_ & R' & _).
  exact R'.
Defined.

(** C10: the size limit is enforced on the bytes of the chunks as they
    arrive, and on nothing else.  For an accepted request that announces
    gzip: the first chunk that takes the count of the bytes received over
    maxSize is answered with 413 and the connection is destroyed, before
    anything is given to zlib (the end of the body is ignored, nothing is
    inflated or parsed); and chunks that stay within maxSize are never
    rejected, whatever zlib makes of them: the inflated payload, of any
    length, is classified and parsed, no response is a 413 and the
    connection is not destroyed. *)
Theorem limit_counts_wire_bytes (this : Server) (request : Request) :
  accepted this request ->
  headers request !! "content-encoding"%string = Some "gzip"%string ->
  (forall (pre : list (list byte)) (c : list byte) (rest : list Input) st,
      (pre <> [] -> total pre <= Server.maxSize this) ->
      Server.maxSize this < total pre + Z.of_nat (List.length c) ->
      serve this request (map Chunk pre ++ Chunk c :: rest) = Some st ->
      responses st = [response_of 413]
      /\ destroyed st = true
      /\ emitted st = Refused (size_message this) :: flat_map error_of rest
      /\ phase st = Receiving
      /\ buffer st = pre
      /\ parsed st = [])
  /\ (forall (cs : list (list byte)) (data : list byte) st,
        (cs <> [] -> total cs <= Server.maxSize this) ->
        serve this request (map Chunk cs ++ [End; Inflated (Some data)])
        = Some st ->
        st = exec (Server.handleRequestData this request (toString data))
               (set_phase Finished (received cs))
        /\ (String.eqb (toString data) "{}" = false ->
            parsed st = [toString data])
        /\ Forall (fun r => statusCode r <> 413) (responses st)
        /\ destroyed st = false).
Proof.
  intros Hacc Hgz. split.
  - intros pre c rest st Hpre Hc. unfold serve. rewrite Hacc.
    change (set_phase Receiving initial) with (received []).
    pose proof (chunks_within this request pre [] Hpre) as Hrun1.
    cbn [app] in Hrun1. rewrite run_app, Hrun1. cbn [run]. unfold step.
    cbn [enabled received phase set_buffer set_size set_phase initial].
    cbn [handler]. unfold Server.onData, Server.validateSize. monad. fields.
    destruct (Z.leb_spec (total pre + Z.of_nat (List.length c))
                (Server.maxSize this)); [lia |].
    rewrite respond_code by discriminate. fields.
    intros Hrun. apply run_destroyed in Hrun; cbn; auto.
    subst st. cbn. repeat split; reflexivity.
  - intros cs data st Hcs. unfold serve. rewrite Hacc.
    change (set_phase Receiving initial) with (received []).
    rewrite run_app, (chunks_within this request cs [] Hcs). cbn [app run].
    unfold step.
    cbn [enabled received phase set_buffer set_size set_phase initial handler].
    unfold Server.onEnd. monad. fields. rewrite Hgz.
    rewrite bool_decide_eq_true_2 by reflexivity. fields.
    destruct (zlib_header_ok (List.concat cs)); [| discriminate].
    change ((Server.onInflate this request (Some data)
               (set_phase (Inflating (List.concat cs)) (received cs))).2)
      with (exec (Server.handleRequestData this request (toString data))
              (set_phase Finished (received cs))).
    intros [= <-]. split; [reflexivity |].
    rewrite handleRequestData_eq.
    destruct (String.eqb _ _).
    { cbn. split; [discriminate |].
      split; [repeat constructor; discriminate | reflexivity]. }
    cbn zeta. destruct (Server.parse_try _ _) as [v |].
    + destruct (truthy v).
      * unfold Server.emitData, Server.done, Server.clearTimeout. monad.
        destruct (truthy_bool _); cbn; (split; [reflexivity |]);
          split; try reflexivity; repeat constructor; discriminate.
      * cbn. split; [reflexivity |]. split; [constructor | reflexivity].
    + cbn. split; [reflexivity |].
      split; [repeat constructor; discriminate | reflexivity].
Qed.

(** Witness of C10: under a limit of 40 bytes a zlib stream of 32 bytes is
    taken and the 101 bytes it stands for are parsed; under a limit of 5
    bytes the zlib stream of an empty object, 10 bytes for a payload of 2,
    is rejected. *)
Lemma limit_counts_wire_bytes_witness :
  (exists st meta,
      serve (Server.initialize (Some (with_maxSize 40))) gzipped
        [Chunk zlib_of_long_record; End; Inflated (Some (bytes long_record))]
      = Some st
      /\ total [zlib_of_long_record] = 32
      /\ String.length long_record = 101%nat
      /\ responses st = [response_of 200]
      /\ parsed st = [long_record]
      /\ emitted st =
           [Data (VArr [VStr "aaaaaaaaaaaaaaaaaaaaaaaaaaaaaaaaaaaaaaaaaaaaaaaaaaaaaaaaaaaaaaaaaaaaaaaaaaaaaaaa"]) meta false])
  /\ (exists st,
        serve (Server.initialize (Some (with_maxSize 5))) gzipped
          [Chunk zlib_of_check; End] = Some st
        /\ total [zlib_of_check] = 10
        /\ responses st = [response_of 413]
        /\ phase st = Receiving).
Proof.
  split.
  - do 2 eexists. split; [vm_compute; reflexivity |].
    split; [reflexivity |]. split; [reflexivity |].
    destruct (limit_counts_wire_bytes
                (Server.initialize (Some (with_maxSize 40))) gzipped
                eq_refl eq_refl) as [_ H].
    destruct (H [zlib_of_long_record] (bytes long_record) _
                ltac:(intros _; vm_compute; discriminate)
                ltac:(vm_compute; reflexivity)) as (E & _ & _ & _).
    split; [exact (f_equal responses E) |].
    split; [exact (f_equal parsed E) |].
    exact (f_equal emitted E).
  - eexists. split; [vm_compute; reflexivity |].
    split; [reflexivity |].
    destruct (limit_counts_wire_bytes
                (Server.initialize (Some (with_maxSize 5))) gzipped
                eq_refl eq_refl) as [H _].
    destruct (H [] zlib_of_check [End] _
                ltac:(intros C; contradiction)
                ltac:(vm_compute; reflexivity)
                ltac:(vm_compute; reflexivity)) as (R & _ & _ & P & _).
    split; [exact R | exact P].
Defined.

(** ** Compressed bodies *)

Lemma gzip_is_not_zlib (b : list byte) :
  gzip_magic b = true -> zlib_header_ok b = false.
Proof.
  destruct b as [| b1 [| b2 r]]; try discriminate.
  cbn [gzip_magic zlib_header_ok]. intros H.
  apply andb_prop in H as [H1 H2].
  apply N.eqb_eq in H1, H2. rewrite H1, H2. reflexivity.
Qed.

(** X1: no body that starts like a gzip member is ever decoded.  For an
    accepted request that announces gzip and whose body, within the limit,
    starts with the bytes 31 and 139, zlib can only call back with an
    error: the request is answered with 400 and refused, and nothing is
    parsed. *)
Lemma gzip_stream_is_refused (this : Server) (request : Request)
      (cs : list (list byte)) (r : option (list byte)) (st : State) :
  accepted this request ->
  headers request !! "content-encoding"%string = Some "gzip"%string ->
  (cs <> [] -> total cs <= Server.maxSize this) ->
  gzip_magic (List.concat cs) = true ->
  serve this request (map Chunk cs ++ [End; Inflated r]) = Some st ->
  responses st = [response_of 400]
  /\ emitted st = [Refused "Could not inflate compressed data"]
  /\ parsed st = [].
Proof.
  intros Hacc Hgz Hcs Hmagic. unfold serve. rewrite Hacc.
  change (set_phase Receiving initial) with (received []).
  rewrite run_app, (chunks_within this request cs [] Hcs). cbn [app run].
  unfold step. cbn [enabled received phase set_buffer set_size set_phase initial handler].
  unfold Server.onEnd. monad. fields. rewrite Hgz.
  rewrite bool_decide_eq_true_2 by reflexivity. fields.
  rewrite (gzip_is_not_zlib _ Hmagic).
  destruct r as [data |]; [discriminate |].
  intros [= <-]. repeat split; reflexivity.
Qed.

Lemma gzip_stream_is_refused_witness :
  exists st,
    serve (Server.initialize None) gzipped
      [Chunk (firstn 10 gzip_of_check); Chunk (skipn 10 gzip_of_check); End;
       Inflated None] = Some st
    /\ responses st = [response_of 400]
    /\ emitted st = [Refused "Could not inflate compressed data"].
Proof.
  eexists. split; [vm_compute; reflexivity |].
  destruct (gzip_stream_is_refused (Server.initialize None) gzipped
              [firstn 10 gzip_of_check; skipn 10 gzip_of_check] None _
              eq_refl eq_refl
              ltac:(intros _; vm_compute; discriminate)
              eq_refl
              ltac:(vm_compute; reflexivity)) as (R & E & _).
  split; [exact R | exact E].
Defined.

(** C4 (the code at a failing input): the request announces gzip and its
    body is the gzip stream of an empty object.  The body goes to
    [zlib.inflate], which cannot call back with data for it, and its error
    is answered with 400 and a refusal: the check is never reached. *)
Theorem gzip_body_is_refused :
  exists st st',
    serve (Server.initialize None) gzipped [Chunk gzip_of_check; End] = Some st
    /\ phase st = Inflating gzip_of_check
    /\ gzip_magic gzip_of_check = true
    /\ (forall data, enabled (Inflated (Some data)) st = false)
    /\ serve (Server.initialize None) gzipped
         [Chunk gzip_of_check; End; Inflated None] = Some st'
    /\ responses st' = [response_of 400]
    /\ emitted st' = [Refused "Could not inflate compressed data"]
    /\ parsed st' = [].
Proof.
  do 2 eexists.
  split; [vm_compute; reflexivity |].
  split; [reflexivity |]. split; [reflexivity |].
  split; [intros data; reflexivity |].
  split; [vm_compute; reflexivity |].
  repeat split; reflexivity.
Qed.

(** ** Payloads that do not parse *)

(** X2: a payload that [JSON.parse] rejects is refused under json_meta
    and json_array: one 400, one refusal with the reason of the parser, no
    data and no check.  (In a state where the response object is finished
    already, what was sent stands.) *)
Lemma parse_failure_is_refused (this : Server) (request : Request)
      (rawData : string) (st : State) :
  String.eqb (Server.format this) "json_meta"
  || String.eqb (Server.format this) "json_array" = true ->
  JSON_parse rawData = None ->
  exec (Server.handleRequestData this request rawData) st
  = set_emitted (emitted st ++ [Refused "Could not parse post data"])
      (set_responses (write_once (responses st) (response_of 400))
         (set_parsed (parsed st ++ [rawData]) st)).
Proof.
  intros Hf Hp. rewrite handleRequestData_eq.
  destruct (String.eqb_spec rawData "{}") as [-> | _]; [discriminate Hp |].
  unfold Server.parse_try. rewrite Hf, Hp. reflexivity.
Qed.

Lemma parse_failure_is_refused_witness :
  exec (Server.handleRequestData (Server.initialize None) plain "foo bar")
    initial
  = set_emitted [Refused "Could not parse post data"]
      (set_responses [response_of 400] (set_parsed ["foo bar"%string] initial)).
Proof.
  exact (parse_failure_is_refused (Server.initialize None) plain "foo bar"
           initial eq_refl eq_refl).
Defined.

(** C3 (the code at failing inputs): under json_meta an object without
    interactions gets no response and no notification at all, and a number
    as interactions is emitted as the data. *)
Theorem falsy_interactions_get_no_response :
  exists st st' meta,
    serve (Server.initialize None) plain
      [Chunk (bytes (json "{'a':1}")); End] = Some st
    /\ settled st = true
    /\ responses st = [] /\ emitted st = []
    /\ serve (Server.initialize None) plain
      [Chunk (bytes (json "{'interactions':5}")); End] = Some st'
    /\ emitted st' = [Data (VNum (number_of_Z 5)) meta false]
    /\ responses st' = [response_of 200].
Proof.
  do 3 eexists.
  split; [vm_compute; reflexivity |].
  split; [reflexivity |]. split; [reflexivity |]. split; [reflexivity |].
  split; [vm_compute; reflexivity |].
  split; reflexivity.
Qed.

(** ** JSON: strings *)

(** Case analysis on the eight bits of a character. *)
Ltac each_char c := destruct c as [[] [] [] [] [] [] [] []].

Lemma parse_quote_char (c : ascii) (t : list ascii) :
  parse_chars (quote_char c ++ t) = with_chars [c] (parse_chars t).
Proof. each_char c; reflexivity. Qed.

Lemma parse_quoted (s t : list ascii) :
  parse_chars (flat_map quote_char s ++ dquote :: t) = Some (s, t).
Proof.
  induction s as [| c s IH]; [reflexivity |].
  cbn [flat_map]. rewrite <- app_assoc, parse_quote_char, IH. reflexivity.
Qed.

Lemma quote_char_printable (c : ascii) :
  forallb printable (quote_char c) = true.
Proof. each_char c; reflexivity. Qed.

(** ** JSON: numbers *)

(** *** Decimal digits *)

Lemma string_of_uint_digits (d : Decimal.uint) :
  forallb is_digit (lit (NilEmpty.string_of_uint d)) = true.
Proof. induction d; cbn; auto. Qed.

Lemma dec_digits_digits (m : N) : forallb is_digit (dec_digits m) = true.
Proof.
  unfold dec_digits, NilZero.string_of_uint.
  destruct (N.to_uint m); try reflexivity; apply (string_of_uint_digits (_ _)).
Qed.

Lemma dec_digits_nonempty (m : N) : dec_digits m <> [].
Proof.
  unfold dec_digits, NilZero.string_of_uint.
  destruct (N.to_uint m); discriminate.
Qed.

Lemma to_uint_nonnil (m : N) : N.to_uint m <> Decimal.Nil.
Proof.
  destruct m as [| p]; [discriminate |].
  apply DecimalPos.Unsigned.to_uint_nonnil.
Qed.

Lemma dec_value_digits (m : N) : dec_value (dec_digits m) = m.
Proof.
  unfold dec_value, dec_digits, lit.
  rewrite string_of_list_ascii_of_string.
  rewrite NilZero.usu by apply to_uint_nonnil.
  apply DecimalN.Unsigned.of_to.
Qed.

(** *** Runs of digits *)

Lemma span_digits_app (ds rest : list ascii) :
  forallb is_digit ds = true -> stops rest = true ->
  span_digits (ds ++ rest) = (ds, rest).
Proof.
  intros Hd Hs. induction ds as [| c ds IH]; cbn in *.
  - destruct rest as [| c r]; [reflexivity |]. cbn [stops] in Hs.
    cbn [span_digits]. destruct (is_digit c); [discriminate | reflexivity].
  - apply andb_prop in Hd as [Hc Hd]. rewrite Hc, IH by exact Hd. reflexivity.
Qed.

Lemma strip_zeros_repeat (k : nat) (s : list ascii) :
  strip_zeros (repeat "0"%char k ++ s) = strip_zeros s.
Proof. induction k; cbn; auto. Qed.

Lemma strip_zeros_head (c : ascii) (s : list ascii) :
  Ascii.eqb c "0" = false -> strip_zeros (c :: s) = c :: s.
Proof. intros H. cbn. rewrite H. reflexivity. Qed.

Lemma rev_repeat {A} (x : A) (k : nat) : rev (repeat x k) = repeat x k.
Proof.
  induction k; [reflexivity |]. cbn. rewrite IHk.
  clear IHk. induction k; [reflexivity |]. cbn. f_equal. exact IHk.
Qed.

Lemma last_rev_head {A} (s : list A) (d : A) :
  s <> [] -> exists r, rev s = last s d :: r.
Proof.
  intros Hs. destruct (exists_last Hs) as (l & a & ->).
  rewrite rev_app_distr, last_last. cbn. eauto.
Qed.

Lemma strip_trailing (s : list ascii) (k : nat) :
  significand s ->
  rev (strip_zeros (rev (s ++ repeat "0"%char k))) = s.
Proof.
  intros (_ & (d & r & -> & _) & Hl).
  rewrite rev_app_distr, rev_repeat, strip_zeros_repeat.
  destruct (last_rev_head (d :: r) "0"%char ltac:(discriminate)) as (t & E).
  rewrite E, strip_zeros_head by exact Hl.
  rewrite <- E. apply rev_involutive.
Qed.

Lemma normalize_padded (sg : bool) (s : list ascii) (k : nat) (pt : Z) :
  significand s -> normalize sg (s ++ repeat "0"%char k) pt = Num sg s pt.
Proof.
  intros Hs. pose proof Hs as (_ & (d & r & -> & Hd) & _).
  unfold normalize. cbn [app]. rewrite strip_zeros_head by exact Hd.
  change (d :: r ++ repeat "0"%char k) with ((d :: r) ++ repeat "0"%char k).
  rewrite strip_trailing by exact Hs. f_equal. lia.
Qed.

Lemma normalize_plain (sg : bool) (s : list ascii) (pt : Z) :
  significand s -> normalize sg s pt = Num sg s pt.
Proof.
  intros Hs. rewrite <- (app_nil_r s) at 1.
  apply (normalize_padded sg s 0 pt Hs).
Qed.

Lemma normalize_leading (sg : bool) (s : list ascii) (k : nat) (pt : Z) :
  significand s ->
  normalize sg ("0"%char :: repeat "0"%char k ++ s) pt
  = Num sg s (pt - (1 + Z.of_nat k)).
Proof.
  intros Hs. pose proof Hs as (_ & (d & r & E & Hd) & _).
  unfold normalize. cbn [strip_zeros]. cbn [Ascii.eqb Bool.eqb].
  rewrite strip_zeros_repeat. subst s. rewrite strip_zeros_head by exact Hd.
  pose proof (strip_trailing (d :: r) 0 Hs) as T. rewrite app_nil_r in T.
  rewrite T. f_equal. cbn [List.length]. rewrite length_app, repeat_length.
  cbn [List.length]. lia.
Qed.

(** *** Reading a number back *)

Lemma digit_char (c : ascii) :
  is_digit c = true ->
  Ascii.eqb c "-" = false /\ Ascii.eqb c "." = false
  /\ Ascii.eqb c "e" = false /\ Ascii.eqb c "E" = false.
Proof. each_char c; try discriminate; auto. Qed.

Lemma eat_same (c : ascii) (r : list ascii) : eat c (c :: r) = Some r.
Proof. cbn. rewrite Ascii.eqb_refl. reflexivity. Qed.

Lemma eat_other (c x : ascii) (r : list ascii) :
  Ascii.eqb x c = false -> eat c (x :: r) = None.
Proof. intros H. cbn. rewrite H. reflexivity. Qed.

Lemma parse_int_zero (rest : list ascii) :
  parse_int ("0"%char :: rest) = (["0"%char], rest).
Proof. reflexivity. Qed.

Lemma parse_int_digits (d : ascii) (ds rest : list ascii) :
  forallb is_digit (d :: ds) = true -> Ascii.eqb d "0" = false ->
  stops rest = true ->
  parse_int (d :: ds ++ rest) = (d :: ds, rest).
Proof.
  intros Hd H0 Hs. unfold parse_int. rewrite eat_other by exact H0.
  apply (span_digits_app (d :: ds) rest Hd Hs).
Qed.

Lemma parse_frac_none (rest : list ascii) :
  ends_number rest = true -> parse_frac rest = Some ([], rest).
Proof.
  destruct rest as [| c r]; [reflexivity |]. cbn [ends_number]. intros H.
  unfold parse_frac. rewrite eat_other; [reflexivity |].
  apply andb_prop in H as [H _]. apply andb_prop in H as [H _].
  apply andb_prop in H as [_ H]. apply negb_true_iff in H. exact H.
Qed.

Lemma parse_frac_e (rest : list ascii) :
  parse_frac ("e"%char :: rest) = Some ([], "e"%char :: rest).
Proof. reflexivity. Qed.

Lemma parse_frac_digits (c : ascii) (f rest : list ascii) :
  forallb is_digit (c :: f) = true -> stops rest = true ->
  parse_frac ("."%char :: (c :: f) ++ rest) = Some (c :: f, rest).
Proof.
  intros Hf Hs. unfold parse_frac. rewrite eat_same.
  rewrite (span_digits_app (c :: f) rest Hf Hs). reflexivity.
Qed.

Lemma ends_number_stops (rest : list ascii) :
  ends_number rest = true -> stops rest = true.
Proof.
  destruct rest as [| c r]; [reflexivity |]. cbn.
  destruct (is_digit c); [discriminate | reflexivity].
Qed.

Lemma parse_exp_none (rest : list ascii) :
  ends_number rest = true -> parse_exp rest = Some (0, rest).
Proof.
  destruct rest as [| c r]; [reflexivity |]. cbn [ends_number parse_exp].
  intros H. apply andb_prop in H as [H HE]. apply andb_prop in H as [_ He].
  apply negb_true_iff in HE, He. rewrite He, HE. reflexivity.
Qed.

Lemma parse_exp_digits (e : Z) (rest : list ascii) :
  stops rest = true ->
  parse_exp ("e"%char :: (if e <? 0 then "-"%char else "+"%char)
               :: dec_digits (Z.abs_N e) ++ rest)
  = Some (e, rest).
Proof.
  intros Hs. unfold parse_exp. cbn [Ascii.eqb Bool.eqb orb].
  destruct (Z.ltb_spec e 0).
  - rewrite eat_same.
    rewrite (span_digits_app _ rest (dec_digits_digits _) Hs).
    pose proof (dec_digits_nonempty (Z.abs_N e)).
    destruct (dec_digits (Z.abs_N e)) eqn:E; [contradiction |].
    rewrite <- E, dec_value_digits. f_equal. f_equal. lia.
  - rewrite eat_other by reflexivity. rewrite eat_same.
    rewrite (span_digits_app _ rest (dec_digits_digits _) Hs).
    pose proof (dec_digits_nonempty (Z.abs_N e)).
    destruct (dec_digits (Z.abs_N e)) eqn:E; [contradiction |].
    rewrite <- E, dec_value_digits. f_equal. f_equal. lia.
Qed.

Lemma canonical_significand (sg : bool) (d : ascii) (ds : list ascii) (n : Z) :
  canonical (Num sg (d :: ds) n) = true -> significand (d :: ds).
Proof.
  unfold canonical. cbn [digits]. intros H.
  apply andb_prop in H as [H Hl]. apply andb_prop in H as [Hd H0].
  apply negb_true_iff in Hl, H0. repeat split; eauto.
Qed.

Lemma forallb_firstn {A} (p : A -> bool) (l : list A) (k : nat) :
  forallb p l = true -> forallb p (firstn k l) = true.
Proof.
  revert k. induction l as [| x l IH]; intros [| k] H; cbn in *; auto.
  apply andb_prop in H as [-> H]. cbn. auto.
Qed.

Lemma forallb_skipn {A} (p : A -> bool) (l : list A) (k : nat) :
  forallb p l = true -> forallb p (skipn k l) = true.
Proof.
  revert k. induction l as [| x l IH]; intros [| k] H; cbn in *; auto.
  apply andb_prop in H as [_ H]. auto.
Qed.

Lemma forallb_repeat {A} (p : A -> bool) (x : A) (k : nat) :
  p x = true -> forallb p (repeat x k) = true.
Proof. intros H. induction k; cbn; [reflexivity |]. rewrite H. exact IHk. Qed.

(** The magnitude of a canonical number that is not zero, read back. *)
Lemma parse_magnitude (sg : bool) (d : ascii) (ds rest : list ascii) (n : Z) :
  canonical (Num sg (d :: ds) n) = true -> ends_number rest = true ->
  exists int f e s2 s3,
    eat "-" (Number_toString (Num false (d :: ds) n) ++ rest) = None
    /\ parse_int (Number_toString (Num false (d :: ds) n) ++ rest) = (int, s2)
    /\ int <> []
    /\ parse_frac s2 = Some (f, s3)
    /\ parse_exp s3 = Some (e, rest)
    /\ normalize sg (int ++ f) (Z.of_nat (List.length int) + e)
       = Num sg (d :: ds) n.
Proof.
  intros Hc He. pose proof (canonical_significand _ _ _ _ Hc) as Hs.
  pose proof Hs as (Hd & (d' & r' & [= <- <-] & H0) & Hl).
  pose proof (ends_number_stops _ He) as Hst.
  assert (Hdd : is_digit d = true) by (cbn in Hd; apply andb_prop in Hd; tauto).
  pose proof (digit_char d Hdd) as (Hm & _).
  unfold Number_toString. cbn [digits neg point app].
  set (k := Z.of_nat (List.length (d :: ds))).
  destruct ((k <=? n) && (n <=? 21)) eqn:C1.
  { (* an integer: the digits and n - k zeros *)
    apply andb_prop in C1 as [C1 _]. apply Z.leb_le in C1.
    exists ((d :: ds) ++ repeat "0"%char (Z.to_nat (n - k))), [], 0, rest, rest.
    rewrite <- app_assoc. cbn [app].
    split; [apply eat_other; exact Hm |].
    rewrite (parse_int_digits d (ds ++ repeat "0"%char (Z.to_nat (n - k))) rest);
      try assumption.
    2:{ change (forallb is_digit ((d :: ds) ++ repeat "0"%char (Z.to_nat (n - k))) = true).
        rewrite forallb_app, Hd. apply forallb_repeat. reflexivity. }
    repeat split; try discriminate.
    - apply parse_frac_none; assumption.
    - apply parse_exp_none; assumption.
    - rewrite app_nil_r.
      change (d :: ds ++ repeat "0"%char (Z.to_nat (n - k)))
        with ((d :: ds) ++ repeat "0"%char (Z.to_nat (n - k))).
      rewrite normalize_padded by exact Hs. f_equal.
      rewrite length_app, repeat_length. subst k. lia. }
  destruct ((0 <? n) && (n <=? 21)) eqn:C2.
  { (* a decimal point inside the digits *)
    apply andb_prop in C2 as [C2 C2']. apply Z.ltb_lt in C2. apply Z.leb_le in C2'.
    assert (Hnk : n < k).
    { apply andb_false_iff in C1 as [C1 | C1]; [apply Z.leb_gt in C1; exact C1 |].
      apply Z.leb_gt in C1. lia. }
    destruct (Z.to_nat n) as [| m] eqn:Em; [lia |].
    cbn [firstn skipn app].
    assert (Hm' : (m < List.length ds)%nat) by (subst k; cbn [List.length] in Hnk; lia).
    destruct (skipn m ds) as [| c f] eqn:Ef.
    { apply (f_equal (@List.length ascii)) in Ef. rewrite length_skipn in Ef.
      cbn in Ef. lia. }
    exists (d :: firstn m ds), (c :: f), 0, ("."%char :: (c :: f) ++ rest), rest.
    split; [apply eat_other; exact Hm |].
    split.
    { rewrite <- app_assoc.
      apply (parse_int_digits d (firstn m ds) ("."%char :: (c :: f) ++ rest));
        try assumption; try reflexivity.
      cbn [forallb] in Hd |- *. apply andb_prop in Hd as [-> Hd]. cbn.
      apply forallb_firstn. exact Hd. }
    assert (Hf : forallb is_digit (c :: f) = true).
    { rewrite <- Ef. apply forallb_skipn. cbn [forallb] in Hd.
      apply andb_prop in Hd. tauto. }
    repeat split; try discriminate.
    - apply parse_frac_digits; assumption.
    - apply parse_exp_none; assumption.
    - cbn [app]. rewrite <- Ef, firstn_skipn.
      rewrite normalize_plain by exact Hs. f_equal.
      cbn [List.length]. rewrite length_firstn. lia. }
  destruct ((-6 <? n) && (n <=? 0)) eqn:C3.
  { (* zeros between the point and the digits *)
    apply andb_prop in C3 as [_ C3]. apply Z.leb_le in C3.
    set (j := Z.to_nat (- n)).
    exists ["0"%char], (repeat "0"%char j ++ d :: ds), 0,
      ("."%char :: (repeat "0"%char j ++ d :: ds) ++ rest), rest.
    split; [reflexivity |].
    split; [reflexivity |].
    split; [discriminate |].
    assert (Hf : forallb is_digit (repeat "0"%char j ++ d :: ds) = true).
    { rewrite forallb_app, Hd, forallb_repeat by reflexivity. reflexivity. }
    split.
    { destruct (repeat "0"%char j ++ d :: ds) as [| c f] eqn:Ef.
      - destruct j; discriminate Ef.
      - apply parse_frac_digits; assumption. }
    split; [apply parse_exp_none; assumption |].
    cbn [app List.length]. rewrite normalize_leading by exact Hs.
    f_equal. subst j. lia. }
  (* a significand and an exponent *)
  exists [d], ds, (n - 1).
  destruct ds as [| c ds'].
  - exists ("e"%char :: (if n - 1 <? 0 then "-"%char else "+"%char)
                   :: dec_digits (Z.abs_N (n - 1)) ++ rest).
    exists ("e"%char :: (if n - 1 <? 0 then "-"%char else "+"%char)
                   :: dec_digits (Z.abs_N (n - 1)) ++ rest).
    cbn [app].
    split; [apply eat_other; exact Hm |].
    split; [apply (parse_int_digits d [] _ Hd H0); reflexivity |].
    repeat split; try discriminate.
    + apply parse_exp_digits; assumption.
    + rewrite normalize_plain by exact Hs. f_equal. cbn. lia.
  - exists ("."%char :: (c :: ds') ++ "e"%char
              :: (if n - 1 <? 0 then "-"%char else "+"%char)
              :: dec_digits (Z.abs_N (n - 1)) ++ rest).
    exists ("e"%char :: (if n - 1 <? 0 then "-"%char else "+"%char)
                   :: dec_digits (Z.abs_N (n - 1)) ++ rest).
    split; [apply eat_other; exact Hm |].
    split.
    { cbn [app]. rewrite <- app_assoc.
      apply (parse_int_digits d []); [cbn; rewrite Hdd | |]; auto. }
    repeat split; try discriminate.
    + apply (parse_frac_digits c ds'); [| reflexivity].
      cbn [forallb] in Hd. apply andb_prop in Hd. tauto.
    + apply parse_exp_digits; assumption.
    + rewrite normalize_plain by exact Hs. f_equal. cbn. lia.
Qed.

Lemma parse_number_toString (x : number) (rest : list ascii) :
  canonical x = true -> ends_number rest = true ->
  parse_number (Number_toString x ++ rest) = Some (x, rest).
Proof.
  intros Hc He. destruct x as [sg [| d ds] n].
  - unfold canonical in Hc. cbn [digits neg point] in Hc.
    apply andb_prop in Hc as [Hs Hn]. apply negb_true_iff in Hs.
    apply Z.eqb_eq in Hn. subst sg n.
    unfold Number_toString, parse_number. cbn [digits app].
    rewrite eat_other by reflexivity. rewrite parse_int_zero.
    rewrite parse_frac_none, parse_exp_none by assumption. reflexivity.
  - destruct (parse_magnitude sg d ds rest n Hc He)
      as (int & f & e & s2 & s3 & Hm & Hi & Hne & Hf & Hx & Hn).
    unfold parse_number.
    assert (E : Number_toString (Num sg (d :: ds) n)
                = (if sg then ["-"%char] else [])
                    ++ Number_toString (Num false (d :: ds) n)) by reflexivity.
    rewrite E. destruct sg; cbn [app].
    + rewrite eat_same, Hi. destruct int; [contradiction |].
      rewrite Hf, Hx, Hn. reflexivity.
    + rewrite Hm, Hi. destruct int; [contradiction |].
      rewrite Hf, Hx, Hn. reflexivity.
Qed.

(** ** JSON: the text of a value *)

Lemma ser_arr (vs : list value) :
  ser (VArr vs) = "["%char :: ser_elems vs ++ ["]"%char].
Proof. reflexivity. Qed.

Lemma ser_obj (ps : list (string * value)) :
  ser (VObj ps) = "{"%char :: ser_members true ps ++ ["}"%char].
Proof. reflexivity. Qed.

Lemma serializable_arr (vs : list value) :
  serializable (VArr vs) = forallb serializable vs.
Proof. induction vs as [| x r IH]; [reflexivity |]. cbn in *. rewrite IH. reflexivity. Qed.

Lemma serializable_obj (ps : list (string * value)) :
  serializable (VObj ps)
  = distinct (map fst ps) && forallb (fun p => serializable (snd p)) ps.
Proof.
  cbn [serializable]. f_equal.
  induction ps as [| [k x] r IH]; [reflexivity |]. cbn. rewrite IH. reflexivity.
Qed.

Lemma value_ind' (P : value -> Prop) :
  P VUndefined -> P VNull -> (forall b, P (VBool b)) ->
  (forall n, P (VNum n)) -> (forall s, P (VStr s)) ->
  (forall vs, Forall P vs -> P (VArr vs)) ->
  (forall ps, Forall (fun p => P (snd p)) ps -> P (VObj ps)) ->
  forall v, P v.
Proof.
  intros HU HN HB HNum HS HA HO.
  fix IH 1. intros [| | b | n | s | vs | ps].
  - exact HU.
  - exact HN.
  - apply HB.
  - apply HNum.
  - apply HS.
  - apply HA. induction vs as [| x r IHr]; constructor; [apply IH | exact IHr].
  - apply HO. induction ps as [| [k x] r IHr]; constructor;
      [apply IH | exact IHr].
Qed.

(** *** What a serialized value starts and ends with *)

Lemma starter_facts (c : ascii) :
  starter c = true ->
  is_json_ws c = false /\ Ascii.eqb c "]" = false /\ Ascii.eqb c "}" = false.
Proof. each_char c; try discriminate; auto. Qed.

Lemma digits_numeric (l : list ascii) :
  forallb is_digit l = true -> forallb numeric l = true.
Proof.
  induction l as [| c l IH]; [reflexivity |]. cbn [forallb]. intros H.
  apply andb_prop in H as [Hc H]. rewrite IH by exact H.
  unfold numeric. rewrite Hc. reflexivity.
Qed.

Lemma number_numeric (x : number) :
  canonical x = true -> forallb numeric (Number_toString x) = true.
Proof.
  intros Hc. destruct x as [sg [| d ds] n]; [reflexivity |].
  pose proof (canonical_significand _ _ _ _ Hc) as (Hd & _).
  pose proof (digits_numeric _ Hd) as Hn.
  unfold Number_toString. cbn [digits neg point].
  set (k := Z.of_nat (List.length (d :: ds))).
  rewrite forallb_app. apply andb_true_intro. split; [destruct sg; reflexivity |].
  destruct ((k <=? n) && (n <=? 21)).
  { rewrite forallb_app, Hn. apply forallb_repeat. reflexivity. }
  destruct ((0 <? n) && (n <=? 21)).
  { rewrite forallb_app. cbn [forallb].
    rewrite (digits_numeric _ (forallb_firstn _ _ _ Hd)).
    rewrite (digits_numeric _ (forallb_skipn _ _ _ Hd)). reflexivity. }
  destruct ((-6 <? n) && (n <=? 0)).
  { cbn [forallb]. rewrite forallb_app, Hn, forallb_repeat by reflexivity.
    reflexivity. }
  cbn [forallb] in Hn |- *. apply andb_prop in Hn as [-> Hn]. cbn [andb].
  rewrite forallb_app. cbn [forallb].
  rewrite (digits_numeric _ (dec_digits_digits _)).
  destruct ds; [| cbn [forallb] in Hn |- *; rewrite Hn];
    destruct (n - 1 <? 0); reflexivity.
Qed.

Lemma number_first (x : number) :
  canonical x = true ->
  exists c t, Number_toString x = c :: t
              /\ (is_digit c || Ascii.eqb c "-") = true.
Proof.
  intros Hc. destruct x as [sg [| d ds] n].
  - exists "0"%char, []. auto.
  - pose proof (canonical_significand _ _ _ _ Hc) as (Hd & _).
    cbn [forallb] in Hd. apply andb_prop in Hd as [Hd _].
    unfold Number_toString. cbn [digits neg point].
    set (k := Z.of_nat (List.length (d :: ds))).
    destruct sg; [eexists _, _; split; [reflexivity | auto] |].
    cbn [app].
    destruct ((k <=? n) && (n <=? 21));
      [eexists _, _; split; [reflexivity | rewrite Hd; auto] |].
    destruct ((0 <? n) && (n <=? 21)) eqn:C2.
    { apply andb_prop in C2 as [C2 _]. apply Z.ltb_lt in C2.
      destruct (Z.to_nat n) eqn:E; [lia |]. cbn [firstn app].
      eexists _, _; split; [reflexivity | rewrite Hd; auto]. }
    destruct ((-6 <? n) && (n <=? 0));
      eexists _, _; (split; [reflexivity | rewrite ?Hd; auto]).
Qed.

Lemma last_app_ne {A} (l t : list A) (d : A) :
  t <> [] -> last (l ++ t) d = last t d.
Proof.
  intros Ht. destruct (exists_last Ht) as (t' & c & ->).
  rewrite app_assoc, !last_last. reflexivity.
Qed.

Lemma last_digit (l : list ascii) (d : ascii) :
  l <> [] -> forallb is_digit l = true -> is_digit (last l d) = true.
Proof.
  intros Hl H. destruct (exists_last Hl) as (t & c & ->).
  rewrite last_last. rewrite forallb_app in H. cbn in H.
  apply andb_prop in H as [_ H]. apply andb_prop in H as [H _]. exact H.
Qed.

Lemma number_last (x : number) :
  canonical x = true -> is_digit (last (Number_toString x) "0"%char) = true.
Proof.
  intros Hc. destruct x as [sg [| d ds] n]; [reflexivity |].
  pose proof (canonical_significand _ _ _ _ Hc) as (Hd & _).
  unfold Number_toString. cbn [digits neg point].
  set (k := Z.of_nat (List.length (d :: ds))).
  assert (G : forall body, body <> [] ->
                 is_digit (last body "0"%char) = true ->
                 is_digit (last ((if sg then ["-"%char] else []) ++ body) "0"%char) = true).
  { intros body Hb H. rewrite last_app_ne by exact Hb. exact H. }
  destruct ((k <=? n) && (n <=? 21)) eqn:C1.
  { apply G; [discriminate |]. apply last_digit; [discriminate |].
    rewrite forallb_app, Hd. apply forallb_repeat. reflexivity. }
  destruct ((0 <? n) && (n <=? 21)) eqn:C2.
  { apply andb_prop in C2 as [C2 C2']. apply Z.ltb_lt in C2. apply Z.leb_le in C2'.
    assert (Hnk : n < k).
    { apply andb_false_iff in C1 as [C1 | C1]; apply Z.leb_gt in C1; lia. }
    destruct (skipn (Z.to_nat n) (d :: ds)) as [| c f] eqn:Ef.
    { apply (f_equal (@List.length ascii)) in Ef. rewrite length_skipn in Ef.
      cbn [List.length] in Ef. subst k. cbn [List.length] in Hnk. lia. }
    apply G; [destruct (firstn _ _); discriminate |].
    rewrite last_app_ne by discriminate.
    change (is_digit (last (c :: f) "0"%char) = true).
    apply last_digit; [discriminate |]. rewrite <- Ef.
    apply forallb_skipn. exact Hd. }
  destruct ((-6 <? n) && (n <=? 0)) eqn:C3.
  { apply G; [discriminate |].
    change ("0"%char :: "."%char :: repeat "0"%char (Z.to_nat (- n)) ++ d :: ds)
      with (["0"%char; "."%char] ++ (repeat "0"%char (Z.to_nat (- n)) ++ d :: ds)).
    rewrite last_app_ne by (destruct (repeat _ _); discriminate).
    apply last_digit; [destruct (repeat _ _); discriminate |].
    rewrite forallb_app, Hd, forallb_repeat by reflexivity. reflexivity. }
  apply G; [discriminate |].
  replace (d :: match ds with [] => [] | _ => "."%char :: ds end
             ++ "e"%char :: (if n - 1 <? 0 then "-"%char else "+"%char)
             :: dec_digits (Z.abs_N (n - 1)))
    with (((d :: match ds with [] => [] | _ => "."%char :: ds end)
             ++ ["e"%char; if n - 1 <? 0 then "-"%char else "+"%char])
            ++ dec_digits (Z.abs_N (n - 1)))
    by (rewrite <- app_assoc; reflexivity).
  rewrite last_app_ne by apply dec_digits_nonempty.
  apply last_digit; [apply dec_digits_nonempty | apply dec_digits_digits].
Qed.

Lemma ser_first (v : value) :
  serializable v = true -> exists c t, ser v = c :: t /\ starter c = true.
Proof.
  destruct v as [| | [] | n | s | vs | ps]; intros H; try discriminate;
    try (eexists _, _; split; [reflexivity | reflexivity]).
  cbn [serializable ser] in *.
  destruct (number_first n H) as (c & t & -> & Hc).
  exists c, t. split; [reflexivity |]. unfold starter. rewrite Hc. reflexivity.
Qed.

Lemma ser_last (v : value) :
  serializable v = true -> closer (last (ser v) "0"%char) = true.
Proof.
  destruct v as [| | [] | n | s | vs | ps]; intros H; try discriminate;
    try reflexivity.
  - cbn [ser]. unfold closer. rewrite number_last by exact H. reflexivity.
  - cbn [ser]. unfold quote.
    change (dquote :: flat_map quote_char (lit s) ++ [dquote])
      with ((dquote :: flat_map quote_char (lit s)) ++ [dquote]).
    rewrite last_last. reflexivity.
  - rewrite ser_arr.
    change ("["%char :: ser_elems vs ++ ["]"%char])
      with (("["%char :: ser_elems vs) ++ ["]"%char]).
    rewrite last_last. reflexivity.
  - rewrite ser_obj.
    change ("{"%char :: ser_members true ps ++ ["}"%char])
      with (("{"%char :: ser_members true ps) ++ ["}"%char]).
    rewrite last_last. reflexivity.
Qed.

Lemma numeric_printable (c : ascii) : numeric c = true -> printable c = true.
Proof. each_char c; try discriminate; reflexivity. Qed.

Lemma forallb_impl {A} (p q : A -> bool) (l : list A) :
  (forall x, p x = true -> q x = true) ->
  forallb p l = true -> forallb q l = true.
Proof.
  intros Hpq. induction l as [| x l IH]; [reflexivity |]. cbn.
  intros H. apply andb_prop in H as [Hx H]. rewrite (Hpq _ Hx), IH; auto.
Qed.

Lemma flat_quote_printable (l : list ascii) :
  forallb printable (flat_map quote_char l) = true.
Proof.
  induction l as [| c l IH]; [reflexivity |].
  cbn [flat_map]. rewrite forallb_app, quote_char_printable, IH. reflexivity.
Qed.

Lemma quote_printable (s : string) : forallb printable (quote s) = true.
Proof.
  unfold quote.
  change (dquote :: flat_map quote_char (lit s) ++ [dquote])
    with ([dquote] ++ flat_map quote_char (lit s) ++ [dquote]).
  rewrite !forallb_app, flat_quote_printable. reflexivity.
Qed.

Lemma ser_elems_cons (x y : value) (r : list value) :
  ser_elems (x :: y :: r) = ser x ++ ","%char :: ser_elems (y :: r).
Proof. reflexivity. Qed.

Lemma ser_members_cons (first : bool) (k : string) (x : value)
      (r : list (string * value)) :
  serializable x = true ->
  ser_members first ((k, x) :: r)
  = (if first then [] else [","%char])
      ++ quote k ++ ":"%char :: ser x ++ ser_members false r.
Proof. intros H. cbn [ser_members]. destruct x; try discriminate H; reflexivity. Qed.

Lemma elems_printable (vs : list value) :
  Forall (fun v => serializable v = true -> forallb printable (ser v) = true) vs ->
  forallb serializable vs = true ->
  forallb printable (ser_elems vs) = true.
Proof.
  induction 1 as [| x r Hx _ IHr]; intros H; [reflexivity |].
  cbn [forallb] in H. apply andb_prop in H as [H1 H2].
  destruct r as [| y r']; [exact (Hx H1) |].
  rewrite ser_elems_cons, forallb_app, (Hx H1). cbn [forallb andb].
  rewrite (IHr H2). reflexivity.
Qed.

Lemma members_printable (ps : list (string * value)) (first : bool) :
  Forall (fun p => serializable (snd p) = true ->
                   forallb printable (ser (snd p)) = true) ps ->
  forallb (fun p => serializable (snd p)) ps = true ->
  forallb printable (ser_members first ps) = true.
Proof.
  intros HF. revert first.
  induction HF as [| [k x] r Hx _ IHr]; intros first H; [reflexivity |].
  cbn [forallb snd] in H, Hx. apply andb_prop in H as [H1 H2].
  rewrite ser_members_cons by exact H1.
  rewrite !forallb_app. cbn [forallb]. rewrite forallb_app.
  rewrite quote_printable, (Hx H1), (IHr false H2).
  destruct first; reflexivity.
Qed.

Lemma ser_printable (v : value) :
  serializable v = true -> forallb printable (ser v) = true.
Proof.
  induction v as [| | b | n | s | vs IH | ps IH] using value_ind'; intros H;
    try discriminate; try reflexivity.
  - destruct b; reflexivity.
  - cbn [ser]. apply (forallb_impl numeric); [apply numeric_printable |].
    apply number_numeric. exact H.
  - apply quote_printable.
  - rewrite ser_arr. rewrite serializable_arr in H.
    change ("["%char :: ser_elems vs ++ ["]"%char])
      with (["["%char] ++ ser_elems vs ++ ["]"%char]).
    rewrite !forallb_app, (elems_printable vs IH H). reflexivity.
  - rewrite ser_obj. rewrite serializable_obj in H.
    apply andb_prop in H as [_ H].
    change ("{"%char :: ser_members true ps ++ ["}"%char])
      with (["{"%char] ++ ser_members true ps ++ ["}"%char]).
    rewrite !forallb_app, (members_printable ps true IH H). reflexivity.
Qed.

(** ** JSON: reading a value back *)

(** *** Objects with distinct property names *)

Lemma distinct_head (x : string) (r : list string) :
  distinct (x :: r) = true -> ~ In x r /\ distinct r = true.
Proof.
  cbn. intros H. apply andb_prop in H as [H Hr]. apply negb_true_iff in H.
  split; [| exact Hr]. intros Hin.
  assert (existsb (String.eqb x) r = true); [| congruence].
  apply existsb_exists. exists x. split; [exact Hin | apply String.eqb_refl].
Qed.

Lemma obj_set_fresh (k : string) (v : value) (acc : list (string * value)) :
  ~ In k (map fst acc) -> obj_set k v acc = acc ++ [(k, v)].
Proof.
  induction acc as [| [k' v'] r IH]; cbn; intros H; [reflexivity |].
  destruct (String.eqb_spec k' k) as [-> | Hne]; [tauto |].
  rewrite IH by tauto. reflexivity.
Qed.

Lemma fold_obj_set (ms acc : list (string * value)) :
  distinct (map fst ms) = true ->
  (forall k, In k (map fst acc) -> ~ In k (map fst ms)) ->
  fold_left (fun a m => obj_set (fst m) (snd m) a) ms acc = acc ++ ms.
Proof.
  revert acc. induction ms as [| [k v] r IH]; intros acc Hd Hdis; cbn.
  - rewrite app_nil_r. reflexivity.
  - cbn [map fst] in Hd, Hdis. apply distinct_head in Hd as [Hk Hd].
    rewrite obj_set_fresh.
    + rewrite IH; [rewrite <- app_assoc; reflexivity | exact Hd |].
      intros k' Hin. rewrite map_app in Hin. apply in_app_or in Hin as [Hin | Hin].
      * intros Hr. apply (Hdis k' Hin). right. exact Hr.
      * cbn in Hin. destruct Hin as [<- | []]. exact Hk.
    + intros Hin. apply (Hdis k Hin). left. reflexivity.
Qed.

Lemma make_object_distinct (ms : list (string * value)) :
  distinct (map fst ms) = true -> make_object ms = VObj ms.
Proof.
  intros H. unfold make_object. rewrite fold_obj_set; auto.
Qed.

(** *** Reading a value back *)

Lemma skip_ws_solid (c : ascii) (t : list ascii) :
  is_json_ws c = false -> skip_ws (c :: t) = c :: t.
Proof. intros H. cbn. rewrite H. reflexivity. Qed.

Lemma number_dispatch (c : ascii) :
  is_digit c || Ascii.eqb c "-" = true ->
  is_json_ws c = false /\ Ascii.eqb c "{" = false /\ Ascii.eqb c "[" = false
  /\ Ascii.eqb c dquote = false /\ Ascii.eqb c "t" = false
  /\ Ascii.eqb c "f" = false /\ Ascii.eqb c "n" = false.
Proof. each_char c; try discriminate; repeat split; reflexivity. Qed.

Lemma starter_ends_number (c : ascii) (t : list ascii) :
  Ascii.eqb c "," = true \/ Ascii.eqb c "]" = true \/ Ascii.eqb c "}" = true ->
  ends_number (c :: t) = true.
Proof.
  intros [H | [H | H]]; apply Ascii.eqb_eq in H; subst c; reflexivity.
Qed.

Lemma elems_read_back (vs : list value) :
  Forall reads_back vs -> vs <> [] -> forallb serializable vs = true ->
  forall (fuel : nat) (rest : list ascii),
    (height_elems vs <= fuel)%nat ->
    parse_elems fuel (ser_elems vs ++ "]"%char :: rest) = Some (vs, rest).
Proof.
  induction 1 as [| x r Hx _ IHr]; intros Hne Hs fuel rest Hf; [contradiction |].
  cbn [forallb] in Hs. apply andb_prop in Hs as [H1 H2].
  cbn [height_elems fold_right] in Hf. fold (height_elems r) in Hf.
  destruct fuel as [| f]; [lia |]. cbn [parse_elems].
  destruct r as [| y r'].
  - cbn [ser_elems]. rewrite (Hx H1 f ("]"%char :: rest)) by (try reflexivity; lia).
    reflexivity.
  - rewrite ser_elems_cons, <- app_assoc. cbn [app].
    rewrite (Hx H1 f) by (try reflexivity; lia).
    rewrite skip_ws_solid by reflexivity. rewrite Ascii.eqb_refl.
    rewrite (IHr ltac:(discriminate) H2 f rest) by lia. reflexivity.
Qed.

Lemma ser_members_false (ps : list (string * value)) :
  ps <> [] -> forallb (fun p => serializable (snd p)) ps = true ->
  ser_members false ps = ","%char :: ser_members true ps.
Proof.
  destruct ps as [| [k x] r]; [contradiction |]. intros _ H.
  cbn [forallb snd] in H. apply andb_prop in H as [H _].
  rewrite !ser_members_cons by exact H. reflexivity.
Qed.

Lemma members_read_back (ps : list (string * value)) :
  Forall (fun p => reads_back (snd p)) ps -> ps <> [] ->
  forallb (fun p => serializable (snd p)) ps = true ->
  forall (fuel : nat) (rest : list ascii),
    (height_members ps <= fuel)%nat ->
    parse_members fuel (ser_members true ps ++ "}"%char :: rest)
    = Some (ps, rest).
Proof.
  induction 1 as [| [k x] r Hx _ IHr]; intros Hne Hs fuel rest Hf; [contradiction |].
  cbn [forallb snd] in Hs, Hx. apply andb_prop in Hs as [H1 H2].
  cbn [height_members fold_right snd] in Hf. fold (height_members r) in Hf.
  destruct fuel as [| f]; [lia |].
  rewrite ser_members_cons by exact H1. cbn [app]. unfold quote.
  cbn [parse_members app skip_ws]. 
  change (is_json_ws dquote) with false. cbn iota.
  rewrite eat_same. rewrite <- !app_assoc. cbn [app].
  rewrite parse_quoted.
  change (skip_ws (":"%char :: ?t)) with (":"%char :: t).
  rewrite eat_same, <- app_assoc.
  unfold lit. rewrite string_of_list_ascii_of_string.
  destruct r as [| p r'].
  - cbn [ser_members app].
    rewrite (Hx H1 f ("}"%char :: rest)) by (try reflexivity; lia).
    reflexivity.
  - rewrite (ser_members_false (p :: r')) by (try discriminate; exact H2).
    cbn [app].
    rewrite (Hx H1 f) by (try reflexivity; lia).
    rewrite skip_ws_solid by reflexivity. rewrite Ascii.eqb_refl.
    rewrite (IHr ltac:(discriminate) H2 f rest) by lia. reflexivity.
Qed.

Lemma height_arr (vs : list value) : height (VArr vs) = S (height_elems vs).
Proof. reflexivity. Qed.

Lemma height_obj (ps : list (string * value)) :
  height (VObj ps) = S (height_members ps).
Proof. reflexivity. Qed.

Lemma height_pos (v : value) : (1 <= height v)%nat.
Proof. destruct v; cbn; lia. Qed.

Theorem parse_ser (v : value) : reads_back v.
Proof.
  induction v as [| | b | n | s | vs IH | ps IH] using value_ind';
    intros Hs fuel rest Hf He; try discriminate Hs;
    (destruct fuel as [| f]; [cbn [height] in Hf; lia |]).
  - reflexivity.
  - destruct b; reflexivity.
  - cbn [serializable ser] in *.
    destruct (number_first n Hs) as (c & t & E & Hc).
    pose proof (number_dispatch c Hc) as (W & D1 & D2 & D3 & D4 & D5 & D6).
    cbn [parse_value]. rewrite E. cbn [app].
    rewrite skip_ws_solid by exact W. rewrite D1, D2, D3, D4, D5, D6.
    change (c :: t ++ rest) with ((c :: t) ++ rest). rewrite <- E.
    rewrite parse_number_toString by assumption. reflexivity.
  - cbn [ser]. unfold quote. cbn [app parse_value].
    rewrite skip_ws_solid by reflexivity.
    change (Ascii.eqb dquote "{") with false.
    change (Ascii.eqb dquote "[") with false.
    rewrite Ascii.eqb_refl. cbn iota.
    rewrite <- app_assoc. cbn [app]. rewrite parse_quoted.
    unfold lit. rewrite string_of_list_ascii_of_string. reflexivity.
  - rewrite ser_arr, height_arr in *. rewrite serializable_arr in Hs.
    cbn [app parse_value]. rewrite skip_ws_solid by reflexivity.
    change (Ascii.eqb "[" "{") with false. rewrite Ascii.eqb_refl. cbn iota.
    rewrite <- app_assoc. cbn [app].
    destruct vs as [| x r]; [reflexivity |].
    assert (Hx : serializable x = true) by (cbn in Hs; apply andb_prop in Hs; tauto).
    destruct (ser_first x Hx) as (c & t & E & Hc).
    pose proof (starter_facts c Hc) as (W & Hb & _).
    assert (E' : exists t', ser_elems (x :: r) = c :: t').
    { destruct r; [exists t; exact E |].
      rewrite ser_elems_cons, E. eexists. reflexivity. }
    destruct E' as (t' & E').
    rewrite E' at 1. cbn [app]. rewrite skip_ws_solid by exact W.
    rewrite eat_other by exact Hb.
    rewrite (elems_read_back (x :: r) IH ltac:(discriminate) Hs f rest) by lia.
    reflexivity.
  - rewrite ser_obj, height_obj in *. rewrite serializable_obj in Hs.
    apply andb_prop in Hs as [Hd Hs].
    cbn [app parse_value]. rewrite skip_ws_solid by reflexivity.
    rewrite Ascii.eqb_refl. cbn iota.
    rewrite <- app_assoc. cbn [app].
    destruct ps as [| [k x] r]; [reflexivity |].
    assert (Hx : serializable x = true) by (cbn in Hs; apply andb_prop in Hs; tauto).
    assert (E' : exists t', ser_members true ((k, x) :: r) = dquote :: t').
    { rewrite ser_members_cons by exact Hx. eexists. reflexivity. }
    destruct E' as (t' & E').
    rewrite E' at 1. cbn [app]. rewrite skip_ws_solid by reflexivity.
    rewrite eat_other by reflexivity.
    rewrite (members_read_back ((k, x) :: r) IH ltac:(discriminate) Hs f rest) by lia.
    rewrite make_object_distinct by exact Hd. reflexivity.
Qed.

(** *** Enough fuel *)

Lemma height_elems_le (vs : list value) :
  Forall (fun v => serializable v = true ->
                   (height v <= List.length (ser v))%nat) vs ->
  forallb serializable vs = true ->
  (height_elems vs <= S (List.length (ser_elems vs)))%nat.
Proof.
  induction 1 as [| x r Hx _ IHr]; intros H; [cbn; lia |].
  cbn [forallb] in H. apply andb_prop in H as [H1 H2].
  specialize (Hx H1). specialize (IHr H2).
  cbn [height_elems fold_right]. fold (height_elems r).
  destruct r as [| y r'].
  - cbn [ser_elems height_elems fold_right]. lia.
  - rewrite ser_elems_cons, length_app. cbn [List.length]. lia.
Qed.

Lemma height_members_le (ps : list (string * value)) (first : bool) :
  Forall (fun p => serializable (snd p) = true ->
                   (height (snd p) <= List.length (ser (snd p)))%nat) ps ->
  forallb (fun p => serializable (snd p)) ps = true ->
  (height_members ps <= S (List.length (ser_members first ps)))%nat.
Proof.
  intros HF. revert first.
  induction HF as [| [k x] r Hx _ IHr]; intros first H; [cbn; lia |].
  cbn [forallb snd] in H, Hx. apply andb_prop in H as [H1 H2].
  specialize (Hx H1). specialize (IHr false H2).
  cbn [height_members fold_right snd]. fold (height_members r).
  rewrite ser_members_cons by exact H1.
  rewrite !length_app. cbn [List.length]. rewrite length_app.
  unfold quote. cbn [List.length]. lia.
Qed.

Lemma height_le (v : value) :
  serializable v = true -> (height v <= List.length (ser v))%nat.
Proof.
  induction v as [| | b | n | s | vs IH | ps IH] using value_ind'; intros H;
    try discriminate.
  - cbn. lia.
  - destruct b; cbn; lia.
  - cbn [serializable ser height] in *.
    destruct (number_first n H) as (c & t & -> & _). cbn. lia.
  - cbn [ser height]. unfold quote. cbn [List.length]. lia.
  - rewrite ser_arr, height_arr. rewrite serializable_arr in H.
    pose proof (height_elems_le vs IH H).
    cbn [List.length]. rewrite length_app. cbn [List.length]. lia.
  - rewrite ser_obj, height_obj. rewrite serializable_obj in H.
    apply andb_prop in H as [_ H].
    pose proof (height_members_le ps true IH H).
    cbn [List.length]. rewrite length_app. cbn [List.length]. lia.
Qed.

Lemma length_string_of_list_ascii (l : list ascii) :
  String.length (string_of_list_ascii l) = List.length l.
Proof. induction l; cbn; auto. Qed.

(** JSON.parse(JSON.stringify(v)) is v. *)
Theorem JSON_parse_stringify (v : value) :
  serializable v = true ->
  exists text, JSON_stringify v = Some text /\ JSON_parse text = Some v.
Proof.
  intros H. exists (string_of_list_ascii (ser v)). split.
  - unfold JSON_stringify. destruct v; try discriminate H; reflexivity.
  - unfold JSON_parse, lit.
    rewrite list_ascii_of_string_of_list_ascii, length_string_of_list_ascii.
    rewrite <- (app_nil_r (ser v)) at 2.
    rewrite (parse_ser v H) by (try reflexivity; pose proof (height_le v H); lia).
    reflexivity.
Qed.

(** ** JSON: the parser never runs out of fuel *)

Local Close Scope Z_scope.

Lemma skip_ws_length (s : list ascii) : len (skip_ws s) <= len s.
Proof.
  induction s as [| c s IH]; cbn; [lia |]. destruct (is_json_ws c); cbn; lia.
Qed.

Lemma eat_length (c : ascii) (s r : list ascii) :
  eat c s = Some r -> len s = S (len r).
Proof.
  destruct s as [| x s]; cbn; [discriminate |].
  destruct (Ascii.eqb x c); [| discriminate]. intros [= ->]. reflexivity.
Qed.

Lemma eat_word_length (w s r : list ascii) :
  eat_word w s = Some r -> len r <= len s.
Proof.
  revert s. induction w as [| c w IH]; intros s; cbn.
  - intros [= ->]. lia.
  - destruct (eat c s) as [s' |] eqn:E; [| discriminate].
    intros H. apply IH in H. apply eat_length in E. lia.
Qed.

Lemma span_digits_length (s a b : list ascii) :
  span_digits s = (a, b) -> len a + len b = len s.
Proof.
  revert a b. induction s as [| c s IH]; intros a b; cbn.
  - intros [= <- <-]. reflexivity.
  - destruct (is_digit c).
    + destruct (span_digits s) as [a' b'] eqn:E. intros [= <- <-].
      specialize (IH _ _ eq_refl). cbn. lia.
    + intros [= <- <-]. reflexivity.
Qed.

Lemma with_chars_some cs o t r :
  with_chars cs o = Some (t, r) -> exists t', o = Some (t', r).
Proof.
  destruct o as [[t' r'] |]; cbn; [| discriminate]. intros [= _ ->]. eauto.
Qed.

Lemma parse_chars_length (n : nat) : forall s t r,
  len s <= n -> parse_chars s = Some (t, r) -> len r < len s.
Proof.
  induction n as [| n IH]; intros s t r Hn H.
  - destruct s; [discriminate | cbn in Hn; lia].
  - destruct s as [| c s]; [discriminate |]. cbn [parse_chars] in H.
    cbn [List.length] in Hn |- *.
    destruct (Ascii.eqb c dquote); [injection H as _ ->; lia |].
    destruct (Ascii.eqb c bslash).
    + destruct s as [| e r1]; [discriminate |].
      cbn [List.length] in Hn |- *.
      destruct (simple_escape e).
      { apply with_chars_some in H as (t' & H). apply IH in H; lia. }
      destruct (Ascii.eqb e "u"); [| discriminate].
      destruct r1 as [| h1 [| h2 [| h3 [| h4 r2]]]]; try discriminate.
      cbn [List.length] in Hn |- *.
      destruct (hex4 h1 h2 h3 h4) as [u |]; [| discriminate].
      assert (G : forall cs, with_chars cs (parse_chars r2) = Some (t, r) ->
                             len r < S (S (S (S (S (S (len r2))))))).
      { intros cs Hc. apply with_chars_some in Hc as (t' & Hc).
        apply IH in Hc; lia. }
      destruct (is_high_surrogate u); [| eapply G; eassumption].
      destruct r2 as [| b [| x [| l1 [| l2 [| l3 [| l4 r3]]]]]];
        try (eapply G; eassumption).
      destruct (hex4 l1 l2 l3 l4) as [l |]; [| eapply G; eassumption].
      destruct (_ && _); [| eapply G; eassumption].
      apply with_chars_some in H as (t' & H). apply IH in H;
        cbn [List.length] in *; lia.
    + destruct (code c <? 32)%N; [discriminate |].
      apply with_chars_some in H as (t' & H). apply IH in H; lia.
Qed.

Lemma parse_int_length (s int s2 : list ascii) :
  parse_int s = (int, s2) -> len int + len s2 = len s.
Proof.
  unfold parse_int. destruct (eat "0" s) as [r |] eqn:E.
  - intros [= <- <-]. apply eat_length in E. cbn. lia.
  - apply span_digits_length.
Qed.

Lemma parse_frac_length (s f s3 : list ascii) :
  parse_frac s = Some (f, s3) -> len s3 <= len s.
Proof.
  unfold parse_frac. destruct (eat "." s) as [r |] eqn:E.
  - destruct (span_digits r) as [a b] eqn:Es.
    destruct a; [discriminate |]. intros [= <- <-].
    apply eat_length in E. apply span_digits_length in Es. cbn in Es. lia.
  - intros [= <- <-]. lia.
Qed.

Lemma parse_exp_length (s : list ascii) (e : Z) (s4 : list ascii) :
  parse_exp s = Some (e, s4) -> len s4 <= len s.
Proof.
  unfold parse_exp. destruct s as [| c r]; [intros [= <- <-]; lia |].
  destruct (_ || _); [| intros [= <- <-]; lia].
  destruct (eat "-" r) as [r' |] eqn:E1.
  - destruct (span_digits r') as [a b] eqn:Es. destruct a; [discriminate |].
    intros [= _ <-]. apply eat_length in E1. apply span_digits_length in Es.
    cbn in *. lia.
  - destruct (eat "+" r) as [r' |] eqn:E2.
    + destruct (span_digits r') as [a b] eqn:Es. destruct a; [discriminate |].
      intros [= _ <-]. apply eat_length in E2. apply span_digits_length in Es.
      cbn in *. lia.
    + destruct (span_digits r) as [a b] eqn:Es. destruct a; [discriminate |].
      intros [= _ <-]. apply span_digits_length in Es. cbn in *. lia.
Qed.

Lemma parse_number_length (s : list ascii) (x : number) (r : list ascii) :
  parse_number s = Some (x, r) -> len r < len s.
Proof.
  unfold parse_number.
  set (p := match eat "-" s with Some r0 => (true, r0) | None => (false, s) end).
  assert (Hp : len (snd p) <= len s).
  { subst p. destruct (eat "-" s) eqn:E; cbn; [apply eat_length in E |]; lia. }
  destruct p as [sg s1]. cbn [snd] in Hp.
  destruct (parse_int s1) as [int s2] eqn:Ei. apply parse_int_length in Ei.
  destruct int as [| d int']; [discriminate |].
  destruct (parse_frac s2) as [[f s3] |] eqn:Ef; [| discriminate].
  apply parse_frac_length in Ef.
  destruct (parse_exp s3) as [[e s4] |] eqn:Ee; [| discriminate].
  apply parse_exp_length in Ee. intros [= _ <-]. cbn in Ei. lia.
Qed.

Lemma skip_ws_cons (s : list ascii) (c : ascii) (r : list ascii) :
  skip_ws s = c :: r -> len r < len s.
Proof. intros H. pose proof (skip_ws_length s). rewrite H in *. cbn in *. lia. Qed.

Lemma eat_skip_ws (c : ascii) (s r : list ascii) :
  eat c (skip_ws s) = Some r -> len r < len s.
Proof.
  intros H. apply eat_length in H. pose proof (skip_ws_length s). lia.
Qed.

(** Every parser consumes at least one character. *)
Lemma parse_consumes (fuel : nat) :
  (forall s v r, parse_value fuel s = Some (v, r) -> len r < len s)
  /\ (forall s vs r, parse_elems fuel s = Some (vs, r) -> len r < len s)
  /\ (forall s ms r, parse_members fuel s = Some (ms, r) -> len r < len s).
Proof.
  induction fuel as [| f (IHv & IHe & IHm)]; [repeat split; discriminate |].
  repeat split.
  - intros s v r. cbn [parse_value].
    destruct (skip_ws s) as [| c t] eqn:Es; [discriminate |].
    apply skip_ws_cons in Es.
    destruct (Ascii.eqb c "{").
    { destruct (eat "}" (skip_ws t)) as [r' |] eqn:E.
      - intros [= _ <-]. apply eat_skip_ws in E. lia.
      - destruct (parse_members f t) as [[ms r'] |] eqn:Em; [| discriminate].
        intros [= _ <-]. apply IHm in Em. lia. }
    destruct (Ascii.eqb c "[").
    { destruct (eat "]" (skip_ws t)) as [r' |] eqn:E.
      - intros [= _ <-]. apply eat_skip_ws in E. lia.
      - destruct (parse_elems f t) as [[vs r'] |] eqn:Em; [| discriminate].
        intros [= _ <-]. apply IHe in Em. lia. }
    destruct (Ascii.eqb c dquote).
    { destruct (parse_chars t) as [[k r'] |] eqn:Ec; [| discriminate].
      intros [= _ <-]. apply (parse_chars_length _ _ _ _ (le_n _)) in Ec. lia. }
    assert (W : forall w x, option_map (pair x) (eat_word w t) = Some (v, r) ->
                            len r < len s).
    { intros w x. destruct (eat_word w t) as [r' |] eqn:E; [| discriminate].
      intros [= _ <-]. apply eat_word_length in E. lia. }
    destruct (Ascii.eqb c "t"); [apply W |].
    destruct (Ascii.eqb c "f"); [apply W |].
    destruct (Ascii.eqb c "n"); [apply W |].
    destruct (parse_number (c :: t)) as [[x r'] |] eqn:En; [| discriminate].
    intros [= _ <-]. apply parse_number_length in En. cbn in En. lia.
  - intros s vs r. cbn [parse_elems].
    destruct (parse_value f s) as [[v r1] |] eqn:Ev; [| discriminate].
    apply IHv in Ev.
    destruct (skip_ws r1) as [| c r2] eqn:Es; [discriminate |].
    apply skip_ws_cons in Es.
    destruct (Ascii.eqb c ",").
    + destruct (parse_elems f r2) as [[vs' r3] |] eqn:Ee; [| discriminate].
      intros [= _ <-]. apply IHe in Ee. lia.
    + destruct (Ascii.eqb c "]"); [| discriminate]. intros [= _ <-]. lia.
  - intros s ms r. cbn [parse_members].
    destruct (eat dquote (skip_ws s)) as [r0 |] eqn:E0; [| discriminate].
    apply eat_skip_ws in E0.
    destruct (parse_chars r0) as [[k r1] |] eqn:Ec; [| discriminate].
    apply (parse_chars_length _ _ _ _ (le_n _)) in Ec.
    destruct (eat ":" (skip_ws r1)) as [r2 |] eqn:E2; [| discriminate].
    apply eat_skip_ws in E2.
    destruct (parse_value f r2) as [[v r3] |] eqn:Ev; [| discriminate].
    apply IHv in Ev.
    destruct (skip_ws r3) as [| c r4] eqn:Es; [discriminate |].
    apply skip_ws_cons in Es.
    destruct (Ascii.eqb c ",").
    + destruct (parse_members f r4) as [[ms' r5] |] eqn:Em; [| discriminate].
      intros [= _ <-]. apply IHm in Em. lia.
    + destruct (Ascii.eqb c "}"); [| discriminate]. intros [= _ <-]. lia.
Qed.

(** More fuel than twice the length of the text changes no result. *)
Lemma parse_fuel (fuel : nat) :
  (forall s more, 2 * len s + 1 <= fuel -> fuel <= more ->
                  parse_value more s = parse_value fuel s)
  /\ (forall s more, 2 * len s + 2 <= fuel -> fuel <= more ->
                     parse_elems more s = parse_elems fuel s)
  /\ (forall s more, 2 * len s + 2 <= fuel -> fuel <= more ->
                     parse_members more s = parse_members fuel s).
Proof.
  induction fuel as [| f (IHv & IHe & IHm)]; [repeat split; intros; lia |].
  repeat split; intros s [| g] Hs Hm; try lia.
  - cbn [parse_value].
    destruct (skip_ws s) as [| c t] eqn:Es; [reflexivity |].
    apply skip_ws_cons in Es.
    rewrite (IHm t g), (IHe t g) by lia. reflexivity.
  - cbn [parse_elems]. rewrite (IHv s g) by lia.
    destruct (parse_value f s) as [[v r1] |] eqn:Ev; [| reflexivity].
    apply (proj1 (parse_consumes f)) in Ev.
    destruct (skip_ws r1) as [| c r2] eqn:Es; [reflexivity |].
    apply skip_ws_cons in Es.
    rewrite (IHe r2 g) by lia. reflexivity.
  - cbn [parse_members].
    destruct (eat dquote (skip_ws s)) as [r0 |] eqn:E0; [| reflexivity].
    apply eat_skip_ws in E0.
    destruct (parse_chars r0) as [[k r1] |] eqn:Ec; [| reflexivity].
    apply (parse_chars_length _ _ _ _ (le_n _)) in Ec.
    destruct (eat ":" (skip_ws r1)) as [r2 |] eqn:E2; [| reflexivity].
    apply eat_skip_ws in E2.
    rewrite (IHv r2 g) by lia.
    destruct (parse_value f r2) as [[v r3] |] eqn:Ev; [| reflexivity].
    apply (proj1 (parse_consumes f)) in Ev.
    destruct (skip_ws r3) as [| c r4] eqn:Es; [reflexivity |].
    apply skip_ws_cons in Es.
    rewrite (IHm r4 g) by lia. reflexivity.
Qed.

(** [JSON.parse] does not depend on its fuel: [None] is a syntax error. *)
Theorem JSON_parse_fuel (text : string) (more : nat) :
  S (2 * String.length text) <= more ->
  parse_value more (lit text)
  = parse_value (S (2 * String.length text)) (lit text).
Proof.
  intros H. apply (proj1 (parse_fuel _)); [| exact H].
  unfold lit. rewrite <- (string_of_list_ascii_of_string text) at 2.
  clear. induction text as [| c t IH]; cbn in *; lia.
Qed.

Local Open Scope Z_scope.

(** ** Lines and trimming *)

(** *** Lines *)

Lemma split_first (sep : ascii) (u r : string) :
  contains sep u = false ->
  split sep (u +:+ String sep r) = u :: split sep r.
Proof.
  induction u as [| c u IH]; cbn [contains]; intros Hu.
  - change ("" +:+ String sep r)%string with (String sep r).
    cbn [split]. rewrite Ascii.eqb_refl. reflexivity.
  - change (String c u +:+ String sep r) with (String c (u +:+ String sep r)).
    apply orb_false_elim in Hu as [Hc Hu].
    cbn [split]. rewrite Hc, IH by exact Hu. reflexivity.
Qed.

Lemma split_single (sep : ascii) (u : string) :
  contains sep u = false -> split sep u = [u].
Proof.
  induction u as [| c u IH]; cbn [contains]; intros Hu.
  - reflexivity.
  - apply orb_false_elim in Hu as [Hc Hu].
    cbn [split]. rewrite Hc, IH by exact Hu. reflexivity.
Qed.

Lemma split_join (sep : ascii) (l : list string) :
  l <> [] -> forallb (fun t => negb (contains sep t)) l = true ->
  split sep (join (String sep "") l) = l.
Proof.
  induction l as [| x r IH]; intros Hne H; [contradiction |].
  cbn [forallb] in H. apply andb_prop in H as [Hx Hr].
  apply negb_true_iff in Hx.
  destruct r as [| y r'].
  - cbn [join]. apply split_single. exact Hx.
  - change (join (String sep "") (x :: y :: r'))
      with (x +:+ String sep (join (String sep "") (y :: r'))).
    rewrite split_first by exact Hx. f_equal. apply IH; [discriminate | exact Hr].
Qed.

Lemma contains_lit (sep : ascii) (l : list ascii) :
  contains sep (string_of_list_ascii l) = existsb (fun c => Ascii.eqb c sep) l.
Proof. induction l as [| c l IH]; cbn; [reflexivity |]. rewrite IH. reflexivity. Qed.

Lemma printable_no_LF (l : list ascii) :
  forallb printable l = true -> existsb (fun c => Ascii.eqb c LF) l = false.
Proof.
  induction l as [| c l IH]; [reflexivity |]. cbn [forallb existsb]. intros H.
  apply andb_prop in H as [Hc H]. rewrite (IH H), orb_false_r.
  revert Hc. clear. each_char c; intros; try discriminate; reflexivity.
Qed.

(** *** trim *)

Lemma strip_any_solid (c : ascii) (t : list ascii) :
  solid c = true -> strip_any white_space (c :: t) = None.
Proof. each_char c; intros H; try discriminate H; reflexivity. Qed.

Lemma strip_any_rev_solid (c : ascii) (t : list ascii) :
  solid c = true -> strip_any (map (@rev ascii) white_space) (c :: t) = None.
Proof. each_char c; intros H; try discriminate H; reflexivity. Qed.

Lemma trim_start_none (fuel : nat) (ws : list (list ascii)) (l : list ascii) :
  strip_any ws l = None -> trim_start fuel ws l = l.
Proof. intros H. destruct fuel; cbn [trim_start]; [| rewrite H]; reflexivity. Qed.

Lemma trim_solid (l : list ascii) :
  l <> [] -> solid (hd "0"%char l) = true -> solid (last l "0"%char) = true ->
  trim (string_of_list_ascii l) = string_of_list_ascii l.
Proof.
  intros Hne Hh Hl. unfold trim, lit.
  rewrite list_ascii_of_string_of_list_ascii.
  rewrite (trim_start_none _ white_space l).
  - destruct (last_rev_head l "0"%char Hne) as (r & Er).
    rewrite trim_start_none, rev_involutive; [reflexivity |].
    rewrite Er. apply strip_any_rev_solid. exact Hl.
  - destruct l as [| c t]; [contradiction |].
    apply strip_any_solid. exact Hh.
Qed.

Lemma starter_solid (c : ascii) : starter c = true -> solid c = true.
Proof. each_char c; intros H; try discriminate H; reflexivity. Qed.

Lemma closer_solid (c : ascii) : closer c = true -> solid c = true.
Proof. each_char c; intros H; try discriminate H; reflexivity. Qed.

(** ** The newline format *)

Lemma JSON_stringify_text (v : value) :
  serializable v = true -> JSON_stringify v = Some (text_of v).
Proof. intros H. destruct v; try discriminate H; reflexivity. Qed.

Lemma JSON_parse_text (v : value) :
  serializable v = true -> JSON_parse (text_of v) = Some v.
Proof.
  intros H. destruct (JSON_parse_stringify v H) as (t & Et & Ep).
  rewrite JSON_stringify_text in Et by exact H. injection Et as <-. exact Ep.
Qed.

Lemma lines_text (X : list value) :
  forallb serializable X = true ->
  stringify_lines X = join (String LF "") (map text_of X).
Proof.
  intros H. unfold stringify_lines. f_equal.
  induction X as [| v X IH]; [reflexivity |].
  cbn [forallb] in H. apply andb_prop in H as [Hv H].
  cbn [map]. rewrite JSON_stringify_text, IH by assumption. reflexivity.
Qed.

Lemma map_parse_text (X : list value) :
  forallb serializable X = true -> Server.map_parse (map text_of X) = Some X.
Proof.
  induction X as [| v X IH]; [reflexivity |]. cbn [forallb]. intros H.
  apply andb_prop in H as [Hv H].
  cbn [map Server.map_parse]. rewrite JSON_parse_text, IH by assumption.
  reflexivity.
Qed.

Lemma lit_app (a b : string) : lit (a +:+ b) = lit a ++ lit b.
Proof.
  induction a as [| c a IH]; [reflexivity |].
  change (lit (String c (a +:+ b)) = c :: (lit a ++ lit b)).
  unfold lit in *. cbn [list_ascii_of_string]. f_equal. exact IH.
Qed.

Lemma lit_text (v : value) : lit (text_of v) = ser v.
Proof. apply list_ascii_of_string_of_list_ascii. Qed.

Lemma text_no_LF (X : list value) :
  forallb serializable X = true ->
  forallb (fun t => negb (contains LF t)) (map text_of X) = true.
Proof.
  induction X as [| v X IH]; [reflexivity |]. cbn [forallb map]. intros H.
  apply andb_prop in H as [Hv H]. rewrite (IH H), andb_true_r.
  unfold text_of. rewrite contains_lit, printable_no_LF; [reflexivity |].
  apply ser_printable. exact Hv.
Qed.

(** The lines of a non-empty list of serializable values start with the
    first character of the first and end with the last character of the
    last. *)
Lemma lines_ends (X : list value) :
  X <> [] -> forallb serializable X = true ->
  lit (join (String LF "") (map text_of X)) <> []
  /\ starter (hd "0"%char (lit (join (String LF "") (map text_of X)))) = true
  /\ closer (last (lit (join (String LF "") (map text_of X))) "0"%char) = true.
Proof.
  induction X as [| v X IH]; intros Hne H; [contradiction |].
  cbn [forallb] in H. apply andb_prop in H as [Hv H].
  destruct (ser_first v Hv) as (c & t & E & Hc).
  pose proof (ser_last v Hv) as Hl.
  destruct X as [| w X'].
  - cbn [map join]. rewrite lit_text, E. rewrite E in Hl.
    split; [discriminate |]. split; [exact Hc | exact Hl].
  - change (join (String LF "") (map text_of (v :: w :: X')))
      with (text_of v +:+ String LF "" +:+ join (String LF "") (map text_of (w :: X'))).
    rewrite !lit_app, lit_text, E.
    destruct (IH ltac:(discriminate) H) as (Hn & _ & Hlast).
    split; [discriminate |]. split; [exact Hc |].
    rewrite app_assoc, last_app_ne by exact Hn. exact Hlast.
Qed.

Lemma trim_lines (X : list value) :
  X <> [] -> forallb serializable X = true ->
  trim (stringify_lines X) = stringify_lines X.
Proof.
  intros Hne H. rewrite lines_text by exact H.
  destruct (lines_ends X Hne H) as (Hn & Hs & Hc).
  rewrite <- (string_of_list_ascii_of_string (join _ _)).
  apply trim_solid; [exact Hn | apply starter_solid, Hs | apply closer_solid, Hc].
Qed.

Lemma members_nonempty (ps : list (string * value)) :
  forallb (fun p => serializable (snd p)) ps = true ->
  ser_members true ps = [] -> ps = [].
Proof.
  destruct ps as [| [k x] r]; [reflexivity |]. cbn [forallb snd]. intros H.
  apply andb_prop in H as [H _]. rewrite ser_members_cons by exact H.
  discriminate.
Qed.

(** Only the array that holds one empty object is written as the text of
    a check. *)
Lemma lines_check (X : list value) :
  X <> [] -> forallb serializable X = true ->
  stringify_lines X = "{}"%string -> X = [VObj []].
Proof.
  intros Hne H E. rewrite lines_text in E by exact H.
  destruct X as [| v [| w X']]; [contradiction | |].
  - cbn [map join] in E. apply (f_equal lit) in E. rewrite lit_text in E.
    cbn [forallb] in H. apply andb_prop in H as [H _].
    destruct v as [| | [] | n | s | vs | ps]; try discriminate.
    + cbn [serializable ser] in *.
      destruct (number_first n H) as (c & t & En & Hc). rewrite En in E.
      injection E as -> _. discriminate Hc.
    + rewrite ser_obj in E. rewrite serializable_obj in H.
      apply andb_prop in H as [_ H].
      injection E as E. destruct (ser_members true ps) as [| c t] eqn:Em.
      * rewrite (members_nonempty ps H Em). reflexivity.
      * exfalso. destruct ps as [| [k x] r]; [discriminate Em |].
        cbn [forallb snd] in H. apply andb_prop in H as [H _].
        rewrite ser_members_cons in Em by exact H. unfold quote in Em.
        injection Em as <- _. discriminate E.
  - exfalso.
    pose proof (text_no_LF _ H) as HL.
    change (String "{" (String "}" "")) with
      (join (String LF "") ["{}"%string]) in E.
    apply (f_equal (split LF)) in E.
    rewrite split_join in E by (try discriminate; exact HL).
    rewrite split_join in E by (try discriminate; reflexivity).
    discriminate E.
Qed.

(** C6 (amended): under the newline format, for every non-empty array X of
    JSON-serializable values other than the array that holds one empty
    object, the payload X.map(JSON.stringify).join(LF) is parsed to X, one
    record per line and in order, and one data notification carrying X is
    emitted. *)
Theorem newline_round_trip (this : Server) (request : Request)
        (X : list value) (st : State) :
  String.eqb (Server.format this) "json_meta"
  || String.eqb (Server.format this) "json_array" = false ->
  X <> [] -> forallb serializable X = true -> X <> [VObj []] ->
  let st' := exec (Server.handleRequestData this request (stringify_lines X)) st in
  Server.parse_try this (stringify_lines X) = Some (VArr X)
  /\ emitted st' =
       emitted st ++
         [Data (VArr X) (meta_of request) (truthy_bool (Server.confirmData this))]
  /\ parsed st' = parsed st ++ [stringify_lines X].
Proof.
  intros Hf Hne Hs Hx.
  assert (Hp : Server.parse_try this (stringify_lines X) = Some (VArr X)).
  { unfold Server.parse_try. rewrite Hf, trim_lines by assumption.
    rewrite lines_text by exact Hs.
    rewrite split_join;
      [| destruct X; [contradiction | discriminate]
       | apply text_no_LF; exact Hs].
    rewrite map_parse_text by exact Hs. reflexivity. }
  cbn zeta. rewrite handleRequestData_eq, Hp.
  destruct (String.eqb_spec (stringify_lines X) "{}") as [E | _].
  { exfalso. apply Hx. apply lines_check; assumption. }
  split; [reflexivity |]. cbn [truthy].
  unfold Server.emitData, Server.done, Server.clearTimeout. monad.
  destruct (truthy_bool (Server.confirmData this)); split; reflexivity.
Qed.

(** C6 (as stated, refuted): the array that holds one empty object is
    serializable, its lines are the text of a check, and although the
    parser would read the array back, the request is answered as a check:
    no data notification is emitted and [parse] is not called. *)
Lemma empty_object_line_is_a_check :
  forallb serializable [VObj []] = true
  /\ stringify_lines [VObj []] = "{}"%string
  /\ Server.parse_try (Server.initialize (Some (with_format "json_new_line")))
       (stringify_lines [VObj []]) = Some (VArr [VObj []])
  /\ emitted (exec (Server.handleRequestData
                      (Server.initialize (Some (with_format "json_new_line")))
                      plain (stringify_lines [VObj []])) initial) = [Check]
  /\ parsed (exec (Server.handleRequestData
                     (Server.initialize (Some (with_format "json_new_line")))
                     plain (stringify_lines [VObj []])) initial) = [].
Proof. repeat (split; [vm_compute; reflexivity |]). vm_compute; reflexivity. Qed.

(** Witness of C6: the three interactions of the test suite. *)
Lemma newline_round_trip_witness :
  stringify_lines mock_interactions
  = String.concat (String LF "")
      [json "{'interaction':'foo','twitter':'bar'}";
       json "{'interaction':'lorem','twitter':'ipsum'}";
       json "{'interaction':'dolor','other':'amet'}"]
  /\ emitted (exec (Server.handleRequestData
                      (Server.initialize (Some (with_format "json_new_line")))
                      plain (stringify_lines mock_interactions)) initial)
     = [Data (VArr mock_interactions) (meta_of plain) false].
Proof.
  split; [vm_compute; reflexivity |].
  destruct (newline_round_trip
              (Server.initialize (Some (with_format "json_new_line"))) plain
              mock_interactions initial eq_refl
              ltac:(discriminate) eq_refl ltac:(discriminate)) as (_ & E & _).
  exact E.
Defined.

(** ** Authentication *)

Lemma split_nonempty sep s : split sep s <> [].
Proof.
  destruct s as [| c r]; cbn; [discriminate |].
  destruct (Ascii.eqb c sep); [discriminate |].
  destruct (split sep r); discriminate.
Qed.

Lemma join_split sep s : join (String sep "") (split sep s) = s.
Proof.
  induction s as [| c r IH]; [reflexivity |].
  cbn [split]. pose proof (split_nonempty sep r) as Hn.
  destruct (split sep r) as [| h t] eqn:E; [contradiction |].
  destruct (Ascii.eqb_spec c sep) as [-> | Hne].
  - change (String sep (join (String sep "") (h :: t)) = String sep r).
    f_equal. exact IH.
  - replace (join (String sep "") (String c h :: t))
      with (String c (join (String sep "") (h :: t)))
      by (destruct t; reflexivity).
    f_equal. exact IH.
Qed.

Lemma names_split (user pass text : string) :
  contains ":" user = false -> contains ":" pass = false ->
  names user pass text <->
  split ":" text !! 0%nat = Some user /\ split ":" text !! 1%nat = Some pass.
Proof.
  intros Hu Hp. split.
  - intros [-> | [more ->]].
    + rewrite split_first, split_single by assumption. auto.
    + rewrite split_first, split_first by assumption. auto.
  - intros [H0 H1]. pose proof (join_split ":" text) as J.
    destruct (split ":" text) as [| a [| b t]]; try discriminate.
    cbn in H0, H1. injection H0 as ->. injection H1 as ->.
    destruct t as [| c t].
    + left. rewrite <- J. reflexivity.
    + right. exists (join ":" (c :: t)). rewrite <- J. reflexivity.
Qed.

(** C5 (amended): when a non-empty username and a non-empty password
    without colons are configured, a request is authenticated exactly when
    the text after the last space of its Authorization header decodes from
    base64 to [user:pass], or to [user:pass] followed by a colon and
    anything; otherwise it is answered with 401 and a refusal.  The scheme
    name is not looked at.  When the username or the password is missing or
    empty, every request is authenticated.  (In a state where the response
    object is finished already, what was sent stands.) *)
Theorem authentication (this : Server) (request : Request) (st : State) :
  (forall user pass,
      get (opt_username (Server.options this)) = Some user ->
      get (opt_password (Server.options this)) = Some pass ->
      user <> ""%string -> pass <> ""%string ->
      contains ":" user = false -> contains ":" pass = false ->
      (names user pass (credentials_text request) ->
       Server.validateAuthentication this request st = (true, st))
      /\ (~ names user pass (credentials_text request) ->
          Server.validateAuthentication this request st =
          (false,
           set_emitted
             (emitted st ++
                [Refused "Request did not contain required authentication headers"])
             (set_responses (write_once (responses st) (response_of 401)) st))))
  /\ (truthy_str (get (opt_username (Server.options this)))
      && truthy_str (get (opt_password (Server.options this))) = false ->
      Server.validateAuthentication this request st = (true, st)).
Proof.
  split.
  - intros user pass Eu Ep Hu Hp Cu Cp.
    unfold Server.validateAuthentication. rewrite Eu, Ep.
    assert (Tu : truthy_str (Some user) = true).
    { cbn. destruct (String.eqb_spec user ""); [contradiction | reflexivity]. }
    assert (Tp : truthy_str (Some pass) = true).
    { cbn. destruct (String.eqb_spec pass ""); [contradiction | reflexivity]. }
    rewrite Tu, Tp. cbn [andb negb].
    fold (credentials_text request).
    rewrite (names_split user pass _ Cu Cp).
    split.
    + intros [H0 H1]. rewrite H0, H1.
      rewrite !bool_decide_eq_true_2 by reflexivity. reflexivity.
    + intros Hn.
      destruct (bool_decide_reflect (split ":" (credentials_text request) !! 0%nat = Some user)) as [H0 | H0];
      destruct (bool_decide_reflect (split ":" (credentials_text request) !! 1%nat = Some pass)) as [H1 | H1];
        try (exfalso; apply Hn; split; assumption);
        cbn [andb]; monad; rewrite respond_code by discriminate; reflexivity.
  - intros H. unfold Server.validateAuthentication. rewrite H. reflexivity.
Qed.

(** C5 (as stated, refuted): a header of another scheme than Basic is
    authenticated, and so is a Basic header whose decoded value is longer
    than [user:pass]. *)
Lemma other_scheme_is_authenticated :
  Server.validateAuthentication
    (Server.initialize (Some (with_credentials "lorem" "ipsum")))
    (authorized "Bearer bG9yZW06aXBzdW0=") initial = (true, initial)
  /\ credentials_text (authorized "Basic bG9yZW06aXBzdW06eA==")
     = "lorem:ipsum:x"%string
  /\ Server.validateAuthentication
    (Server.initialize (Some (with_credentials "lorem" "ipsum")))
    (authorized "Basic bG9yZW06aXBzdW06eA==") initial = (true, initial).
Proof. repeat (split; [vm_compute; reflexivity |]). vm_compute; reflexivity. Qed.

(** Witness of C5: the right credentials, wrong ones, and no credentials
    configured. *)
Lemma authentication_witness :
  Server.validateAuthentication
    (Server.initialize (Some (with_credentials "lorem" "ipsum")))
    (authorized "Basic bG9yZW06aXBzdW0=") initial = (true, initial)
  /\ fst (Server.validateAuthentication
            (Server.initialize (Some (with_credentials "lorem" "ipsum")))
            (authorized "Basic bG9yZW06aXBzdQ==") initial) = false
  /\ Server.validateAuthentication (Server.initialize None) plain initial
     = (true, initial).
Proof.
  split; [| split].
  - destruct (authentication
                (Server.initialize (Some (with_credentials "lorem" "ipsum")))
                (authorized "Basic bG9yZW06aXBzdW0=") initial) as [H _].
    destruct (H "lorem"%string "ipsum"%string eq_refl eq_refl
                ltac:(discriminate) ltac:(discriminate) eq_refl eq_refl)
      as [Hyes _].
    apply Hyes. left. vm_compute. reflexivity.
  - destruct (authentication
                (Server.initialize (Some (with_credentials "lorem" "ipsum")))
                (authorized "Basic bG9yZW06aXBzdQ==") initial) as [H _].
    destruct (H "lorem"%string "ipsum"%string eq_refl eq_refl
                ltac:(discriminate) ltac:(discriminate) eq_refl eq_refl)
      as [_ Hno].
    rewrite Hno; [reflexivity |].
    intros [E | [more E]]; vm_compute in E; discriminate E.
  - destruct (authentication (Server.initialize None) plain initial) as [_ H].
    apply H. reflexivity.
Defined.

(** * Further properties *)

(** ** What every request keeps *)

Lemma canonical_response_of (code : Z) :
  In code status_codes -> canonical_response (response_of code).
Proof. intros H. split; [exact H | reflexivity]. Qed.

Lemma outcomes_app (st : State) (l : list Notification) :
  List.length (filter outcome (emitted st ++ l))
  = (outcomes st + List.length (filter outcome l))%nat.
Proof. unfold outcomes. rewrite filter_app, length_app. reflexivity. Qed.

Lemma handleRequest_sound this request :
  sound this (exec (Server.handleRequest this request) initial).
Proof.
  unfold Server.handleRequest, Server.validateAuthentication, Server.validatePath.
  unfold Server.respond. monad.
  destruct (negb _); [| destruct (_ && _)];
    try (destruct (starts_with _ _)); cbn; unfold sound, quiet, outcomes; cbn;
    repeat split; auto; try discriminate;
    try (repeat constructor; cbn; auto 10; discriminate).
Qed.

Lemma Forall_write_once {P : Response -> Prop} (sent : list Response)
      (r : Response) :
  Forall P sent -> P r -> Forall P (write_once sent r).
Proof.
  destruct sent as [| x sent]; cbn [write_once]; intros Hs Hr;
    [apply Forall_cons; [exact Hr | apply Forall_nil] | exact Hs].
Qed.

Ltac resp :=
  cbn [write_once];
  try assumption;
  try (apply Forall_write_once; [assumption |]);
  try (apply Forall_cons; [| apply Forall_nil]);
  first [apply canonical_response_of; cbn; auto 10 | cbn; discriminate].

Ltac settle :=
  repeat split; auto; try discriminate; try congruence;
  try (intros; congruence); try (cbn; lia); try solve [resp];
  try match goal with
      | H : ?P, Hu : ?P -> _ |- _ =>
          destruct (Hu H) as (? & ? & ? & ?); solve [auto | congruence | lia]
      end.

Lemma handleRequestData_sound this request rawData st :
  responses st = [] -> outcomes st = 0%nat -> quiet st -> phase st = Finished ->
  sound this (exec (Server.handleRequestData this request rawData) st).
Proof.
  intros Hr Ho [Ht Hh] Hp. rewrite handleRequestData_eq.
  unfold outcomes in Ho.
  destruct st as [ph buf sz d rs em tm held ps]; cbn in *; subst.
  destruct (String.eqb rawData "{}").
  { unfold sound, outcomes; cbn. rewrite filter_app, length_app, Ho. cbn. settle. }
  cbn zeta. destruct (Server.parse_try this rawData) as [v|] eqn:E.
  2:{ unfold sound, outcomes; cbn. rewrite filter_app, length_app, Ho. cbn. settle. }
  destruct (truthy v) eqn:T.
  - unfold Server.emitData, Server.done, Server.clearTimeout. monad.
    destruct (truthy_bool _) eqn:C; unfold sound, outcomes; cbn;
      rewrite filter_app, length_app, Ho; cbn; settle.
  - unfold sound, outcomes; cbn. rewrite Ho. settle.
Qed.

Lemma step_sound this request i st st' :
  sound this st -> step this request i st = Some st' -> sound this st'.
Proof.
  unfold step. destruct (enabled i st) eqn:En; [| discriminate].
  intros (Hc & Ho & Hp & Hu) [= <-]. destruct i; cbn [handler].
  - (* Chunk *)
    cbn in En. destruct (phase st) eqn:Ep; try discriminate.
    destruct Hp as ([Ht Hh] & Hp).
    unfold Server.onData, Server.validateSize. monad.
    destruct (destroyed st) eqn:Hd.
    + cbn. unfold sound, quiet, outcomes in *. rewrite Ep, Hd. settle.
    + destruct Hp as [Hr Ho0]. cbn.
      destruct (_ <=? _); monad; rewrite ?respond_code by discriminate;
        unfold sound, quiet, outcomes in *; fields; rewrite ?Ep, ?Hd, ?Hr; fields.
      * settle.
      * rewrite filter_app, length_app, Ho0. cbn. settle.
  - (* End *)
    cbn in En. destruct (phase st) eqn:Ep; try discriminate.
    destruct Hp as ([Ht Hh] & Hp).
    unfold Server.onEnd. monad.
    destruct (destroyed st) eqn:Hd.
    { cbn. unfold sound, quiet. rewrite Ep, Hd. settle. }
    destruct Hp as [Hr Ho0]. cbn.
    destruct (bool_decide _).
    + cbn. unfold sound, quiet, outcomes in *. fields. rewrite Hr. settle.
    + apply handleRequestData_sound; cbn; auto. split; auto.
  - (* RequestError *)
    cbn in En. destruct (phase st) eqn:Ep; try discriminate.
    unfold Server.handleError. monad. cbn.
    unfold sound, quiet, outcomes in *. fields. rewrite Ep.
    rewrite filter_app, length_app. cbn. rewrite !Nat.add_0_r. tauto.
  - (* Inflated *)
    cbn in En. destruct (phase st) eqn:Ep; try discriminate.
    destruct Hp as ([Ht Hh] & Hr & Ho0).
    unfold Server.onInflate. monad. destruct r as [data|].
    + apply handleRequestData_sound; cbn; auto. split; auto.
    + monad. rewrite respond_code by discriminate. monad.
      unfold sound, quiet, outcomes in *. fields. rewrite Hr.
      rewrite filter_app, length_app, Ho0. cbn. settle.
  - (* TimerFired *)
    cbn in En. destruct (doneTimeout st) eqn:Ht; try discriminate.
    destruct (phase st) eqn:Ep.
    1-3: unfold quiet in Hp; intuition congruence.
    unfold Server.onTimeout, Server.done, Server.clearTimeout. monad. monad.
    fields. rewrite respond_code by discriminate.
    unfold sound, outcomes in *. fields. rewrite Ep.
    rewrite filter_app, length_app. cbn. rewrite Nat.add_0_r.
    split; [resp |]. split; [exact Ho |]. split; [exact I |].
    intros C. destruct (Hu C) as (_ & A & _). congruence.
  - (* DoneCalled *)
    cbn in En. destruct (phase st) eqn:Ep.
    1-3: unfold quiet in Hp; intuition congruence.
    unfold Server.done, Server.clearTimeout. monad.
    rewrite respond_code by (destruct success as [| | [] | | | |]; discriminate).
    unfold sound, outcomes in *. fields.
    assert (Hcode : In (match success with VBool false => 500 | _ => 200 end) status_codes)
      by (destruct success as [| | [] | | | |]; cbn; auto 10).
    destruct (doneTimeout st) eqn:Ht; fields; rewrite Ep;
      (split; [apply Forall_write_once;
                 [assumption | apply canonical_response_of, Hcode] |]);
      (split; [exact Ho |]); (split; [exact I |]);
      intros C; destruct (Hu C) as (A & _); congruence.
Qed.

Lemma run_sound this request l : forall st st',
  sound this st -> run this request l st = Some st' -> sound this st'.
Proof.
  induction l as [| i l IH]; intros st st' Hs Hrun; cbn in Hrun.
  - injection Hrun as <-. exact Hs.
  - destruct (step this request i st) as [st1 |] eqn:E; [| discriminate].
    exact (IH _ _ (step_sound _ _ _ _ _ Hs E) Hrun).
Qed.

Lemma serve_sound this request l st :
  serve this request l = Some st -> sound this st.
Proof. apply run_sound, handleRequest_sound. Qed.

Lemma filter_none {A} (f : A -> bool) (l : list A) :
  List.length (filter f l) = 0%nat -> Forall (fun x => f x = false) l.
Proof.
  induction l as [| x l IH]; [constructor |]. cbn [filter].
  destruct (f x) eqn:E; [discriminate |]. intros H. constructor; auto.
Qed.

(** X3: whatever happens to a request, at most one notification among
    refused, check and data is emitted for it; all the others are errors.
    No request is both refused and delivered, or both a check and a
    delivery, and none is delivered twice. *)
Theorem one_outcome_per_request (this : Server) (request : Request)
        (l : list Input) (st : State) :
  serve this request l = Some st ->
  (outcomes st <= 1)%nat
  /\ (forall pre n post,
         emitted st = pre ++ n :: post -> outcome n = true ->
         Forall (fun m => outcome m = false) (pre ++ post)).
Proof.
  intros H. destruct (serve_sound _ _ _ _ H) as (_ & Ho & _).
  split; [exact Ho |].
  intros pre n post E On. unfold outcomes in Ho. rewrite E in Ho.
  apply filter_none.
  rewrite filter_app, length_app in *. cbn [filter] in Ho. rewrite On in Ho.
  cbn [List.length] in Ho. lia.
Qed.

Lemma one_outcome_per_request_witness :
  exists st,
    serve (Server.initialize (Some (with_confirmData true))) plain
      [Chunk (bytes (json "{'interactions':[1]}")); RequestError "reset"; End;
       TimerFired; DoneCalled (VBool true)] = Some st
    /\ (outcomes st <= 1)%nat
    /\ map outcome (emitted st) = [false; true; false].
Proof.
  eexists. split; [vm_compute; reflexivity |].
  split; [| vm_compute; reflexivity].
  apply (one_outcome_per_request
           (Server.initialize (Some (with_confirmData true))) plain
           [Chunk (bytes (json "{'interactions':[1]}")); RequestError "reset"; End;
            TimerFired; DoneCalled (VBool true)]).
  vm_compute; reflexivity.
Defined.

(** X4: every response the server writes, on every path, is the one
    [respond] makes of a status code among 200, 400, 401, 404, 413 and 500
    alone: text/plain, the success object as the body of a 200 and the
    status phrase as the body of the others.  The reason of a refusal is
    only ever emitted, never sent to the client. *)
Theorem responses_are_canonical (this : Server) (request : Request)
        (l : list Input) (st : State) :
  serve this request l = Some st ->
  Forall (fun r => In (statusCode r) status_codes
                   /\ r = response_of (statusCode r)) (responses st).
Proof. intros H. exact (proj1 (serve_sound _ _ _ _ H)). Qed.

Lemma responses_are_canonical_witness :
  exists st,
    serve (Server.initialize (Some (with_maxSize 3))) plain
      [Chunk (bytes "abcd"); End] = Some st
    /\ Forall (fun r => In (statusCode r) status_codes
                        /\ r = response_of (statusCode r)) (responses st)
    /\ map body (responses st) = [Some "Request Entity Too Large"%string].
Proof.
  eexists. split; [vm_compute; reflexivity |].
  split; [| vm_compute; reflexivity].
  apply (responses_are_canonical
           (Server.initialize (Some (with_maxSize 3))) plain
           [Chunk (bytes "abcd"); End]).
  vm_compute; reflexivity.
Defined.

Lemma run_unconfirmed this request l : forall st st',
  truthy_bool (Server.confirmData this) = false ->
  sound this st -> run this request l st = Some st' -> completions l = 0%nat.
Proof.
  induction l as [| i l IH]; intros st st' C Hs Hrun; [reflexivity |].
  cbn [run] in Hrun.
  destruct (step this request i st) as [st1 |] eqn:E; [| discriminate].
  pose proof (step_sound _ _ _ _ _ Hs E) as H1.
  unfold completions. cbn [filter].
  destruct (completion i) eqn:Ci; [| exact (IH _ _ C H1 Hrun)].
  exfalso. destruct Hs as (_ & _ & _ & Hu). destruct (Hu C) as (Hh & Ht & _).
  unfold step in E. destruct (enabled i st) eqn:En; [| discriminate].
  destruct i; try discriminate Ci; cbn in En.
  - destruct (doneTimeout st); congruence.
  - congruence.
Qed.

(** X5: when confirmData is not set, the request is never left waiting for
    the application: the [done] callback is handed to nobody and the timer
    is never pending between two events, so no timeout error is ever
    emitted, no 500 is ever written, and at most one response is written. *)
Theorem unconfirmed_never_times_out (this : Server) (request : Request)
        (l : list Input) (st : State) :
  truthy_bool (Server.confirmData this) = false ->
  serve this request l = Some st ->
  completions l = 0%nat
  /\ enabled TimerFired st = false
  /\ (forall success, enabled (DoneCalled success) st = false)
  /\ Forall (fun r => statusCode r <> 500) (responses st)
  /\ (List.length (responses st) <= 1)%nat.
Proof.
  intros C H. pose proof (serve_sound _ _ _ _ H) as Hs.
  split; [exact (run_unconfirmed _ _ _ _ _ C (handleRequest_sound _ _) H) |].
  destruct Hs as (_ & _ & _ & Hu). destruct (Hu C) as (Hh & Ht & H5 & Hl).
  cbn [enabled]. repeat split; auto.
  destruct (doneTimeout st); congruence.
Qed.

Lemma unconfirmed_never_times_out_witness :
  exists st,
    serve (Server.initialize None) plain
      [Chunk (bytes (json "{'interactions':[1]}")); End] = Some st
    /\ enabled TimerFired st = false
    /\ map statusCode (responses st) = [200].
Proof.
  eexists. split; [vm_compute; reflexivity |].
  destruct (unconfirmed_never_times_out (Server.initialize None) plain
              [Chunk (bytes (json "{'interactions':[1]}")); End] _
              eq_refl ltac:(vm_compute; reflexivity)) as (_ & T & _).
  split; [exact T | vm_compute; reflexivity].
Defined.

Lemma newline_never_swallows (this : Server) (rawData : string) :
  String.eqb (Server.format this) "json_meta"
  || String.eqb (Server.format this) "json_array" = false ->
  swallowed this rawData = false.
Proof.
  intros Hf. unfold swallowed, Server.parse_try. rewrite Hf.
  destruct (Server.map_parse _); reflexivity.
Qed.

(** X6: under the newline format [parse] never returns a falsy value, so
    no request is left unanswered: once a request has settled (its body
    ended or was cut off, zlib called back and no timer is pending),
    exactly one response has been sent, whatever events it went through. *)
Theorem newline_request_is_answered (this : Server) (request : Request)
        (l : list Input) (st : State) :
  String.eqb (Server.format this) "json_meta"
  || String.eqb (Server.format this) "json_array" = false ->
  serve this request l = Some st ->
  settled st = true ->
  List.length (responses st) = 1%nat.
Proof.
  intros Hf Hrun Hset.
  pose proof (run_stage _ _ _ _ _ _ (handleRequest_stage this request) Hrun) as Hs.
  cbn in Hs. unfold stage in Hs. unfold settled in Hset.
  apply andb_prop in Hset as [Hph Htm].
  destruct (phase st); try discriminate.
  - destruct Hs as (-> & _ & _). reflexivity.
  - rewrite Hph in Hs. destruct Hs as (-> & _ & _). reflexivity.
  - destruct (doneHeld st).
    + destruct Hs as (-> & Hn).
      destruct (completions l); [| reflexivity].
      destruct Hn as [_ Hn]. rewrite Hn in Htm by reflexivity. discriminate.
    + destruct Hs as (_ & _ & [-> | [_ Hex]]); [reflexivity |].
      apply Exists_exists in Hex as (x & _ & Hx).
      rewrite (newline_never_swallows this x Hf) in Hx. discriminate.
Qed.

Lemma newline_request_is_answered_witness :
  exists st,
    serve (Server.initialize
             (Some (Build_Options Absent Absent Absent
                      (Own (Some "json_new_line"%string))
                      (Own (Some true)) Absent Absent Absent))) plain
      [Chunk (bytes "1"); End; TimerFired; DoneCalled (VBool true)] = Some st
    /\ List.length (responses st) = 1%nat
    /\ map statusCode (responses st) = [500].
Proof.
  eexists. split; [vm_compute; reflexivity |].
  split; [| vm_compute; reflexivity].
  apply (newline_request_is_answered
           (Server.initialize
              (Some (Build_Options Absent Absent Absent
                       (Own (Some "json_new_line"%string))
                       (Own (Some true)) Absent Absent Absent))) plain
           [Chunk (bytes "1"); End; TimerFired; DoneCalled (VBool true)]);
    vm_compute; reflexivity.
Defined.

(** ** The body and its chunks *)

Lemma handleRequestData_reframe this request rawData b z st :
  exec (Server.handleRequestData this request rawData) (reframe b z st)
  = reframe b z (exec (Server.handleRequestData this request rawData) st).
Proof.
  rewrite !handleRequestData_eq.
  destruct (String.eqb rawData "{}"); [reflexivity |]. cbn zeta.
  destruct (Server.parse_try this rawData) as [v |]; [| reflexivity].
  destruct (truthy v); [| reflexivity].
  unfold Server.emitData, Server.done, Server.clearTimeout. monad.
  destruct (truthy_bool _); reflexivity.
Qed.

Lemma step_reframe this request request' i b z st s1 :
  phase st = Finished
  \/ (request' = request /\ exists d, phase st = Inflating d) ->
  step this request i st = Some s1 ->
  step this request' i (reframe b z st) = Some (reframe b z s1)
  /\ (phase s1 = Finished
      \/ (request' = request /\ exists d, phase s1 = Inflating d)).
Proof.
  unfold step. intros Hp.
  change (enabled i (reframe b z st)) with (enabled i st).
  destruct (enabled i st) eqn:En; [| discriminate]. intros [= <-].
  destruct i; cbn in En.
  1-3: destruct Hp as [Hp | (_ & d & Hp)]; rewrite Hp in En; discriminate.
  - destruct Hp as [Hp | (-> & d & Hp)]; [rewrite Hp in En; discriminate |].
    cbn [handler]. unfold Server.onInflate. monad.
    destruct r as [data |].
    + change (set_phase Finished (reframe b z st))
        with (reframe b z (set_phase Finished st)).
      change ((Server.handleRequestData this request (toString data)
                 (reframe b z (set_phase Finished st))).2)
        with (exec (Server.handleRequestData this request (toString data))
                (reframe b z (set_phase Finished st))).
      rewrite handleRequestData_reframe. split; [reflexivity |]. left.
      change ((Server.handleRequestData this request (toString data)
                 (set_phase Finished st)).2)
        with (exec (Server.handleRequestData this request (toString data))
                (set_phase Finished st)).
      rewrite handleRequestData_eq.
      destruct (String.eqb _ _); [reflexivity |]. cbn zeta.
      destruct (Server.parse_try _ _) as [v |]; [| reflexivity].
      destruct (truthy v); [| reflexivity].
      unfold Server.emitData, Server.done, Server.clearTimeout. monad.
      destruct (truthy_bool _); reflexivity.
    + split; [reflexivity | left; reflexivity].
  - cbn [handler]. unfold Server.onTimeout, Server.done, Server.clearTimeout.
    monad. split; [reflexivity | exact Hp].
  - cbn [handler]. unfold Server.done, Server.clearTimeout. monad.
    change (doneTimeout (reframe b z st)) with (doneTimeout st).
    destruct (doneTimeout st); (split; [reflexivity | exact Hp]).
Qed.

Lemma run_reframe this request request' l b z : forall st s1,
  phase st = Finished
  \/ (request' = request /\ exists d, phase st = Inflating d) ->
  run this request l st = Some s1 ->
  run this request' l (reframe b z st) = Some (reframe b z s1).
Proof.
  induction l as [| i l IH]; intros st s1 Hp Hrun; cbn [run] in *.
  - injection Hrun as <-. reflexivity.
  - destruct (step this request i st) as [st1 |] eqn:E; [| discriminate].
    destruct (step_reframe this request request' i b z st st1 Hp E) as [E' Hp'].
    rewrite E'. exact (IH _ _ Hp' Hrun).
Qed.

(** An accepted request at the end of its body: the chunks, all within the
    limit, are concatenated and handed over, to zlib when the request
    announces gzip and to [handleRequestData] otherwise. *)
Lemma serve_body this request (cs : list (list byte)) (l : list Input) :
  accepted this request ->
  (cs <> [] -> total cs <= Server.maxSize this) ->
  serve this request (map Chunk cs ++ End :: l)
  = run this request l
      (if bool_decide (headers request !! "content-encoding"%string
                       = Some "gzip"%string)
       then set_phase (Inflating (List.concat cs)) (received cs)
       else exec (Server.handleRequestData this request
                    (toString (List.concat cs)))
              (set_phase Finished (received cs))).
Proof.
  intros Hacc Hcs. unfold serve. rewrite Hacc.
  change (set_phase Receiving initial) with (received []).
  rewrite run_app, (chunks_within this request cs [] Hcs). cbn [app run].
  unfold step. cbn [enabled received phase set_buffer set_size set_phase initial handler].
  unfold Server.onEnd. monad. fields.
  destruct (bool_decide _); reflexivity.
Qed.

Lemma handleRequestData_phase this request rawData st :
  phase (exec (Server.handleRequestData this request rawData) st) = phase st.
Proof.
  rewrite handleRequestData_eq.
  destruct (String.eqb _ _); [reflexivity |]. cbn zeta.
  destruct (Server.parse_try _ _) as [v |]; [| reflexivity].
  destruct (truthy v); [| reflexivity].
  unfold Server.emitData, Server.done, Server.clearTimeout. monad.
  destruct (truthy_bool _); reflexivity.
Qed.

(** X7: how the body is cut into chunks does not matter.  Two accepted
    deliveries of the same bytes within the limit, followed by the same
    events, end in the same state but for the list of buffered chunks:
    the same responses, the same notifications, the same payload parsed. *)
Theorem chunking_is_irrelevant (this : Server) (request : Request)
        (cs cs' : list (list byte)) (l : list Input) (st : State) :
  accepted this request ->
  List.concat cs = List.concat cs' ->
  total cs <= Server.maxSize this ->
  serve this request (map Chunk cs ++ End :: l) = Some st ->
  serve this request (map Chunk cs' ++ End :: l) = Some (set_buffer cs' st).
Proof.
  intros Hacc Hcat Hmax.
  assert (Ht : total cs' = total cs) by (unfold total; rewrite Hcat; reflexivity).
  rewrite !serve_body by (try exact Hacc; intros _; lia).
  rewrite <- Hcat.
  assert (Hr : received cs' = reframe cs' None (received cs)).
  { unfold received. rewrite Ht. reflexivity. }
  rewrite Hr. intros Hrun.
  change (set_buffer cs' st) with (reframe cs' None st).
  destruct (bool_decide _).
  - change (set_phase (Inflating (List.concat cs)) (reframe cs' None (received cs)))
      with (reframe cs' None (set_phase (Inflating (List.concat cs)) (received cs))).
    apply (run_reframe this request request l cs' None _ st); [| exact Hrun].
    right. split; [reflexivity |]. eexists. reflexivity.
  - change (set_phase Finished (reframe cs' None (received cs)))
      with (reframe cs' None (set_phase Finished (received cs))).
    rewrite handleRequestData_reframe.
    apply (run_reframe this request request l cs' None _ st); [| exact Hrun].
    left. apply handleRequestData_phase.
Qed.

Lemma chunking_is_irrelevant_witness :
  exists st,
    serve (Server.initialize None) plain
      [Chunk (bytes (json "{'interactions':[1]}")); End] = Some st
    /\ serve (Server.initialize None) plain
         [Chunk (bytes (json "{'inter")); Chunk []; Chunk (bytes (json "actions':[1]}"));
          End]
       = Some (set_buffer [bytes (json "{'inter"); []; bytes (json "actions':[1]}")] st).
Proof.
  eexists. split; [vm_compute; reflexivity |].
  apply (chunking_is_irrelevant (Server.initialize None) plain
           [bytes (json "{'interactions':[1]}")]
           [bytes (json "{'inter"); []; bytes (json "actions':[1]}")] []).
  - reflexivity.
  - vm_compute; reflexivity.
  - vm_compute; discriminate.
  - vm_compute; reflexivity.
Defined.

Lemma unencoded_accepted this request :
  accepted this request -> accepted this (unencoded request).
Proof.
  unfold accepted, Server.handleRequest, Server.validateAuthentication,
    Server.validatePath, unencoded. cbn [headers url].
  rewrite lookup_delete_ne by discriminate. auto.
Qed.

Lemma unencoded_meta request : meta_of (unencoded request) = meta_of request.
Proof.
  unfold meta_of, unencoded. cbn [headers url].
  rewrite !lookup_delete_ne by discriminate. reflexivity.
Qed.

Lemma handleRequestData_unencoded this request rawData st :
  exec (Server.handleRequestData this (unencoded request) rawData) st
  = exec (Server.handleRequestData this request rawData) st.
Proof.
  rewrite !handleRequestData_eq.
  destruct (String.eqb _ _); [reflexivity |]. cbn zeta.
  destruct (Server.parse_try _ _) as [v |]; [| reflexivity].
  destruct (truthy v); [| reflexivity].
  unfold Server.emitData.
  change {| meta_url := url (unencoded request);
            meta_url_parsed := url_parse (url (unencoded request));
            meta_hash := headers (unencoded request) !! "x-datasift-hash"%string;
            meta_hash_type := headers (unencoded request) !! "x-datasift-hash-type"%string;
            meta_id := headers (unencoded request) !! "x-datasift-id"%string |}
    with (meta_of (unencoded request)).
  rewrite unencoded_meta. reflexivity.
Qed.

(** X8: compression is transparent.  When zlib inflates the body of an
    accepted request that announces gzip to [data], everything goes on as
    for the same request without the header and with [data] as its body
    (given that [data] is within the limit): the same responses, the same
    notifications, the same payload parsed. *)
Theorem inflated_body_handled_as_plain (this : Server) (request : Request)
        (cs : list (list byte)) (data : list byte) (l : list Input)
        (st : State) :
  accepted this request ->
  headers request !! "content-encoding"%string = Some "gzip"%string ->
  (cs <> [] -> total cs <= Server.maxSize this) ->
  total [data] <= Server.maxSize this ->
  serve this request (map Chunk cs ++ End :: Inflated (Some data) :: l)
  = Some st ->
  serve this (unencoded request) (Chunk data :: End :: l)
  = Some (reframe [data] (Some (total [data])) st).
Proof.
  intros Hacc Hgz Hcs Hdata.
  change (Chunk data :: End :: l) with (map Chunk [data] ++ End :: l).
  rewrite (serve_body this request cs _ Hacc Hcs).
  rewrite (serve_body this (unencoded request) [data] l
             (unencoded_accepted _ _ Hacc)) by (intros _; exact Hdata).
  rewrite Hgz, bool_decide_eq_true_2 by reflexivity.
  assert (Hno : headers (unencoded request) !! "content-encoding"%string = None)
    by apply lookup_delete_eq.
  rewrite Hno, bool_decide_eq_false_2 by discriminate.
  cbn [run]. unfold step. cbn [enabled phase set_phase].
  destruct (zlib_header_ok _); [| discriminate].
  cbn [handler]. unfold Server.onInflate. monad.
  change ((Server.handleRequestData this request (toString data)
             (set_phase Finished (set_phase (Inflating (List.concat cs)) (received cs)))).2)
    with (exec (Server.handleRequestData this request (toString data))
            (set_phase Finished (received cs))).
  cbn [List.concat]. rewrite app_nil_r.
  change ((Server.handleRequestData this (unencoded request) (toString data)
             (set_phase Finished (received [data]))).2)
    with (exec (Server.handleRequestData this (unencoded request) (toString data))
            (set_phase Finished (received [data]))).
  rewrite handleRequestData_unencoded.
  change (set_phase Finished (received [data]))
    with (reframe [data] (Some (total [data])) (set_phase Finished (received cs))).
  rewrite handleRequestData_reframe. intros Hrun.
  apply (run_reframe this request (unencoded request) l _ _ _ st); [| exact Hrun].
  left. apply handleRequestData_phase.
Qed.

Lemma inflated_body_handled_as_plain_witness :
  exists st st',
    serve (Server.initialize None) gzipped
      [Chunk zlib_of_long_record; End; Inflated (Some (bytes long_record))]
    = Some st
    /\ serve (Server.initialize None) (unencoded gzipped)
         [Chunk (bytes long_record); End] = Some st'
    /\ responses st' = responses st /\ emitted st' = emitted st.
Proof.
  eexists. eexists. split; [vm_compute; reflexivity |].
  split.
  - apply (inflated_body_handled_as_plain (Server.initialize None) gzipped
             [zlib_of_long_record] (bytes long_record) []).
    + reflexivity.
    + reflexivity.
    + intros _; vm_compute; discriminate.
    + vm_compute; discriminate.
    + vm_compute; reflexivity.
  - split; reflexivity.
Defined.

(** ** Delivery *)

(** X9: in confirmed mode a delivery waits for the application.  At the
    end of the body of an accepted request with a payload that parses to a
    truthy value, the data is emitted together with the [done] callback
    and nothing is written; the timer and the callback are then both
    possible.  If the timer fires first, one error is emitted and one 500
    is written, and the timer cannot fire again. *)
Theorem confirmed_delivery_waits (this : Server) (request : Request)
        (cs : list (list byte)) (v : value) :
  accepted this request ->
  truthy_bool (Server.confirmData this) = true ->
  headers request !! "content-encoding"%string <> Some "gzip"%string ->
  (cs <> [] -> total cs <= Server.maxSize this) ->
  String.eqb (toString (List.concat cs)) "{}" = false ->
  Server.parse_try this (toString (List.concat cs)) = Some v ->
  truthy v = true ->
  exists st st',
    serve this request (map Chunk cs ++ [End]) = Some st
    /\ responses st = []
    /\ emitted st = [Data v (meta_of request) true]
    /\ enabled TimerFired st = true
    /\ (forall success, enabled (DoneCalled success) st = true)
    /\ serve this request (map Chunk cs ++ [End; TimerFired]) = Some st'
    /\ responses st' = [response_of 500]
    /\ emitted st'
       = [Data v (meta_of request) true;
          Error "Callback for data event not called within allowed time"]
    /\ enabled TimerFired st' = false.
Proof.
  intros Hacc Hc Hgz Hcs Hck Hp Hv.
  rewrite !serve_body by assumption.
  rewrite bool_decide_eq_false_2 by exact Hgz.
  rewrite handleRequestData_eq, Hck. cbn zeta. rewrite Hp, Hv.
  unfold Server.emitData. monad. rewrite Hc. monad.
  do 2 eexists. split; [reflexivity |].
  split; [reflexivity |]. split; [reflexivity |]. split; [reflexivity |].
  split; [reflexivity |].
  split; [reflexivity |]. repeat split; reflexivity.
Qed.

Lemma confirmed_delivery_waits_witness :
  exists st,
    serve (Server.initialize (Some (with_confirmData true))) plain
      [Chunk (bytes (json "{'interactions':[1]}")); End] = Some st
    /\ responses st = []
    /\ enabled TimerFired st = true.
Proof.
  destruct (confirmed_delivery_waits
              (Server.initialize (Some (with_confirmData true))) plain
              [bytes (json "{'interactions':[1]}")]
              (VArr [VNum (number_of_Z 1)])
              eq_refl eq_refl ltac:(discriminate)
              ltac:(intros _; vm_compute; discriminate)
              ltac:(vm_compute; reflexivity) ltac:(vm_compute; reflexivity)
              eq_refl) as (st & _ & E & R & _ & T & _).
  exists st. split; [exact E |]. split; [exact R | exact T].
Defined.

(** X10: when zlib reports an error for the body of an accepted request
    that announces gzip, the request is answered with 400 and refused with
    the reason of the inflation, and its body is never classified or
    parsed. *)
Theorem inflate_error_is_refused (this : Server) (request : Request)
        (cs : list (list byte)) (l : list Input) (st : State) :
  accepted this request ->
  headers request !! "content-encoding"%string = Some "gzip"%string ->
  (cs <> [] -> total cs <= Server.maxSize this) ->
  serve this request (map Chunk cs ++ End :: Inflated None :: l) = Some st ->
  l = []
  /\ responses st = [response_of 400]
  /\ emitted st = [Refused "Could not inflate compressed data"]
  /\ parsed st = [].
Proof.
  intros Hacc Hgz Hcs. rewrite serve_body by assumption.
  rewrite Hgz, bool_decide_eq_true_2 by reflexivity.
  cbn [run]. unfold step. cbn [enabled phase set_phase handler].
  unfold Server.onInflate. monad. rewrite respond_code by discriminate. monad.
  destruct l as [| i l]; cbn [run].
  - intros [= <-]. repeat split; reflexivity.
  - unfold step. destruct i; cbn; discriminate.
Qed.

Lemma inflate_error_is_refused_witness :
  exists st,
    serve (Server.initialize None) gzipped
      [Chunk (bytes "not zlib"); End; Inflated None] = Some st
    /\ map statusCode (responses st) = [400].
Proof.
  eexists. split; [vm_compute; reflexivity |].
  destruct (inflate_error_is_refused (Server.initialize None) gzipped
              [bytes "not zlib"] [] _ eq_refl eq_refl
              ltac:(intros _; vm_compute; discriminate)
              ltac:(vm_compute; reflexivity)) as (_ & R & _).
  rewrite R. reflexivity.
Defined.

(** X11: under json_meta and json_array a payload that is a JSON text
    whose interactions property is missing or falsy (null, false, 0, the
    empty string) is dropped without a trace: no response is written for
    it and nothing is emitted. *)
Theorem falsy_interactions_are_dropped (this : Server) (request : Request)
        (rawData : string) (v w : value) (st : State) :
  String.eqb (Server.format this) "json_meta"
  || String.eqb (Server.format this) "json_array" = true ->
  String.eqb rawData "{}" = false ->
  JSON_parse rawData = Some v ->
  get_prop v "interactions" = Some w ->
  truthy w = false ->
  exec (Server.handleRequestData this request rawData) st
  = set_parsed (parsed st ++ [rawData]) st.
Proof.
  intros Hf Hck Hp Hg Hw. rewrite handleRequestData_eq, Hck. cbn zeta.
  unfold Server.parse_try. rewrite Hf, Hp, Hg, Hw. reflexivity.
Qed.

Lemma falsy_interactions_are_dropped_witness :
  exec (Server.handleRequestData (Server.initialize None) plain
          (json "{'interactions':null}")) initial
  = set_parsed [json "{'interactions':null}"] initial
  /\ exec (Server.handleRequestData (Server.initialize None) plain "[]") initial
     = set_parsed ["[]"%string] initial.
Proof.
  split.
  - change [json "{'interactions':null}"]
      with (parsed initial ++ [json "{'interactions':null}"]).
    apply (falsy_interactions_are_dropped (Server.initialize None) plain _
             (VObj [("interactions"%string, VNull)]) VNull);
      vm_compute; reflexivity.
  - change ["[]"%string] with (parsed initial ++ ["[]"%string]).
    apply (falsy_interactions_are_dropped (Server.initialize None) plain _
             (VArr []) VUndefined); vm_compute; reflexivity.
Defined.

(** ** Payloads and formats *)

Lemma length_lit (s : string) : List.length (lit s) = String.length s.
Proof. induction s as [| c s IH]; cbn; [reflexivity |]. f_equal. exact IH. Qed.

Lemma starter_not_ws (c : ascii) : starter c = true -> is_json_ws c = false.
Proof. each_char c; intros H; try discriminate H; reflexivity. Qed.

Lemma emitData_emitted this request v st :
  emitted (exec (Server.emitData this request v) st)
  = emitted st ++ [Data v (meta_of request) (truthy_bool (Server.confirmData this))]
  /\ parsed (exec (Server.emitData this request v) st) = parsed st.
Proof.
  unfold Server.emitData, Server.done, Server.clearTimeout. monad.
  destruct (truthy_bool (Server.confirmData this)); split; reflexivity.
Qed.

Lemma object_text_not_check (ps : list (string * value)) :
  ps <> [] -> forallb (fun p => serializable (snd p)) ps = true ->
  String.eqb (text_of (VObj ps)) "{}" = false.
Proof.
  intros Hne H. destruct ps as [| [k x] r]; [contradiction |].
  cbn [forallb snd] in H. apply andb_prop in H as [H _].
  unfold text_of. rewrite ser_obj, ser_members_cons by exact H. reflexivity.
Qed.

(** X12: round trip for the formats json_meta and json_array.  For every
    JSON-serializable object whose interactions property is an array X,
    the payload JSON.stringify of the object is parsed to X and one data
    notification carrying X is emitted, also when X is empty. *)
Theorem interactions_round_trip (this : Server) (request : Request)
        (ps : list (string * value)) (X : list value) (st : State) :
  String.eqb (Server.format this) "json_meta"
  || String.eqb (Server.format this) "json_array" = true ->
  serializable (VObj ps) = true ->
  obj_get "interactions" ps = Some (VArr X) ->
  exists payload,
    JSON_stringify (VObj ps) = Some payload
    /\ Server.parse_try this payload = Some (VArr X)
    /\ emitted (exec (Server.handleRequestData this request payload) st)
       = emitted st ++
           [Data (VArr X) (meta_of request)
              (truthy_bool (Server.confirmData this))]
    /\ parsed (exec (Server.handleRequestData this request payload) st)
       = parsed st ++ [payload].
Proof.
  intros Hf Hs Hg. exists (text_of (VObj ps)).
  split; [apply JSON_stringify_text, Hs |].
  assert (Hp : Server.parse_try this (text_of (VObj ps)) = Some (VArr X)).
  { unfold Server.parse_try. rewrite Hf, JSON_parse_text by exact Hs.
    cbn [get_prop]. rewrite Hg. reflexivity. }
  split; [exact Hp |].
  rewrite handleRequestData_eq, Hp.
  rewrite object_text_not_check.
  - cbn zeta. cbn [truthy].
    destruct (emitData_emitted this request (VArr X)
                (set_parsed (parsed st ++ [text_of (VObj ps)]) st)) as [E1 E2].
    rewrite E1, E2. split; reflexivity.
  - destruct ps; [discriminate Hg | discriminate].
  - rewrite serializable_obj in Hs. apply andb_prop in Hs as [_ Hs]. exact Hs.
Qed.

Lemma interactions_round_trip_witness :
  exists payload,
    JSON_stringify
      (VObj [("id"%string, VNum (number_of_Z 123));
             ("interactions"%string, VArr mock_interactions)]) = Some payload
    /\ payload = mock_jsonMeta
    /\ emitted (exec (Server.handleRequestData (Server.initialize None) plain
                        payload) initial)
       = [Data (VArr mock_interactions) (meta_of plain) false].
Proof.
  destruct (interactions_round_trip (Server.initialize None) plain
              [("id"%string, VNum (number_of_Z 123));
               ("interactions"%string, VArr mock_interactions)]
              mock_interactions initial eq_refl eq_refl eq_refl)
    as (payload & E & _ & Em & _).
  exists payload. split; [exact E |].
  split; [| exact Em].
  vm_compute in E. injection E as <-. vm_compute. reflexivity.
Defined.

(** The text of two or more records, one per line, is not one JSON text. *)
Lemma lines_not_one_text (v w : value) (X : list value) :
  forallb serializable (v :: w :: X) = true ->
  JSON_parse (stringify_lines (v :: w :: X)) = None.
Proof.
  intros H. rewrite lines_text by exact H.
  cbn [forallb] in H. apply andb_prop in H as [Hv H].
  unfold JSON_parse.
  change (join (String LF "") (map text_of (v :: w :: X)))
    with (text_of v +:+ String LF "" +:+ join (String LF "") (map text_of (w :: X))).
  set (rest := join (String LF "") (map text_of (w :: X))).
  rewrite !lit_app, lit_text. cbn [lit list_ascii_of_string app].
  change (list_ascii_of_string rest) with (lit rest).
  rewrite (parse_ser v Hv); [| | reflexivity].
  - destruct (lines_ends (w :: X) ltac:(discriminate) H) as (Hn & Hs & _).
    fold rest in Hn, Hs.
    destruct (lit rest) as [| c t]; [contradiction |]. cbn [hd] in Hs.
    cbn [app skip_ws]. change (is_json_ws LF) with true. cbn iota.
    rewrite (starter_not_ws c Hs). reflexivity.
  - pose proof (height_le v Hv) as Hh.
    rewrite <- length_lit, !lit_app, lit_text, !length_app. lia.
Qed.

(** X13: a payload in the newline format with two or more records is
    refused by a server configured for json_meta or json_array: 400, one
    refusal, no data. *)
Theorem lines_refused_as_meta (this : Server) (request : Request)
        (v w : value) (X : list value) (st : State) :
  String.eqb (Server.format this) "json_meta"
  || String.eqb (Server.format this) "json_array" = true ->
  forallb serializable (v :: w :: X) = true ->
  exec (Server.handleRequestData this request (stringify_lines (v :: w :: X))) st
  = refused_payload (stringify_lines (v :: w :: X)) st.
Proof.
  intros Hf H. rewrite handleRequestData_eq.
  pose proof (lines_not_one_text v w X H) as Hp.
  destruct (String.eqb_spec (stringify_lines (v :: w :: X)) "{}") as [E | _];
    [rewrite E in Hp; discriminate Hp |].
  cbn zeta. unfold Server.parse_try. rewrite Hf, Hp. reflexivity.
Qed.

Lemma lines_refused_as_meta_witness :
  exec (Server.handleRequestData (Server.initialize None) plain mock_jsonNewLine)
    initial
  = refused_payload mock_jsonNewLine initial.
Proof.
  unfold mock_jsonNewLine, mock_interactions.
  apply lines_refused_as_meta; reflexivity.
Defined.

(** *** Padding *)

Lemma strip_any_ws (c : ascii) (t : list ascii) :
  is_json_ws c = true -> strip_any white_space (c :: t) = Some t.
Proof. each_char c; intros H; try discriminate H; reflexivity. Qed.

Lemma strip_any_rev_ws (c : ascii) (t : list ascii) :
  is_json_ws c = true ->
  strip_any (map (@rev ascii) white_space) (c :: t) = Some t.
Proof. each_char c; intros H; try discriminate H; reflexivity. Qed.

Lemma trim_start_padding (ws : list (list ascii)) (l : list ascii) :
  (forall c t, is_json_ws c = true -> strip_any ws (c :: t) = Some t) ->
  strip_any ws l = None ->
  forall (p : list ascii) (fuel : nat),
    forallb is_json_ws p = true -> (List.length p <= fuel)%nat ->
    trim_start fuel ws (p ++ l) = l.
Proof.
  intros Hws Hl. induction p as [| c p IH]; intros fuel Hp Hfuel.
  - apply trim_start_none, Hl.
  - cbn [forallb] in Hp. apply andb_prop in Hp as [Hc Hp].
    destruct fuel as [| fuel]; [cbn in Hfuel; lia |].
    cbn [trim_start app]. rewrite (Hws c _ Hc).
    apply IH; [exact Hp | cbn in Hfuel; lia].
Qed.

Lemma forallb_rev {A} (f : A -> bool) (l : list A) :
  forallb f (rev l) = forallb f l.
Proof.
  induction l as [| x l IH]; [reflexivity |].
  cbn [rev forallb]. rewrite forallb_app, IH. cbn. rewrite andb_true_r.
  apply andb_comm.
Qed.

(** [trim] takes the JSON white space off both ends of a text that starts
    and ends with a solid character. *)
Lemma trim_padded (p1 l p2 : list ascii) :
  forallb is_json_ws p1 = true -> forallb is_json_ws p2 = true ->
  l <> [] -> solid (hd "0"%char l) = true -> solid (last l "0"%char) = true ->
  trim (string_of_list_ascii (p1 ++ l ++ p2)) = string_of_list_ascii l.
Proof.
  intros H1 H2 Hne Hh Hl. unfold trim, lit.
  rewrite list_ascii_of_string_of_list_ascii, length_string_of_list_ascii.
  rewrite (trim_start_padding white_space (l ++ p2) strip_any_ws).
  - rewrite rev_app_distr.
    destruct (last_rev_head l "0"%char Hne) as (r & Er).
    rewrite (trim_start_padding _ (rev l) strip_any_rev_ws).
    + rewrite rev_involutive. reflexivity.
    + rewrite Er. apply strip_any_rev_solid, Hl.
    + rewrite forallb_rev. exact H2.
    + rewrite length_rev, length_app. lia.
  - destruct l as [| c t]; [contradiction |]. apply strip_any_solid, Hh.
  - exact H1.
  - rewrite length_app. lia.
Qed.

Lemma trim_blank (p : list ascii) :
  forallb is_json_ws p = true -> trim (string_of_list_ascii p) = ""%string.
Proof.
  intros H. unfold trim, lit.
  rewrite list_ascii_of_string_of_list_ascii, length_string_of_list_ascii.
  assert (E : forall n, (List.length p <= n)%nat ->
                        trim_start n white_space p = []).
  { intros n Hn. rewrite <- (app_nil_r p).
    apply (trim_start_padding white_space [] strip_any_ws);
      [reflexivity | exact H | exact Hn]. }
  rewrite E by lia. reflexivity.
Qed.

Lemma skip_ws_blank (p : list ascii) :
  forallb is_json_ws p = true -> skip_ws p = [].
Proof.
  induction p as [| c p IH]; [reflexivity |]. cbn [forallb skip_ws].
  intros H. apply andb_prop in H as [Hc H]. rewrite Hc. exact (IH H).
Qed.

Lemma padded_check (p1 p2 : list ascii) (X : list value) :
  forallb is_json_ws p1 = true -> forallb is_json_ws p2 = true ->
  X <> [] -> forallb serializable X = true ->
  padded p1 X p2 = "{}"%string -> p1 ++ p2 = [] /\ X = [VObj []].
Proof.
  intros H1 H2 Hne Hs E. unfold padded in E. apply (f_equal lit) in E.
  unfold lit at 1 in E. rewrite list_ascii_of_string_of_list_ascii in E.
  pose proof (lines_ends X Hne Hs) as (Hn & Hfst & Hlst).
  rewrite <- lines_text in Hn, Hfst, Hlst by exact Hs.
  destruct p1 as [| a p1].
  - destruct p2 as [| b p2].
    + split; [reflexivity |]. apply lines_check; try assumption.
      cbn [app] in E. rewrite app_nil_r in E.
      rewrite <- (string_of_list_ascii_of_string (stringify_lines X)).
      unfold lit in E. rewrite E. reflexivity.
    + exfalso. cbn [app] in E.
      apply (f_equal (fun s => last s "0"%char)) in E.
      rewrite last_app_ne in E by discriminate.
      assert (Hb : is_json_ws (last (b :: p2) "0"%char) = true).
      { clear - H2. revert b H2. induction p2 as [| c p2 IH]; intros b H2.
        - cbn in *. rewrite andb_true_r in H2. exact H2.
        - cbn [forallb] in H2. apply andb_prop in H2 as [_ H2].
          change (last (b :: c :: p2) "0"%char) with (last (c :: p2) "0"%char).
          apply IH, H2. }
      rewrite E in Hb. discriminate Hb.
  - exfalso. cbn [forallb] in H1. apply andb_prop in H1 as [Ha _].
    cbn [app] in E. injection E as -> _. discriminate Ha.
Qed.

(** X14: the newline format tolerates white space around the records.  For
    every non-empty array X of JSON-serializable values, the lines of X
    between two runs of spaces, tabs, line feeds and carriage returns are
    parsed to X and delivered; with such padding the single empty object
    is delivered too, as data and not as a check. *)
Theorem newline_tolerates_padding (this : Server) (request : Request)
        (p1 p2 : list ascii) (X : list value) (st : State) :
  String.eqb (Server.format this) "json_meta"
  || String.eqb (Server.format this) "json_array" = false ->
  forallb is_json_ws p1 = true -> forallb is_json_ws p2 = true ->
  X <> [] -> forallb serializable X = true ->
  p1 ++ p2 <> [] \/ X <> [VObj []] ->
  Server.parse_try this (padded p1 X p2) = Some (VArr X)
  /\ emitted (exec (Server.handleRequestData this request (padded p1 X p2)) st)
     = emitted st ++
         [Data (VArr X) (meta_of request) (truthy_bool (Server.confirmData this))]
  /\ parsed (exec (Server.handleRequestData this request (padded p1 X p2)) st)
     = parsed st ++ [padded p1 X p2].
Proof.
  intros Hf H1 H2 Hne Hs Hx.
  assert (Hp : Server.parse_try this (padded p1 X p2) = Some (VArr X)).
  { unfold Server.parse_try, padded. rewrite Hf.
    destruct (lines_ends X Hne Hs) as (Hn & Hfst & Hlst).
    rewrite <- lines_text in Hn, Hfst, Hlst by exact Hs.
    rewrite trim_padded;
      [| exact H1 | exact H2 | exact Hn | apply starter_solid, Hfst
       | apply closer_solid, Hlst].
    unfold lit. rewrite string_of_list_ascii_of_string.
    rewrite lines_text by exact Hs.
    rewrite split_join;
      [| destruct X; [contradiction | discriminate]
       | apply text_no_LF; exact Hs].
    rewrite map_parse_text by exact Hs. reflexivity. }
  split; [exact Hp |].
  rewrite handleRequestData_eq, Hp.
  destruct (String.eqb_spec (padded p1 X p2) "{}") as [E | _].
  { exfalso. destruct (padded_check p1 p2 X H1 H2 Hne Hs E) as [Ep Ex].
    destruct Hx as [Hx | Hx]; contradiction. }
  cbn zeta. cbn [truthy].
  destruct (emitData_emitted this request (VArr X)
              (set_parsed (parsed st ++ [padded p1 X p2]) st)) as [E1 E2].
  rewrite E1, E2. split; reflexivity.
Qed.

Lemma newline_tolerates_padding_witness :
  padded [] [VObj []] [LF] = String "{" (String "}" (String LF ""))
  /\ emitted (exec (Server.handleRequestData
                      (Server.initialize (Some (with_format "json_new_line")))
                      plain (padded [] [VObj []] [LF])) initial)
     = [Data (VArr [VObj []]) (meta_of plain) false].
Proof.
  split; [reflexivity |].
  destruct (newline_tolerates_padding
              (Server.initialize (Some (with_format "json_new_line"))) plain
              [] [LF] [VObj []] initial eq_refl eq_refl eq_refl
              ltac:(discriminate) eq_refl
              ltac:(left; discriminate)) as (_ & E & _).
  exact E.
Defined.

(** X15: a payload of JSON white space only, the empty payload included,
    is refused under every format: 400, one refusal, no data and no
    check. *)
Theorem blank_payload_is_refused (this : Server) (request : Request)
        (rawData : string) (st : State) :
  forallb is_json_ws (lit rawData) = true ->
  exec (Server.handleRequestData this request rawData) st
  = refused_payload rawData st.
Proof.
  intros H. rewrite handleRequestData_eq.
  destruct (String.eqb_spec rawData "{}") as [-> | _]; [discriminate H |].
  cbn zeta.
  assert (Hp : Server.parse_try this rawData = None); [| rewrite Hp; reflexivity].
  unfold Server.parse_try.
  destruct (_ || _).
  - unfold JSON_parse. cbn [parse_value]. rewrite skip_ws_blank by exact H.
    reflexivity.
  - rewrite <- (string_of_list_ascii_of_string rawData).
    rewrite trim_blank by exact H. reflexivity.
Qed.

Lemma blank_payload_is_refused_witness :
  map statusCode
    (responses (exec (Server.handleRequestData (Server.initialize None) plain
                        "") initial)) = [400]
  /\ map statusCode
       (responses (exec (Server.handleRequestData
                           (Server.initialize (Some (with_format "json_new_line")))
                           plain (String " " (String LF ""))) initial)) = [400].
Proof.
  split.
  - rewrite (blank_payload_is_refused (Server.initialize None) plain "" initial
               eq_refl). reflexivity.
  - rewrite (blank_payload_is_refused
               (Server.initialize (Some (with_format "json_new_line"))) plain
               (String " " (String LF "")) initial eq_refl). reflexivity.
Defined.

Lemma map_parse_fails (l : list string) (line : string) :
  In line l -> JSON_parse line = None -> Server.map_parse l = None.
Proof.
  induction l as [| x l IH]; [contradiction |]. intros [-> | Hin] Hp.
  - cbn [Server.map_parse]. rewrite Hp. reflexivity.
  - cbn [Server.map_parse]. rewrite (IH Hin Hp).
    destruct (JSON_parse x); reflexivity.
Qed.

(** X16: under the newline format a batch is delivered whole or not at
    all.  When one line of the trimmed payload is not a JSON text, an
    empty line between two records for one, the request is refused with
    400 and no record of it is delivered. *)
Theorem newline_batch_is_all_or_nothing (this : Server) (request : Request)
        (rawData line : string) (st : State) :
  String.eqb (Server.format this) "json_meta"
  || String.eqb (Server.format this) "json_array" = false ->
  In line (split LF (trim rawData)) ->
  JSON_parse line = None ->
  exec (Server.handleRequestData this request rawData) st
  = refused_payload rawData st.
Proof.
  intros Hf Hin Hp. rewrite handleRequestData_eq.
  destruct (String.eqb_spec rawData "{}") as [-> | _].
  { exfalso. vm_compute in Hin. destruct Hin as [<- | []].
    vm_compute in Hp. discriminate Hp. }
  cbn zeta. unfold Server.parse_try. rewrite Hf.
  rewrite (map_parse_fails _ line Hin Hp). reflexivity.
Qed.

Lemma newline_batch_is_all_or_nothing_witness :
  exec (Server.handleRequestData
          (Server.initialize (Some (with_format "json_new_line"))) plain
          (String "1" (String LF (String LF (String "2" "")))))
    initial
  = refused_payload (String "1" (String LF (String LF (String "2" "")))) initial.
Proof.
  apply (newline_batch_is_all_or_nothing
           (Server.initialize (Some (with_format "json_new_line"))) plain
           _ ""%string).
  - reflexivity.
  - vm_compute. right. left. reflexivity.
  - reflexivity.
Defined.

(** ** Basic authentication *)

Local Open Scope N_scope.

Lemma b64_char_value (n : N) :
  n < 64 ->
  b64_value (b64_char n) = Some n
  /\ Ascii.eqb (b64_char n) "=" = false
  /\ Ascii.eqb (b64_char n) " " = false.
Proof.
  intros H.
  assert (A : forallb (fun k => match b64_value (b64_char k) with
                                | Some v => (v =? k)
                                | None => false
                                end
                                && negb (Ascii.eqb (b64_char k) "=")
                                && negb (Ascii.eqb (b64_char k) " "))
                (map N.of_nat (seq 0 64)) = true) by (vm_compute; reflexivity).
  rewrite forallb_forall in A.
  specialize (A n).
  assert (I : In n (map N.of_nat (seq 0 64))).
  { apply in_map_iff. exists (N.to_nat n). split; [apply N2Nat.id |].
    apply in_seq. lia. }
  specialize (A I).
  apply andb_prop in A as [A A3]. apply andb_prop in A as [A1 A2].
  destruct (b64_value (b64_char n)) as [v |]; [| discriminate].
  apply N.eqb_eq in A1. subst v.
  apply negb_true_iff in A2, A3. auto.
Qed.

Lemma code_bound (c : ascii) : code c < 256.
Proof. apply N_ascii_bounded. Qed.

Lemma chr_code (c : ascii) : chr (code c) = c.
Proof. apply ascii_N_embedding. Qed.

Lemma sextets_char (n : N) (r : list ascii) :
  n < 64 -> sextets (b64_char n :: r) = n :: sextets r.
Proof.
  intros H. destruct (b64_char_value n H) as (Hv & He & _).
  cbn [sextets]. rewrite He, Hv. reflexivity.
Qed.

Lemma list_ind3 {A} (P : list A -> Prop) :
  P [] -> (forall a, P [a]) -> (forall a b, P [a; b]) ->
  (forall a b c r, P r -> P (a :: b :: c :: r)) ->
  forall l, P l.
Proof.
  intros H0 H1 H2 H3 l.
  assert (G : P l /\ (forall a, P (a :: l)) /\ (forall a b, P (a :: b :: l))).
  { induction l as [| x l (IH0 & IH1 & IH2)]; [auto |].
    split; [apply IH1 |]. split; [intros a; apply IH2 |].
    intros a b. apply H3, IH0. }
  exact (proj1 G).
Qed.

Ltac euclid := zify; Z.to_euclidean_division_equations; lia.

Lemma chr_eq (n : N) (c : ascii) : n = code c -> chr n = c.
Proof. intros ->. apply chr_code. Qed.

(** Decoding what [toString('base64')] wrote gives the bytes back. *)
Lemma base64_round_trip (l : list ascii) :
  b64_bytes (sextets (b64_chars l)) = l.
Proof.
  induction l as [| a | a b | a b c r IH] using list_ind3.
  - reflexivity.
  - pose proof (code_bound a). cbn [b64_chars].
    rewrite !sextets_char by euclid.
    cbn [sextets Ascii.eqb Bool.eqb b64_bytes].
    f_equal. apply chr_eq. euclid.
  - pose proof (code_bound a). pose proof (code_bound b). cbn [b64_chars].
    rewrite !sextets_char by euclid.
    cbn [sextets Ascii.eqb Bool.eqb b64_bytes].
    f_equal; [apply chr_eq; euclid |].
    f_equal. apply chr_eq. euclid.
  - pose proof (code_bound a). pose proof (code_bound b).
    pose proof (code_bound c). cbn [b64_chars].
    rewrite !sextets_char by euclid.
    cbn [b64_bytes]. rewrite IH.
    f_equal; [apply chr_eq; euclid |].
    f_equal; [apply chr_eq; euclid |].
    f_equal. apply chr_eq. euclid.
Qed.

Local Close Scope N_scope.

Lemma b64_chars_no_space (l : list ascii) :
  existsb (fun c => Ascii.eqb c " ") (b64_chars l) = false.
Proof.
  assert (S : forall n, (n < 64)%N -> Ascii.eqb (b64_char n) " " = false)
    by (intros n H; apply (b64_char_value n H)).
  induction l as [| a | a b | a b c r IH] using list_ind3.
  - reflexivity.
  - pose proof (code_bound a). cbn [b64_chars existsb].
    rewrite !S by euclid. reflexivity.
  - pose proof (code_bound a). pose proof (code_bound b).
    cbn [b64_chars existsb]. rewrite !S by euclid. reflexivity.
  - pose proof (code_bound a). pose proof (code_bound b).
    pose proof (code_bound c).
    cbn [b64_chars existsb]. rewrite !S by euclid. exact IH.
Qed.

Lemma base64_toString_round_trip (s : string) :
  base64_toString (toString_base64 s) = s.
Proof.
  unfold base64_toString, toString_base64, lit.
  rewrite list_ascii_of_string_of_list_ascii, base64_round_trip.
  apply string_of_list_ascii_of_string.
Qed.

Lemma credentials_of_basic (request : Request) (user pass : string) :
  headers request !! "authorization"%string = Some (basic user pass) ->
  credentials_text request = user +:+ String ":" pass.
Proof.
  intros H. unfold credentials_text. rewrite H.
  assert (E : or_str (Some (basic user pass)) "" = basic user pass).
  { unfold or_str, truthy_str. reflexivity. }
  rewrite E. unfold basic.
  set (enc := toString_base64 (user +:+ String ":" pass)).
  change ("Basic " +:+ enc)%string with ("Basic" +:+ String " " enc)%string.
  rewrite split_first by reflexivity.
  rewrite split_single by (unfold enc, toString_base64; rewrite contains_lit;
                           apply b64_chars_no_space).
  change (last (Some <$> ["Basic"%string; enc]) None) with (Some enc).
  assert (E' : or_str (Some enc) "" = enc).
  { unfold or_str, truthy_str. destruct (String.eqb_spec enc ""); cbn; congruence. }
  rewrite E'. apply base64_toString_round_trip.
Qed.

(** X17: a client that sends the header of HTTP basic authentication for
    the configured username and password, Basic followed by the base64 of
    [user:pass] with its padding, is always authenticated, whatever the
    bytes of the two (but for a colon, which the server cuts the decoded
    text at). *)
Theorem basic_header_authenticates (this : Server) (request : Request)
        (user pass : string) (st : State) :
  get (opt_username (Server.options this)) = Some user ->
  get (opt_password (Server.options this)) = Some pass ->
  contains ":" user = false -> contains ":" pass = false ->
  headers request !! "authorization"%string = Some (basic user pass) ->
  Server.validateAuthentication this request st = (true, st).
Proof.
  intros Eu Ep Cu Cp H.
  unfold Server.validateAuthentication.
  destruct (negb _); [reflexivity |].
  fold (credentials_text request).
  rewrite (credentials_of_basic request user pass H).
  rewrite split_first, split_single by assumption.
  rewrite Eu, Ep.
  change ([user; pass] !! 0%nat) with (Some user).
  change ([user; pass] !! 1%nat) with (Some pass).
  rewrite !bool_decide_eq_true_2 by reflexivity. reflexivity.
Qed.

Lemma basic_header_authenticates_witness :
  basic "lorem" "ipsum" = "Basic bG9yZW06aXBzdW0="%string
  /\ Server.validateAuthentication
       (Server.initialize (Some (with_credentials "lorem" "ipsum")))
       (authorized (basic "lorem" "ipsum")) initial = (true, initial).
Proof.
  split; [vm_compute; reflexivity |].
  apply (basic_header_authenticates
           (Server.initialize (Some (with_credentials "lorem" "ipsum")))
           (authorized (basic "lorem" "ipsum")) "lorem" "ipsum");
    reflexivity.
Defined.

(** ** The validators *)

Lemma run_turned_away this request l code reason st :
  run this request l (turned_away code reason) = Some st ->
  l = [] /\ st = turned_away code reason.
Proof.
  destruct l as [| i l]; cbn [run].
  - intros [= <-]. auto.
  - unfold step. replace (enabled i (turned_away code reason)) with false
      by (destruct i; reflexivity).
    discriminate.
Qed.

Lemma validateAuthentication_cases this request st :
  Server.validateAuthentication this request st = (true, st)
  \/ Server.validateAuthentication this request st
     = (false,
        set_emitted
          (emitted st ++
             [Refused "Request did not contain required authentication headers"])
          (set_responses (write_once (responses st) (response_of 401)) st)).
Proof.
  unfold Server.validateAuthentication.
  destruct (negb _); [left; reflexivity |].
  destruct (_ && _); [left; reflexivity | right; reflexivity].
Qed.

(** X18: the validators run in order and the first failure is the whole
    answer.  A request that fails authentication gets one 401 and one
    refusal whatever its path; a request that passes authentication and
    fails the path check gets one 404 and one refusal that names both
    paths.  In both cases no handler is registered: no event of the
    request is ever processed. *)
Theorem turned_away_request (this : Server) (request : Request)
        (l : list Input) (st : State) :
  serve this request l = Some st ->
  (fst (Server.validateAuthentication this request initial) = false ->
   l = []
   /\ st = turned_away 401
             "Request did not contain required authentication headers")
  /\ (fst (Server.validateAuthentication this request initial) = true ->
      starts_with (Server.path this) (pathname (url_parse (url request))) = false ->
      l = [] /\ st = turned_away 404 (path_message this request)).
Proof.
  unfold serve, Server.handleRequest. monad.
  destruct (validateAuthentication_cases this request initial) as [E | E];
    rewrite E; cbn [fst negb]; intros Hrun.
  - split; [discriminate |]. intros _ Hp.
    unfold Server.validatePath in Hrun. rewrite Hp in Hrun.
    apply (run_turned_away this request l 404 (path_message this request) st).
    exact Hrun.
  - split; [| discriminate]. intros _.
    apply (run_turned_away this request l 401 _ st). exact Hrun.
Qed.

Lemma turned_away_request_witness :
  serve (Server.initialize (Some (Build_Options Absent Absent
                                    (Own (Some "/lorem/ipsum"%string))
                                    Absent Absent Absent
                                    (Own (Some "lorem"%string))
                                    (Own (Some "ipsum"%string)))))
    {| url := "/foo/bar"; headers := ∅ |} []
  = Some (turned_away 401
            "Request did not contain required authentication headers").
Proof.
  destruct (turned_away_request
              (Server.initialize (Some (Build_Options Absent Absent
                                          (Own (Some "/lorem/ipsum"%string))
                                          Absent Absent Absent
                                          (Own (Some "lorem"%string))
                                          (Own (Some "ipsum"%string)))))
              {| url := "/foo/bar"; headers := ∅ |} [] _ eq_refl) as [H _].
  destruct (H eq_refl) as [_ <-]. reflexivity.
Defined.

Lemma until_prefix (stop : ascii -> bool) (p s : string) :
  forallb (fun c => negb (stop c)) (lit p) = true ->
  until stop (p +:+ s) = (p +:+ fst (until stop s), snd (until stop s)).
Proof.
  induction p as [| c p IH]; intros H.
  - change ("" +:+ s)%string with s. destruct (until stop s); reflexivity.
  - change (forallb (fun c => negb (stop c)) (c :: lit p) = true) in H.
    cbn [forallb] in H. apply andb_prop in H as [Hc H].
    apply negb_true_iff in Hc.
    change (String c p +:+ s) with (String c (p +:+ s)).
    cbn [until]. rewrite Hc, (IH H). reflexivity.
Qed.

Lemma starts_with_app (p s : string) : starts_with p (p +:+ s) = true.
Proof.
  unfold starts_with.
  assert (E : strip_prefix (lit p) (lit (p +:+ s)) = Some (lit s)).
  { induction p as [| c p IH]; [reflexivity |].
    change (lit (String c p +:+ s)) with (c :: lit (p +:+ s)).
    change (lit (String c p)) with (c :: lit p).
    cbn [strip_prefix]. rewrite Ascii.eqb_refl. exact IH. }
  rewrite E. reflexivity.
Qed.

(** X19: the path check is a prefix test on the path of the URL.  Every
    URL that continues the configured path passes, by whatever suffix: a
    further segment, a query string, or more characters of the same
    segment.  Stated for URLs of letters, digits and the characters that
    [url_plain] lists, which [url.parse] leaves as they are, and for a
    configured path that is not empty and has no question mark or hash
    sign. *)
Theorem path_prefix_is_accepted (this : Server) (request : Request)
        (suffix : string) (st : State) :
  url request = Server.path this +:+ suffix ->
  forallb url_plain (lit (url request)) = true ->
  Server.path this <> ""%string ->
  forallb (fun c => negb (Ascii.eqb c "?" || Ascii.eqb c "#"))
    (lit (Server.path this)) = true ->
  Server.validatePath this request st = (true, st).
Proof.
  intros Hu _ _ Hp. unfold Server.validatePath, url_parse. rewrite Hu.
  rewrite (until_prefix _ _ _ Hp). cbn [fst snd].
  destruct (until _ (snd _)). cbn [pathname].
  rewrite starts_with_app. reflexivity.
Qed.

Lemma path_prefix_is_accepted_witness :
  Server.validatePath
    (Server.initialize (Some (Build_Options Absent Absent
                                (Own (Some "/lorem/ipsum"%string))
                                Absent Absent Absent Absent Absent)))
    {| url := "/lorem/ipsumdolor/sit?amet=1"; headers := ∅ |} initial
  = (true, initial).
Proof.
  apply (path_prefix_is_accepted _ _ "dolor/sit?amet=1"); try reflexivity.
  discriminate.
Defined.

(** ** The two revisions *)

(** X20: the two revisions handle a payload alike.  From corresponding
    states, the 'end' handler of the earlier revision and
    [handleRequestData] emit the same notifications (but for the meta
    data) and leave the timer and the callback in the same state; they
    write the same response, except after an unconfirmed delivery, where
    the earlier revision sends the body OK and the later one the success
    object. *)
Theorem revisions_handle_payload_alike (this : Server) (request : Request)
        (rawData : string) (st : State) :
  let st' := exec (Server.handleRequestData this request rawData) st in
  let lst' := Legacy.onEnd this rawData (legacy_view st) in
  l_emitted lst' = map forget (emitted st')
  /\ l_doneTimeout lst' = doneTimeout st'
  /\ l_doneHeld lst' = doneHeld st'
  /\ map statusCode (l_responses lst') = map statusCode (responses st')
  /\ (l_responses lst' = responses st'
      \/ (responses st = []
          /\ l_responses lst' = [legacy_ok]
          /\ responses st' = [response_of 200]
          /\ exists v, emitted st'
                       = emitted st ++ [Data v (meta_of request) false])).
Proof.
  cbn zeta. rewrite handleRequestData_eq.
  unfold Legacy.onEnd, Legacy.handleCheck, Legacy.parse.
  destruct st as [ph buf sz d rs em tm held ps].
  destruct (String.eqb rawData "{}").
  { destruct rs; cbn; rewrite !map_app; repeat split; auto. }
  cbn zeta. destruct (Server.parse_try this rawData) as [v |].
  2:{ destruct rs; cbn; rewrite !map_app; repeat split; auto. }
  destruct (truthy v); cbn [negb].
  2:{ cbn. repeat split; auto. }
  unfold Server.emitData, Server.done, Server.clearTimeout, Legacy.emitData,
    Legacy.done, Legacy.clearTimeout. monad.
  destruct (truthy_bool (Server.confirmData this)); cbn; rewrite !map_app.
  - repeat split; auto.
  - destruct rs as [| r0 rs]; cbn.
    + repeat split; auto. right. repeat split; auto. exists v. reflexivity.
    + repeat split; auto.
Qed.

(** ** The reason of the size rejection *)

Lemma strip_zeros_split (l : list ascii) :
  exists k, l = repeat "0"%char k ++ strip_zeros l.
Proof.
  induction l as [| c l (k & IH)]; [exists 0%nat; reflexivity |].
  cbn [strip_zeros]. destruct (Ascii.eqb_spec c "0") as [-> | _].
  - exists (S k). cbn [repeat app]. f_equal. exact IH.
  - exists 0%nat. reflexivity.
Qed.

Lemma strip_zeros_hd (l : list ascii) :
  match strip_zeros l with
  | [] => True
  | c :: _ => Ascii.eqb c "0" = false
  end.
Proof.
  induction l as [| c l IH]; [exact I |]. cbn [strip_zeros].
  destruct (Ascii.eqb c "0") eqn:E; [exact IH | exact E].
Qed.

(** A run of digits that does not start with a zero is a significand
    followed by zeros. *)
Lemma digits_significand (ds : list ascii) (d : ascii) (r : list ascii) :
  ds = d :: r -> Ascii.eqb d "0" = false -> forallb is_digit ds = true ->
  exists s k, ds = s ++ repeat "0"%char k /\ significand s.
Proof.
  intros E Hd Hds.
  destruct (strip_zeros_split (rev ds)) as (k & Hk).
  exists (rev (strip_zeros (rev ds))), k.
  assert (Es : ds = rev (strip_zeros (rev ds)) ++ repeat "0"%char k).
  { rewrite <- (rev_involutive ds) at 1. rewrite Hk at 1.
    rewrite rev_app_distr, rev_repeat. reflexivity. }
  split; [exact Es |].
  set (s := rev (strip_zeros (rev ds))) in *.
  assert (Hs : s <> []).
  { intros E0. rewrite E0 in Es. cbn [app] in Es. rewrite E in Es.
    destruct k; [discriminate |]. cbn in Es. injection Es as -> _.
    discriminate Hd. }
  split; [| split].
  - rewrite Es, forallb_app in Hds. apply andb_prop in Hds as [H _]. exact H.
  - destruct s as [| c t]; [contradiction |].
    exists c, t. split; [reflexivity |].
    rewrite E in Es. cbn in Es. injection Es as <- _. exact Hd.
  - pose proof (strip_zeros_hd (rev ds)) as Hh.
    destruct (last_rev_head s "0"%char Hs) as (t & Et).
    unfold s in Et at 1. rewrite rev_involutive in Et.
    rewrite Et in Hh. exact Hh.
Qed.

Lemma nzhead_head (d : Decimal.uint) :
  match Decimal.nzhead d with Decimal.D0 _ => False | _ => True end.
Proof. induction d; cbn; auto. Qed.

Lemma to_uint_head (n : N) :
  (0 < n)%N ->
  match N.to_uint n with Decimal.D0 _ | Decimal.Nil => False | _ => True end.
Proof.
  intros H.
  assert (E : N.to_uint n = Decimal.unorm (N.to_uint n)).
  { rewrite <- DecimalN.Unsigned.to_of, DecimalN.Unsigned.of_to. reflexivity. }
  destruct n as [| p]; [lia |].
  pose proof (DecimalPos.Unsigned.to_uint_nonzero p) as Hz.
  pose proof (nzhead_head (N.to_uint (N.pos p))) as Hh.
  cbn [N.to_uint] in *. unfold Decimal.unorm in E.
  destruct (Decimal.nzhead (Pos.to_uint p)) eqn:En; rewrite E; auto.
Qed.

Lemma dec_digits_head (n : N) :
  (0 < n)%N ->
  exists d r, dec_digits n = d :: r /\ Ascii.eqb d "0" = false.
Proof.
  intros H. pose proof (to_uint_head n H) as Hh.
  unfold dec_digits, NilZero.string_of_uint.
  destruct (N.to_uint n); try contradiction;
    cbn [NilEmpty.string_of_uint lit list_ascii_of_string];
    eexists _, _; (split; [reflexivity | reflexivity]).
Qed.

Lemma toString_integer (n : Z) :
  0 < n -> (List.length (dec_digits (Z.to_N n)) <= 21)%nat ->
  Server.Z_toString n = decimal (Z.to_N n).
Proof.
  intros Hn Hlen. unfold Server.Z_toString, number_of_Z, decimal.
  replace (Z.abs_N n) with (Z.to_N n) by lia.
  replace (n <? 0) with false by lia.
  destruct (dec_digits_head (Z.to_N n) ltac:(lia)) as (d & r & E & Hd).
  destruct (digits_significand _ d r E Hd (dec_digits_digits _)) as (s & k & Es & Hs).
  rewrite Es at 1. rewrite normalize_padded by exact Hs.
  pose proof Hs as (_ & (c & t & Ec & _) & _).
  unfold Number_toString. cbn [digits neg point]. rewrite Ec. rewrite <- Ec.
  rewrite Es in Hlen |- *. rewrite length_app, repeat_length in *.
  rewrite (proj2 (Z.leb_le (Z.of_nat (List.length s)) _)) by lia.
  rewrite (proj2 (Z.leb_le _ 21)) by lia.
  cbn [andb app].
  replace (Z.to_nat (Z.of_nat (List.length s + k) - Z.of_nat (List.length s))) with k by lia.
  rewrite <- Es. unfold dec_digits, lit.
  apply string_of_list_ascii_of_string.
Qed.

(** X21: the reason of the size rejection names the limit in plain decimal
    notation, for every limit of one to fifteen digits (an integer that a
    double holds exactly and that Number::toString writes without an
    exponent): a size over such a limit is answered with 413, the
    connection is destroyed and the refusal reads
    Post data exceeded limit of, the decimal numeral of the limit, bytes. *)
Theorem size_reason_names_limit (this : Server) (size : Z) (st : State) :
  0 < Server.maxSize this ->
  (String.length (decimal (Z.to_N (Server.maxSize this))) <= 15)%nat ->
  Server.maxSize this < size ->
  Server.validateSize this size st
  = (false, over_limit (decimal (Z.to_N (Server.maxSize this))) st).
Proof.
  intros Hn Hlen Hsize. unfold Server.validateSize.
  destruct (Z.leb_spec size (Server.maxSize this)); [lia |].
  monad. rewrite respond_code by discriminate. monad.
  rewrite toString_integer; [reflexivity | exact Hn |].
  unfold dec_digits. rewrite length_lit. unfold decimal in Hlen. lia.
Qed.

Lemma size_reason_names_limit_witness :
  emitted (snd (Server.validateSize
                  (Server.initialize (Some (with_maxSize 500))) 501 initial))
  = [Refused "Post data exceeded limit of 500 bytes"]
  /\ emitted (snd (Server.validateSize (Server.initialize None) 20971521 initial))
     = [Refused "Post data exceeded limit of 20971520 bytes"].
Proof.
  split.
  - rewrite (size_reason_names_limit
               (Server.initialize (Some (with_maxSize 500))) 501 initial)
      by (first [reflexivity | vm_compute; lia]).
    reflexivity.
  - rewrite (size_reason_names_limit (Server.initialize None) 20971521 initial)
      by (first [reflexivity | vm_compute; lia]).
    reflexivity.
Defined.
